(** * Bill extraction service: reconciliation and request orchestration

    A shallow embedding of [app/extraction_service.py], [app/main.py],
    [app/models.py] and the model constants of [app/config.py], with the
    properties of the amount reconciliation proved over it.

    Python [float] is IEEE-754 binary64.  It is modelled by the
    specification floats of the standard library ([spec_float] at
    precision 53 and maximal exponent 1024), whose operations are plain
    functions: they compute, and they can be analysed by cases. *)

From Stdlib Require Import ZArith List String Ascii Bool Lia DecimalString.
From Stdlib Require Import Floats.SpecFloat.
Import ListNotations.

Local Open Scope string_scope.
Local Open Scope Z_scope.

(* ================================================================== *)
(** ** Python floats *)

Module PyFloat.

Definition prec : Z := 53.
Definition emax : Z := 1024.

Definition float : Type := spec_float.

Definition zero : float := S754_zero false.
Definition nan : float := S754_nan.
Definition infinity (neg : bool) : float := S754_infinity neg.

Definition add : float -> float -> float := SFadd prec emax.
Definition sub : float -> float -> float := SFsub prec emax.
Definition mul : float -> float -> float := SFmul prec emax.
Definition div : float -> float -> float := SFdiv prec emax.
Definition abs : float -> float := SFabs.
Definition eqb : float -> float -> bool := SFeqb.
Definition ltb : float -> float -> bool := SFltb.

(** [x > y] of Python. *)
Definition gtb (x y : float) : bool := ltb y x.

(** The nearest float of an integer, ties to even; an integer beyond
    the range rounds to an infinity. *)
Definition of_Z (z : Z) : float := binary_normalize prec emax z 0 false.

Definition one : float := of_Z 1.
Definition hundred : float := of_Z 100.

(** The nearest float of [m * 10 ^ e10], ties to even: the value of a
    decimal literal. *)
Definition of_decimal (neg : bool) (m : Z) (e10 : Z) : float :=
  match m with
  | Zpos p =>
      match e10 with
      | Zneg k =>
          let '(q, e, l) :=
            SFdiv_core_binary prec emax (Zpos p) 0 (10 ^ Zpos k) 0 in
          binary_round_aux prec emax neg q e l
      | _ => binary_round prec emax neg (Z.to_pos (Zpos p * 10 ^ e10)) 0
      end
  | _ => S754_zero neg
  end.

(** [bool(x)]: a float is falsy exactly when it compares equal to zero,
    so both zeros are falsy and a NaN is truthy. *)
Definition truthy (x : float) : bool := negb (eqb x zero).

(** The integer nearest to [m * 2 ^ e * 100], ties to even. *)
Definition scaled_hundredths (m : positive) (e : Z) : Z :=
  let scaled := Zpos m * 100 in
  match e with
  | Zneg k =>
      let d := 2 ^ Zpos k in
      let '(q, r) := Z.div_eucl scaled d in
      match 2 * r ?= d with
      | Lt => q
      | Gt => q + 1
      | Eq => if Z.even q then q else q + 1
      end
  | _ => scaled * 2 ^ e
  end.

(** [round(x, 2)]: the exact value of [x] is rounded to two decimals,
    ties to even, and the decimal obtained is converted back to the
    nearest float.  A NaN, an infinity and a zero round to themselves;
    a value that rounds to nothing keeps its sign. *)
Definition round2 (x : float) : float :=
  match x with
  | S754_finite s m e =>
      match scaled_hundredths m e with
      | Zpos n => of_decimal s (Zpos n) (-2)
      | _ => S754_zero s
      end
  | _ => x
  end.

End PyFloat.

Import PyFloat.

(* ================================================================== *)
(** ** [float(str)]: the text of a float

    The builtin works on the characters of the text, which are read
    here from the bytes of the string as UTF-8.  It first maps the text
    to ASCII ([_PyUnicode_TransformDecimalAndSpaceToASCII]): a character
    below 127 is kept, any other white space of Unicode becomes a space,
    any other decimal digit of Unicode becomes the ASCII digit of its
    value, and anything else becomes a question mark, which no float
    contains.  It
    then checks the underscores, drops the white space of the C locale
    around the text (the tabulation, the line feed, the vertical
    tabulation, the form feed, the carriage return and the space, but
    not the separators 28 to 31 that [str.strip] removes) and reads an
    optional sign followed by [inf], [infinity], [nan] (in any case) or a
    decimal number with an optional exponent; digits may be grouped by
    single underscores.  The tables are those of Unicode 14.0, the
    version of CPython 3.11. *)

Module FloatText.

(** The ASCII white space of [str.isspace], which [str.strip] removes. *)
Definition is_space (c : ascii) : bool :=
  let n := nat_of_ascii c in
  ((9 <=? n) && (n <=? 13) || (n =? 32) || (28 <=? n) && (n <=? 31))%nat.

(** [Py_ISSPACE]: the white space of the C locale, which [float] skips. *)
Definition is_c_space (c : ascii) : bool :=
  let n := nat_of_ascii c in
  ((9 <=? n) && (n <=? 13) || (n =? 32))%nat.

Definition byte (c : ascii) : Z := Z.of_nat (nat_of_ascii c).

Definition continuation (b : Z) : bool := (128 <=? b) && (b <=? 191).

(** The code point of a well-formed sequence of two, three or four
    bytes: the shortest encoding only, no surrogate, nothing beyond
    U+10FFFF. *)
Definition two_bytes (b0 b1 : Z) : option Z :=
  if (194 <=? b0) && (b0 <=? 223) && continuation b1
  then Some ((b0 - 192) * 64 + (b1 - 128))
  else None.

Definition three_bytes (b0 b1 b2 : Z) : option Z :=
  let cp := (b0 - 224) * 4096 + (b1 - 128) * 64 + (b2 - 128) in
  if (224 <=? b0) && (b0 <=? 239) && continuation b1 && continuation b2
     && (2048 <=? cp) && negb ((55296 <=? cp) && (cp <=? 57343))
  then Some cp
  else None.

Definition four_bytes (b0 b1 b2 b3 : Z) : option Z :=
  let cp :=
    (b0 - 240) * 262144 + (b1 - 128) * 4096 + (b2 - 128) * 64 + (b3 - 128) in
  if (240 <=? b0) && (b0 <=? 244) && continuation b1 && continuation b2
     && continuation b3 && (65536 <=? cp) && (cp <=? 1114111)
  then Some cp
  else None.

(** The code points of a text.  A byte that starts no well-formed
    sequence is read as the code point of its own value. *)
Fixpoint code_points (l : list ascii) : list Z :=
  match l with
  | [] => []
  | c0 :: t0 =>
      match t0 with
      | [] => byte c0 :: code_points t0
      | c1 :: t1 =>
          match two_bytes (byte c0) (byte c1) with
          | Some cp => cp :: code_points t1
          | None =>
              match t1 with
              | [] => byte c0 :: code_points t0
              | c2 :: t2 =>
                  match three_bytes (byte c0) (byte c1) (byte c2) with
                  | Some cp => cp :: code_points t2
                  | None =>
                      match t2 with
                      | [] => byte c0 :: code_points t0
                      | c3 :: t3 =>
                          match four_bytes (byte c0) (byte c1) (byte c2)
                                  (byte c3) with
                          | Some cp => cp :: code_points t3
                          | None => byte c0 :: code_points t0
                          end
                      end
                  end
              end
          end
      end
  end.

(** The white space of Unicode from 127 on ([str.isspace]). *)
Definition unicode_spaces : list Z :=
  [133; 160; 5760; 8192; 8193; 8194; 8195; 8196; 8197; 8198; 8199; 8200;
   8201; 8202; 8232; 8233; 8239; 8287; 12288].

(** The digits zero of the decimal digits of Unicode; the digits one to
    nine follow each of them. *)
Definition decimal_zeros : list Z :=
  [48; 1632; 1776; 1984; 2406; 2534; 2662; 2790; 2918; 3046; 3174; 3302;
   3430; 3558; 3664; 3792; 3872; 4160; 4240; 6112; 6160; 6470; 6608; 6784;
   6800; 6992; 7088; 7232; 7248; 42528; 43216; 43264; 43472; 43504; 43600;
   44016; 65296; 66720; 68912; 69734; 69872; 69942; 70096; 70384; 70736;
   70864; 71248; 71360; 71472; 71904; 72016; 72784; 73040; 73120; 92768;
   92864; 93008; 120782; 120792; 120802; 120812; 120822; 123200; 123632;
   125264; 130032].

Definition is_unicode_space (cp : Z) : bool :=
  existsb (Z.eqb cp) unicode_spaces.

(** [Py_UNICODE_TODECIMAL] *)
Definition decimal_value (cp : Z) : option Z :=
  match find (fun z => (z <=? cp) && (cp <? z + 10)) decimal_zeros with
  | Some z => Some (cp - z)
  | None => None
  end.

(** One character of [_PyUnicode_TransformDecimalAndSpaceToASCII]. *)
Definition to_ascii (cp : Z) : ascii :=
  if cp <? 127 then ascii_of_nat (Z.to_nat cp)
  else if is_unicode_space cp then " "%char
  else
    match decimal_value cp with
    | Some d => ascii_of_nat (Z.to_nat (48 + d))
    | None => "?"%char
    end.

Definition digit_val (c : ascii) : option Z :=
  let n := Z.of_nat (nat_of_ascii c) in
  if (48 <=? n) && (n <=? 57) then Some (n - 48) else None.

Definition lower (c : ascii) : ascii :=
  let n := nat_of_ascii c in
  if ((65 <=? n) && (n <=? 90))%nat then ascii_of_nat (n + 32) else c.

Fixpoint lstrip (l : list ascii) : list ascii :=
  match l with
  | c :: rest => if is_space c then lstrip rest else l
  | [] => []
  end.

Definition strip (l : list ascii) : list ascii :=
  rev (lstrip (rev (lstrip l))).

Fixpoint skip_c_spaces (l : list ascii) : list ascii :=
  match l with
  | c :: rest => if is_c_space c then skip_c_spaces rest else l
  | [] => []
  end.

(** The text between the leading and the trailing white space that
    [float] skips. *)
Definition trim (l : list ascii) : list ascii :=
  rev (skip_c_spaces (rev (skip_c_spaces l))).

(** A run of digits with single underscores between digits, read after
    [cnt] digits of value [acc]: the value, the number of digits and
    what follows the run. *)
Fixpoint digits_from (acc cnt : Z) (l : list ascii) : Z * Z * list ascii :=
  match l with
  | c :: rest =>
      match digit_val c with
      | Some d => digits_from (10 * acc + d) (cnt + 1) rest
      | None =>
          if Ascii.eqb c "_"%char && (0 <? cnt) then
            match rest with
            | c2 :: rest2 =>
                match digit_val c2 with
                | Some d => digits_from (10 * acc + d) (cnt + 1) rest2
                | None => (acc, cnt, l)
                end
            | [] => (acc, cnt, l)
            end
          else (acc, cnt, l)
      end
  | [] => (acc, cnt, l)
  end.

Definition digitpart (l : list ascii) : Z * Z * list ascii :=
  digits_from 0 0 l.

Definition sign (l : list ascii) : bool * list ascii :=
  match l with
  | "-"%char :: rest => (true, rest)
  | "+"%char :: rest => (false, rest)
  | _ => (false, l)
  end.

(** [("e" | "E") [sign] digitpart], when there is one. *)
Definition exponent (l : list ascii) : option (Z * list ascii) :=
  match l with
  | c :: rest =>
      if Ascii.eqb (lower c) "e"%char then
        let '(neg, rest1) := sign rest in
        let '(v, cnt, rest2) := digitpart rest1 in
        if 0 <? cnt then Some (if neg then - v else v, rest2) else None
      else Some (0, l)
  | [] => Some (0, l)
  end.

(** [[digitpart] "." digitpart | digitpart ["."]], then the exponent:
    the mantissa and the power of ten. *)
Definition floatnumber (l : list ascii) : option (Z * Z) :=
  let '(ip, ic, rest) := digitpart l in
  let '(fp, fc, rest1) :=
    match rest with
    | "."%char :: r => digitpart r
    | _ => (0, 0, rest)
    end in
  if (0 <? ic) || (0 <? fc) then
    match exponent rest1 with
    | Some (e, []) => Some (ip * 10 ^ fc + fp, e - fc)
    | _ => None
    end
  else None.

Definition float_of_string (s : string) : option float :=
  let text := map to_ascii (code_points (list_ascii_of_string s)) in
  let '(neg, body) := sign (trim text) in
  let word := string_of_list_ascii (map lower body) in
  if String.eqb word "inf" || String.eqb word "infinity" then
    Some (infinity neg)
  else if String.eqb word "nan" then Some nan
  else
    match floatnumber body with
    | Some (m, e10) => Some (of_decimal neg m e10)
    | None => None
    end.

End FloatText.

(* ================================================================== *)
(** ** Decoded JSON and the builtins applied to it *)

#[local] Set Warnings "-register-all".

(** What [json.loads] returns.  An object is an association list looked
    up from the front; the decoder never yields a repeated key. *)
Inductive json : Type :=
| JNull
| JBool (b : bool)
| JInt (z : Z)
| JFloat (f : float)
| JStr (s : string)
| JList (l : list json)
| JDict (d : list (string * json)).

(** The exceptions the code under study can raise. *)
Inductive exn : Type :=
| AttributeError
| KeyError
| TypeError
| ValueError
| OverflowError
| ValidationError.

(** A computation that returns or raises. *)
Inductive result (A : Type) : Type :=
| Ok (a : A)
| Raise (e : exn).

Arguments Ok {A} a.
Arguments Raise {A} e.

Definition bind {A B : Type} (c : result A) (k : A -> result B) : result B :=
  match c with
  | Ok a => k a
  | Raise e => Raise e
  end.

Notation "x <- c ;; k" := (bind c (fun x => k))
  (at level 61, c at next level, right associativity).
Notation "' pat <- c ;; k" :=
  (bind c (fun x => match x with pat => k end))
  (at level 61, pat pattern, c at next level, right associativity).

Definition is_ok {A : Type} (c : result A) : bool :=
  match c with Ok _ => true | Raise _ => false end.

Fixpoint dict_get (d : list (string * json)) (k : string) : option json :=
  match d with
  | [] => None
  | (k', v) :: rest => if String.eqb k k' then Some v else dict_get rest k
  end.

(** [v.get(k, default)]: only a dict has the method. *)
Definition py_get (v : json) (k : string) (default : json) : result json :=
  match v with
  | JDict d =>
      Ok (match dict_get d k with Some x => x | None => default end)
  | _ => Raise AttributeError
  end.

(** [v[k]] for a string key. *)
Definition py_getitem (v : json) (k : string) : result json :=
  match v with
  | JDict d =>
      match dict_get d k with Some x => Ok x | None => Raise KeyError end
  | _ => Raise TypeError
  end.

(** The elements a [for] loop draws from a value: the elements of a list,
    the keys of a dict, the characters of a string. *)
Definition py_iter (v : json) : result (list json) :=
  match v with
  | JList l => Ok l
  | JDict d => Ok (map (fun kv => JStr (fst kv)) d)
  | JStr s =>
      Ok (map (fun c => JStr (String c EmptyString)) (list_ascii_of_string s))
  | _ => Raise TypeError
  end.

(** [bool(v)]. *)
Definition py_truthy (v : json) : bool :=
  match v with
  | JNull => false
  | JBool b => b
  | JInt z => negb (z =? 0)
  | JFloat f => PyFloat.truthy f
  | JStr s => negb (String.eqb s EmptyString)
  | JList l => match l with [] => false | _ => true end
  | JDict d => match d with [] => false | _ => true end
  end.

(** [float(v)]. *)
Definition py_float (v : json) : result float :=
  match v with
  | JNull => Raise TypeError
  | JBool b => Ok (if b then one else zero)
  | JInt z =>
      match of_Z z with
      | S754_infinity _ => Raise OverflowError
      | f => Ok f
      end
  | JFloat f => Ok f
  | JStr s =>
      match FloatText.float_of_string s with
      | Some f => Ok f
      | None => Raise ValueError
      end
  | JList _ => Raise TypeError
  | JDict _ => Raise TypeError
  end.

(** The two library functions whose exact text output the reconciliation
    does not depend on: [str(v)] of the interpreter, which always returns,
    and the validation by pydantic of a value given for a field declared
    [str], which returns the string kept or rejects the value. *)
Class Runtime : Type := {
  py_str : json -> string;
  validate_str : json -> option string
}.

(* ================================================================== *)
(** ** The typed data model ([app/models.py]) *)

Record BillItem : Type := {
  item_name : string;
  item_amount : float;
  item_rate : option float;
  item_quantity : option float
}.

Record PageWiseLineItems : Type := {
  page_no : string;
  bill_items : list BillItem;
  sub_total : option float
}.

Record ExtractedData : Type := {
  pagewise_line_items : list PageWiseLineItems;
  total_item_count : Z;
  reconciled_amount : float;
  actual_bill_total : option float;
  accuracy_percentage : option float
}.

Record BillExtractionResponse : Type := {
  is_success : bool;
  data : option ExtractedData;
  error : option string
}.

(* ================================================================== *)
(** ** [BillExtractionService.reconcile_amounts] *)

Section Reconciliation.

Context {RT : Runtime}.

(** [float(d[k]) if d.get(k) is not None else None] *)
Definition optional_float (d : json) (k : string) : result (option float) :=
  probe <- py_get d k JNull ;;
  match probe with
  | JNull => Ok None
  | _ =>
      raw <- py_getitem d k ;;
      f <- py_float raw ;;
      Ok (Some f)
  end.

(** The [BillItem(...)] built from one entry of [bill_items]: the
    arguments are evaluated in order, then the model is validated. *)
Definition make_bill_item (item_data : json) : result BillItem :=
  name <- py_get item_data "item_name" (JStr "Unknown") ;;
  amount_raw <- py_get item_data "item_amount" (JInt 0) ;;
  amount <- py_float amount_raw ;;
  rate <- optional_float item_data "item_rate" ;;
  quantity <- optional_float item_data "item_quantity" ;;
  match validate_str name with
  | Some n =>
      Ok {| item_name := n;
            item_amount := amount;
            item_rate := rate;
            item_quantity := quantity |}
  | None => Raise ValidationError
  end.

(** The inner loop, over the entries of one page, with the three
    variables it updates. *)
Fixpoint items_loop (entries : list json) (bill_items : list BillItem)
    (total_items : Z) (reconciled_amount : float)
  : result (list BillItem * Z * float) :=
  match entries with
  | [] => Ok (bill_items, total_items, reconciled_amount)
  | item_data :: rest =>
      bill_item <- make_bill_item item_data ;;
      items_loop rest (bill_items ++ [bill_item]) (total_items + 1)
        (add reconciled_amount (item_amount bill_item))
  end.

(** The outer loop, over the page entries. *)
Fixpoint pages_loop (pages : list json)
    (pagewise_items : list PageWiseLineItems)
    (total_items : Z) (reconciled_amount : float)
  : result (list PageWiseLineItems * Z * float) :=
  match pages with
  | [] => Ok (pagewise_items, total_items, reconciled_amount)
  | page_data :: rest =>
      raw_items <- py_get page_data "bill_items" (JList []) ;;
      entries <- py_iter raw_items ;;
      '(bill_items, total_items', reconciled_amount') <-
        items_loop entries [] total_items reconciled_amount ;;
      raw_no <- py_get page_data "page_no" (JStr "1") ;;
      sub <- optional_float page_data "sub_total" ;;
      pages_loop rest
        (pagewise_items ++
           [{| page_no := py_str raw_no;
               bill_items := bill_items;
               sub_total := sub |}])
        total_items' reconciled_amount'
  end.

(** [float(actual_total) if actual_total is not None else None] *)
Definition stated_total (extracted_data : json) : result (option float) :=
  actual_total <- py_get extracted_data "actual_bill_total" JNull ;;
  match actual_total with
  | JNull => Ok None
  | _ => f <- py_float actual_total ;; Ok (Some f)
  end.

(** [100 * (1 - abs(reconciled_amount - actual_total) / actual_total)] *)
Definition accuracy_formula (reconciled_amount actual_total : float) : float :=
  mul hundred
    (sub one (div (PyFloat.abs (sub reconciled_amount actual_total))
                actual_total)).

(** [if actual_total and actual_total > 0: ... round(accuracy, 2)] *)
Definition accuracy_of (reconciled_amount : float)
    (actual_total : option float) : option float :=
  match actual_total with
  | Some t =>
      if PyFloat.truthy t && gtb t zero
      then Some (round2 (accuracy_formula reconciled_amount t))
      else None
  | None => None
  end.

(** [round(actual_total, 2) if actual_total else None] *)
Definition rounded_total (actual_total : option float) : option float :=
  match actual_total with
  | Some t => if PyFloat.truthy t then Some (round2 t) else None
  | None => None
  end.

Definition reconcile_amounts (extracted_data : json) : result ExtractedData :=
  raw_pages <- py_get extracted_data "pagewise_line_items" (JList []) ;;
  pages <- py_iter raw_pages ;;
  '(pagewise_items, total_items, reconciled_amount) <-
    pages_loop pages [] 0 zero ;;
  actual_total <- stated_total extracted_data ;;
  Ok {| pagewise_line_items := pagewise_items;
        total_item_count := total_items;
        reconciled_amount := round2 reconciled_amount;
        actual_bill_total := rounded_total actual_total;
        accuracy_percentage := accuracy_of reconciled_amount actual_total |}.

End Reconciliation.

(* ================================================================== *)
(** ** The model constants of [app/config.py] *)

Module Config.
Definition GPT_MODEL : string := "gpt-4o".
Definition GPT_FALLBACK_MODEL : string := "gpt-4o-mini".
End Config.

(* ================================================================== *)
(** ** The extraction strategies and their dispatch *)

Definition newline : string := String (ascii_of_nat 10) EmptyString.

Definition str_lower (s : string) : string :=
  string_of_list_ascii (map FloatText.lower (list_ascii_of_string s)).

(** A request sent to a model provider: what is called, with which model,
    which prompt, and with or without the image. *)
Inductive LLMCall (Image : Type) : Type :=
| GeminiGenerate (prompt : string) (image : option Image)
| OpenAIChat (model : string) (prompt : string) (image : option Image).

Arguments GeminiGenerate {Image} prompt image.
Arguments OpenAIChat {Image} model prompt image.

(** The service object: the provider name and which client was built. *)
Record BillExtractionService : Type := {
  provider : string;
  openai_client : bool;
  gemini_model : bool
}.

(** [BillExtractionService.__init__], from the configuration read at
    start-up. *)
Definition init_service (LLM_PROVIDER OPENAI_API_KEY GEMINI_API_KEY : string)
    (GEMINI_AVAILABLE : bool) : BillExtractionService :=
  let provider := str_lower LLM_PROVIDER in
  if String.eqb provider "openai"
     && negb (String.eqb OPENAI_API_KEY EmptyString) then
    {| provider := provider; openai_client := true; gemini_model := false |}
  else if String.eqb provider "gemini"
          && negb (String.eqb GEMINI_API_KEY EmptyString)
          && GEMINI_AVAILABLE then
    {| provider := provider; openai_client := false; gemini_model := true |}
  else
    {| provider := provider; openai_client := false; gemini_model := false |}.

(** A computation that records the provider calls it makes. *)
Definition traced (Image A : Type) : Type := A * list (LLMCall Image).

Module ExtractionService.
Section Strategies.

Context {RT : Runtime}.

Variable Image : Type.

(** The text returned by [create_extraction_prompt], a constant. *)
Variable extraction_prompt : string.

(** What a provider call yields once the fences are stripped and the
    content decoded: the decoded JSON, or nothing when the call or the
    decoding raised. *)
Variable llm : LLMCall Image -> option json.

Variable self : BillExtractionService.

(** A strategy returns the decoded value, or [None] (the JSON null)
    after logging the exception it caught. *)
Definition attempt (call : LLMCall Image) : traced Image json :=
  (match llm call with Some v => v | None => JNull end, [call]).

Definition vision_prompt (ocr_text : string) : string :=
  extraction_prompt ++ newline ++ newline ++ "OCR Text (for reference):"
    ++ newline ++ substring 0 2000 ocr_text.

Definition extract_with_gemini (image : Image) (ocr_text : string)
  : traced Image json :=
  if negb (gemini_model self) then (JNull, [])
  else attempt (GeminiGenerate (vision_prompt ocr_text) (Some image)).

Definition extract_with_vision (image : Image) (ocr_text : string)
  : traced Image json :=
  if negb (openai_client self) then (JNull, [])
  else attempt (OpenAIChat Config.GPT_MODEL (vision_prompt ocr_text)
                  (Some image)).

Definition fallback_extraction (ocr_text : string) : traced Image json :=
  if negb (openai_client self) && negb (gemini_model self) then (JNull, [])
  else
    let prompt :=
      extraction_prompt ++ newline ++ newline ++ "Bill Text:" ++ newline
        ++ ocr_text in
    if gemini_model self then attempt (GeminiGenerate prompt None)
    else if openai_client self then
      attempt (OpenAIChat Config.GPT_FALLBACK_MODEL prompt None)
    else (JNull, []).

Definition extract_bill_data (image : Image) (ocr_text : string)
  : traced Image (option ExtractedData) :=
  let '(extracted_data, calls) :=
    if String.eqb (provider self) "gemini" && gemini_model self then
      extract_with_gemini image ocr_text
    else if String.eqb (provider self) "openai" && openai_client self then
      extract_with_vision image ocr_text
    else (JNull, []) in
  let '(extracted_data, calls) :=
    if negb (py_truthy extracted_data) then
      let '(d, more) := fallback_extraction ocr_text in
      (d, (calls ++ more)%list)
    else (extracted_data, calls) in
  if negb (py_truthy extracted_data) then (None, calls)
  else
    match reconcile_amounts extracted_data with
    | Ok reconciled_data => (Some reconciled_data, calls)
    | Raise _ => (None, calls)
    end.

End Strategies.
End ExtractionService.

(* ================================================================== *)
(** ** The endpoint of [app/main.py] *)

Module Main.

(** What [ocr_service.process_document] returns on success. *)
Record OcrResult (Image : Type) : Type := {
  text : string;
  image : Image
}.
Arguments text {Image} o.
Arguments image {Image} o.

(** What can be raised inside the [try] block of the endpoint. *)
Inductive raised : Type :=
| HTTPException (status_code : Z) (detail : string)
| Unexpected (message : string).

(** What the web framework receives from the endpoint function. *)
Inductive outcome : Type :=
| Responds (response : BillExtractionResponse)
| RaisesHTTP (status_code : Z) (detail : string).

Section Endpoint.

Context {RT : Runtime}.

Variable Image : Type.
Variable extraction_prompt : string.
Variable llm : LLMCall Image -> option json.
Variable extraction_service : BillExtractionService.

(** [ocr_service.process_document]: the image and its text, or nothing.
    It catches what its steps raise. *)
Variable process_document : string -> option (OcrResult Image).

(** The body of the [try] block. *)
Definition endpoint_body (document : string)
  : raised + BillExtractionResponse :=
  match process_document document with
  | None =>
      inl (HTTPException 400
             "Failed to process document. Please check the document URL.")
  | Some ocr_result =>
      match fst (ExtractionService.extract_bill_data Image extraction_prompt
                   llm extraction_service
                   (image ocr_result) (text ocr_result)) with
      | None =>
          inl (HTTPException 500
                 "Failed to extract bill data. Please check your OpenAI API key.")
      | Some extracted_data =>
          inr {| is_success := true;
                 data := Some extracted_data;
                 error := None |}
      end
  end.

(** The two handlers: an [HTTPException] is raised again, anything else
    becomes a response with [is_success=False]. *)
Definition extract_bill_data (document : string) : outcome :=
  match endpoint_body document with
  | inr response => Responds response
  | inl (HTTPException status_code detail) => RaisesHTTP status_code detail
  | inl (Unexpected message) =>
      Responds {| is_success := false; data := None; error := Some message |}
  end.

End Endpoint.
End Main.

(* ================================================================== *)
(** ** The loops as traversals

    Each loop builds its list entry by entry and stops at the first entry
    that raises.  [traverse] is that traversal, and the two loops are the
    traversal together with a count and a running sum. *)

Fixpoint traverse {A B : Type} (f : A -> result B) (l : list A)
  : result (list B) :=
  match l with
  | [] => Ok []
  | x :: rest =>
      y <- f x ;;
      ys <- traverse f rest ;;
      Ok (y :: ys)
  end.

(** The entries drawn from a page and the pages drawn from a payload. *)
Definition entries_of (page_data : json) : result (list json) :=
  raw_items <- py_get page_data "bill_items" (JList []) ;;
  py_iter raw_items.

Definition pages_of (extracted_data : json) : result (list json) :=
  raw_pages <- py_get extracted_data "pagewise_line_items" (JList []) ;;
  py_iter raw_pages.

(** The amounts of the items of the pages, in page order then item order,
    and their sum accumulated from the left as the loop does. *)
Definition all_items (pages : list PageWiseLineItems) : list BillItem :=
  List.concat (map bill_items pages).

Definition sum_from (start : float) (amounts : list float) : float :=
  fold_left add amounts start.

Definition item_amount_sum (pages : list PageWiseLineItems) : float :=
  sum_from zero (map item_amount (all_items pages)).

Section Pages.

Context {RT : Runtime}.

(** One page entry turned into its typed page. *)
Definition make_page (page_data : json) : result PageWiseLineItems :=
  entries <- entries_of page_data ;;
  items <- traverse make_bill_item entries ;;
  raw_no <- py_get page_data "page_no" (JStr "1") ;;
  sub <- optional_float page_data "sub_total" ;;
  Ok {| page_no := py_str raw_no; bill_items := items; sub_total := sub |}.

End Pages.

(** The raw entries of a payload, page by page, and the amount the code
    reads from one entry: [float(item_data.get("item_amount", 0))]. *)
Definition raw_entries (extracted_data : json) : result (list (list json)) :=
  pages <- pages_of extracted_data ;;
  traverse entries_of pages.

Definition raw_amount (item_data : json) : result float :=
  amount_raw <- py_get item_data "item_amount" (JInt 0) ;;
  py_float amount_raw.

(* ================================================================== *)
(** ** Presence of a field in a raw object

    The extraction prompt asks for [null] where a value is missing, and
    the code tests [d.get(k) is not None]: a field is absent when its key
    is missing or maps to [null], and present otherwise. *)

Definition field_absent (obj : json) (k : string) : Prop :=
  exists d,
    obj = JDict d /\ (dict_get d k = None \/ dict_get d k = Some JNull).

(** The field is present and coerces to the number [x]. *)
Definition field_number (obj : json) (k : string) (x : float) : Prop :=
  exists d v,
    obj = JDict d /\ dict_get d k = Some v /\ v <> JNull /\ py_float v = Ok x.

(** The field is present and [float] raises on it. *)
Definition field_uncoercible (obj : json) (k : string) : Prop :=
  exists d v,
    obj = JDict d /\ dict_get d k = Some v /\ v <> JNull /\
    is_ok (py_float v) = false.

(** The JSON numbers of value zero: the integer and the two float zeros. *)
Definition is_zero_number (v : json) : Prop :=
  v = JInt 0 \/ exists s, v = JFloat (S754_zero s).

(** An output field that is absent when the raw field is absent, holds
    the number of the raw field when there is one, and so holds a float
    zero when the raw field is a zero. *)
Definition optional_kept (obj : json) (k : string) (out : option float)
  : Prop :=
  (field_absent obj k -> out = None) /\
  (forall x, field_number obj k x -> out = Some x) /\
  (forall d v, obj = JDict d -> dict_get d k = Some v -> is_zero_number v ->
               exists s, out = Some (S754_zero s)).

Definition item_kept (item_data : json) (b : BillItem) : Prop :=
  optional_kept item_data "item_rate" (item_rate b) /\
  optional_kept item_data "item_quantity" (item_quantity b).

Definition page_kept (page_data : json) (q : PageWiseLineItems) : Prop :=
  optional_kept page_data "sub_total" (sub_total q) /\
  exists entries,
    entries_of page_data = Ok entries /\
    Forall2 item_kept entries (bill_items q).

(** The page entries and the item entries the loops reach. *)
Definition page_of (extracted_data page_data : json) : Prop :=
  exists pages, pages_of extracted_data = Ok pages /\ In page_data pages.

Definition entry_of (extracted_data item_data : json) : Prop :=
  exists page_data entries,
    page_of extracted_data page_data /\
    entries_of page_data = Ok entries /\
    In item_data entries.

(** The amount of an entry is given and [float] raises on it.  The amount
    is coerced whenever its key is there, [null] included. *)
Definition amount_uncoercible (item_data : json) : Prop :=
  exists d v,
    item_data = JDict d /\ dict_get d "item_amount" = Some v /\
    is_ok (py_float v) = false.

(** One of the fields read by the reconciliation is present and cannot be
    coerced to a number: the stated total, the sub-total of a page, or the
    amount, the rate or the quantity of an item. *)
Definition has_uncoercible_field (extracted_data : json) : Prop :=
  field_uncoercible extracted_data "actual_bill_total" \/
  (exists page_data,
      page_of extracted_data page_data /\
      field_uncoercible page_data "sub_total") \/
  (exists item_data,
      entry_of extracted_data item_data /\
      (amount_uncoercible item_data \/
       field_uncoercible item_data "item_rate" \/
       field_uncoercible item_data "item_quantity")).

(** An item entry has the key [item_amount] with the value [null]. *)
Definition has_null_amount (extracted_data : json) : Prop :=
  exists fields,
    entry_of extracted_data (JDict fields) /\
    dict_get fields "item_amount" = Some JNull.

(** The text-only path starts with a completion call to the primary
    model. *)
Definition primary_tier_first {Image : Type} (calls : list (LLMCall Image))
  : Prop :=
  exists prompt image rest,
    calls = OpenAIChat Config.GPT_MODEL prompt image :: rest.

(** The response that reports a failure with a message. *)
Definition failure_response (response : BillExtractionResponse) : Prop :=
  is_success response = false /\ exists message, error response = Some message.

(* ================================================================== *)
(** ** Removing keys from a payload *)

Definition dict_remove (k : string) (d : list (string * json))
  : list (string * json) :=
  filter (fun kv => negb (String.eqb k (fst kv))) d.

Definition drop_key (k : string) (v : json) : json :=
  match v with
  | JDict d => JDict (dict_remove k d)
  | _ => v
  end.

(** The value under [k], when there is one, replaced by its image. *)
Definition map_key (k : string) (f : json -> json) (v : json) : json :=
  match v with
  | JDict d =>
      JDict (map (fun kv => if String.eqb k (fst kv)
                            then (fst kv, f (snd kv)) else kv) d)
  | _ => v
  end.

Definition drop_sub_totals (raw_pages : json) : json :=
  match raw_pages with
  | JList pages => JList (map (drop_key "sub_total") pages)
  | _ => raw_pages
  end.

(** The payload with no stated total and no page sub-total. *)
Definition without_totals (extracted_data : json) : json :=
  drop_key "actual_bill_total"
    (map_key "pagewise_line_items" drop_sub_totals extracted_data).

(** A typed page with its sub-total forgotten. *)
Definition clear_sub_total (page : PageWiseLineItems) : PageWiseLineItems :=
  {| page_no := page_no page;
     bill_items := bill_items page;
     sub_total := None |}.

(* ================================================================== *)
(** ** A runtime and payloads to evaluate the code on *)

(** [str] of [None], of a boolean, of an integer and of a string is the
    text Python prints.  The [repr] of floats and containers is not
    modelled: they are shown as an empty text, and no payload below has
    one as a page number.  The validation is that of pydantic 2, which
    keeps a string and rejects any other value given for a [str] field. *)
#[global] Instance text_runtime : Runtime := {|
  py_str := fun v =>
    match v with
    | JNull => "None"
    | JBool true => "True"
    | JBool false => "False"
    | JInt z => DecimalString.NilZero.string_of_int (Z.to_int z)
    | JStr s => s
    | _ => EmptyString
    end;
  validate_str := fun v =>
    match v with
    | JStr s => Some s
    | _ => None
    end
|}.

Module Samples.

Definition item (name : string) (fields : list (string * json)) : json :=
  JDict (("item_name", JStr name) :: fields).

Definition page (no : string) (items : list json)
    (more : list (string * json)) : json :=
  JDict (("page_no", JStr no) :: ("bill_items", JList items) :: more).

Definition payload (pages : list json) (more : list (string * json)) : json :=
  JDict (("pagewise_line_items", JList pages) :: more).

(** One page, items of 100 and 50, a page sub-total of 150 and the
    stated total given. *)
Definition bill_150 (stated : list (string * json)) : json :=
  payload
    [page "1"
       [item "Consultation" [("item_amount", JInt 100)];
        item "Dressing"
          [("item_amount", JFloat (of_decimal false 500 (-1)));
           ("item_rate", JInt 0);
           ("item_quantity", JNull)]]
       [("sub_total", JInt 150)]]
    stated.

(** One item of 0.125. *)
Definition bill_eighth : json :=
  payload
    [page "1"
       [item "Swab" [("item_amount", JFloat (of_decimal false 125 (-3)))]]
       []]
    [].

(** No page, and a stated total of zero. *)
Definition bill_zero_total : json :=
  payload [] [("actual_bill_total", JInt 0)].

(** An amount that is no number, a null amount, and no amount at all. *)
Definition bill_bad_amount : json :=
  payload [page "1" [item "Syringe" [("item_amount", JStr "N/A")]] []] [].

Definition bill_null_amount : json :=
  payload [page "1" [item "Syringe" [("item_amount", JNull)]] []] [].

Definition bill_missing_amount : json :=
  payload [page "1" [item "Syringe" []] []] [].

(** Services as [__init__] builds them, providers that always answer with
    one payload or never answer, and a document whose acquisition
    succeeds.  The image is left abstract: the unit type stands for it. *)
Definition openai_service : BillExtractionService :=
  init_service "OpenAI" "sk-test" EmptyString false.

Definition gemini_service : BillExtractionService :=
  init_service "gemini" EmptyString "test-key" true.

Definition unconfigured_service : BillExtractionService :=
  init_service "gemini" EmptyString EmptyString true.

Definition answers (d : json) : LLMCall unit -> option json :=
  fun _ => Some d.

Definition no_answer : LLMCall unit -> option json :=
  fun _ => None.

Definition prompt : string := "Return ONLY the JSON.".

Definition acquired : string -> option (Main.OcrResult unit) :=
  fun _ => Some {| Main.text := "Syringe 12.00"; Main.image := tt |}.

End Samples.

(* ================================================================== *)
(** ** The string methods used by the response parsing *)

Module PyStr.

(** What is left of [s] after the prefix [p], when [s] starts with it. *)
Fixpoint strip_prefix (p s : string) : option string :=
  match p with
  | EmptyString => Some s
  | String c p' =>
      match s with
      | String d s' => if Ascii.eqb c d then strip_prefix p' s' else None
      | EmptyString => None
      end
  end.

(** [sub in s] *)
Fixpoint contains (sub s : string) : bool :=
  match strip_prefix sub s with
  | Some _ => true
  | None =>
      match s with
      | EmptyString => false
      | String _ rest => contains sub rest
      end
  end.

(** The text before and the text after the first occurrence of [sep]. *)
Fixpoint partition (sep s : string) : option (string * string) :=
  match strip_prefix sep s with
  | Some rest => Some (EmptyString, rest)
  | None =>
      match s with
      | EmptyString => None
      | String c s' =>
          match partition sep s' with
          | Some (before, rest) => Some (String c before, rest)
          | None => None
          end
      end
  end.

(** The pieces of [s] between the occurrences of [sep], found from the
    left; each occurrence consumes at least one character, so a number of
    rounds equal to the length of [s] reaches the end. *)
Fixpoint split_rounds (rounds : nat) (sep s : string) : list string :=
  match rounds with
  | O => [s]
  | S rounds' =>
      match partition sep s with
      | Some (before, rest) => before :: split_rounds rounds' sep rest
      | None => [s]
      end
  end.

(** [s.split(sep)], which raises [ValueError] on an empty separator. *)
Definition split (sep s : string) : option (list string) :=
  match sep with
  | EmptyString => None
  | _ => Some (split_rounds (String.length s) sep s)
  end.

(** [s.endswith(suffix)] *)
Fixpoint endswith (s suffix : string) : bool :=
  String.eqb s suffix ||
  match s with
  | EmptyString => false
  | String _ rest => endswith rest suffix
  end.

(** [s.strip()] *)
Definition strip (s : string) : string :=
  string_of_list_ascii (FloatText.strip (list_ascii_of_string s)).

(** No character of [s] is [c]. *)
Fixpoint free_of (c : ascii) (s : string) : bool :=
  match s with
  | EmptyString => true
  | String d rest => negb (Ascii.eqb c d) && free_of c rest
  end.

End PyStr.

(* ================================================================== *)
(** ** The parsing of a provider response

    The three strategies decode the content of a response in the same
    way: the text inside a Markdown fence is taken when there is a fence,
    it is stripped of white space and given to [json.loads]. *)

Definition fence : string := "```".
Definition json_fence : string := "```json".

(** [content.split(opening)[1].split("```")[0]]; an index out of range
    would raise. *)
Definition between_fences (opening content : string) : option string :=
  match PyStr.split opening content with
  | Some parts =>
      match nth_error parts 1 with
      | Some inner =>
          match PyStr.split fence inner with
          | Some pieces => nth_error pieces 0
          | None => None
          end
      | None => None
      end
  | None => None
  end.

(** The [if "```json" in content: ... elif "```" in content: ...] of the
    strategies. *)
Definition strip_code_fences (content : string) : option string :=
  if PyStr.contains json_fence content then between_fences json_fence content
  else if PyStr.contains fence content then between_fences fence content
  else Some content.

Section Decoding.

Variable Image : Type.

(** [json.loads]: the decoded value, or nothing when it raises. *)
Variable json_loads : string -> option json.

(** The content of the response to a call, or nothing when the call
    raises. *)
Variable respond : LLMCall Image -> option string.

(** [json.loads(content.strip())] on the content between the fences. *)
Definition decode_content (content : string) : option json :=
  match strip_code_fences content with
  | Some inner => json_loads (PyStr.strip inner)
  | None => None
  end.

(** What a call yields to a strategy: the [try] block around the call
    and the decoding turns every exception into nothing. *)
Definition decoded_answer (call : LLMCall Image) : option json :=
  match respond call with
  | Some content => decode_content content
  | None => None
  end.

End Decoding.

(* ================================================================== *)
(** ** The OCR service ([app/ocr_service.py]) *)

Module OcrService.

(** The service object: the engine name and whether the EasyOCR reader
    was built. *)
Record OCRService : Type := {
  engine : string;
  easyocr_reader : bool
}.

(** [OCRService.__init__]: the reader is built for the engine [easyocr]
    and for no other. *)
Definition init_service (OCR_ENGINE : string) : OCRService :=
  {| engine := OCR_ENGINE;
     easyocr_reader := String.eqb OCR_ENGINE "easyocr" |}.

(** What [process_document] returns on success. *)
Record Document (Image : Type) : Type := {
  text : string;
  image : Image;
  width : Z;
  height : Z
}.
Arguments text {Image} d.
Arguments image {Image} d.
Arguments width {Image} d.
Arguments height {Image} d.

Section Service.

Variable Image : Type.
Variable Bytes : Type.

(** Whether [pdf2image] was imported. *)
Variable PDF_SUPPORT : bool.

(** The libraries the service calls; each returns nothing when it raises.
    [http_get] is [requests.get] with [raise_for_status] and the body of
    the response, [image_open] is [Image.open], [convert_from_bytes]
    renders the first page of a PDF, [easyocr_readtext] is the reader of
    EasyOCR on the pixels of the image and [tesseract_to_string] is the
    preprocessing followed by [pytesseract.image_to_string]. *)
Variable http_get : string -> option Bytes.
Variable image_open : Bytes -> option Image.
Variable convert_from_bytes : Bytes -> option (list Image).
Variable easyocr_readtext : Image -> option (list string).
Variable tesseract_to_string : Image -> option string.
Variable image_width : Image -> Z.
Variable image_height : Image -> Z.

Variable self : OCRService.

(** [url.lower().endswith('.pdf') or 'pdf' in url.lower()] *)
Definition looks_like_pdf (url : string) : bool :=
  PyStr.endswith (str_lower url) ".pdf" || PyStr.contains "pdf" (str_lower url).

(** Every exception, raised again or not, ends in the outer handler,
    which returns [None]; so does a conversion that yields no page. *)
Definition download_image (url : string) : option Image :=
  match http_get url with
  | None => None
  | Some content =>
      match image_open content with
      | Some image => Some image
      | None =>
          if PDF_SUPPORT && looks_like_pdf url then
            match convert_from_bytes content with
            | Some (first :: _) => Some first
            | Some [] => None
            | None => None
            end
          else None
      end
  end.

(** Without a reader the call of [readtext] raises, and the handler
    returns the empty text as for any other exception. *)
Definition extract_text_easyocr (image : Image) : string :=
  if easyocr_reader self then
    match easyocr_readtext image with
    | Some results => String.concat newline results
    | None => EmptyString
    end
  else EmptyString.

Definition extract_text_tesseract (image : Image) : string :=
  match tesseract_to_string image with
  | Some text => text
  | None => EmptyString
  end.

Definition extract_text (image : Image) : string :=
  if String.eqb (engine self) "easyocr" then extract_text_easyocr image
  else if String.eqb (engine self) "tesseract" then
    extract_text_tesseract image
  else extract_text_easyocr image.

Definition process_document (document_url : string)
  : option (Document Image) :=
  match download_image document_url with
  | None => None
  | Some image =>
      Some {| text := extract_text image;
              image := image;
              width := image_width image;
              height := image_height image |}
  end.

(** The endpoint reads the text and the image of the document. *)
Definition as_ocr_result (d : Document Image) : Main.OcrResult Image :=
  {| Main.text := text d; Main.image := image d |}.

Definition acquire (document_url : string) : option (Main.OcrResult Image) :=
  option_map as_ocr_result (process_document document_url).

End Service.
End OcrService.

(* ================================================================== *)
(** ** What the reconciliation reads from a raw page and a raw item *)

(** The value given to [str] for the number of a page, and the value
    given as the name of an item. *)
Definition raw_page_no (page_data : json) : json :=
  match page_data with
  | JDict d =>
      match dict_get d "page_no" with Some v => v | None => JStr "1" end
  | _ => JNull
  end.

Definition raw_item_name (item_data : json) : json :=
  match item_data with
  | JDict d =>
      match dict_get d "item_name" with
      | Some v => v
      | None => JStr "Unknown"
      end
  | _ => JNull
  end.

(** A call that carries the image, and the provider a call goes to. *)
Definition call_image {Image : Type} (call : LLMCall Image) : option Image :=
  match call with
  | GeminiGenerate _ image => image
  | OpenAIChat _ _ image => image
  end.

Definition is_gemini_call {Image : Type} (call : LLMCall Image) : bool :=
  match call with
  | GeminiGenerate _ _ => true
  | OpenAIChat _ _ _ => false
  end.

Definition call_prompt {Image : Type} (call : LLMCall Image) : string :=
  match call with
  | GeminiGenerate prompt _ => prompt
  | OpenAIChat _ prompt _ => prompt
  end.

(** The answers of a provider with the falsy ones turned into failures. *)
Definition truthy_only {Image : Type} (llm : LLMCall Image -> option json)
  : LLMCall Image -> option json :=
  fun call =>
    match llm call with
    | Some v => if py_truthy v then Some v else None
    | None => None
    end.

(** The first piece of [s.split(sep)]: the text before the first
    occurrence, or the whole text. *)
Definition first_piece (sep s : string) : string :=
  match PyStr.partition sep s with
  | Some (before, _) => before
  | None => s
  end.

(** The white space that [strip] removes. *)
Definition all_space (s : string) : Prop :=
  Forall (fun c => FloatText.is_space c = true) (list_ascii_of_string s).

Definition backtick : ascii := "`"%char.

(** A body as a provider fences it: the [json] fence, the body on its
    own lines, the closing fence. *)
Definition fenced (body : string) : string :=
  json_fence ++ newline ++ body ++ newline ++ fence.

(* ================================================================== *)
(** ** The calls of a request

    The call that the vision strategy selected by the provider makes and
    the call that the text-only strategy makes, when the service has the
    client for it. *)

Section Calls.

Variable Image : Type.
Variable extraction_prompt : string.
Variable self : BillExtractionService.

Definition vision_call (image : Image) (ocr_text : string)
  : option (LLMCall Image) :=
  if String.eqb (provider self) "gemini" && gemini_model self then
    Some (GeminiGenerate
            (ExtractionService.vision_prompt extraction_prompt ocr_text)
            (Some image))
  else if String.eqb (provider self) "openai" && openai_client self then
    Some (OpenAIChat Config.GPT_MODEL
            (ExtractionService.vision_prompt extraction_prompt ocr_text)
            (Some image))
  else None.

Definition text_prompt (ocr_text : string) : string :=
  extraction_prompt ++ newline ++ newline ++ "Bill Text:" ++ newline
    ++ ocr_text.

Definition text_call (ocr_text : string) : option (LLMCall Image) :=
  if gemini_model self then Some (GeminiGenerate (text_prompt ocr_text) None)
  else if openai_client self then
    Some (OpenAIChat Config.GPT_FALLBACK_MODEL (text_prompt ocr_text) None)
  else None.

End Calls.

(** The calls made, as a list. *)
Definition made {Image : Type} (call : option (LLMCall Image))
  : list (LLMCall Image) :=
  match call with
  | Some c => [c]
  | None => []
  end.

(** What a request returns for the payload it settles on. *)
Definition reconciled_or_none {RT : Runtime} (extracted_data : json)
  : option ExtractedData :=
  match reconcile_amounts extracted_data with
  | Ok reconciled_data => Some reconciled_data
  | Raise _ => None
  end.

(** The same two items on two pages and on one page. *)
Module Grouping.

Definition swab : json := Samples.item "Swab" [("item_amount", JInt 2)].
Definition tape : json := Samples.item "Tape" [("item_amount", JInt 3)].

Definition two_pages : json :=
  Samples.payload [Samples.page "1" [swab] []; Samples.page "2" [tape] []] [].

Definition one_page : json :=
  Samples.payload [Samples.page "1" [swab; tape] []] [].

End Grouping.

(* ================================================================== *)
(** ** Payloads that reconciliation reads without error *)

(** The field reads without error: it is absent, or it is present with a
    value that [float] accepts. *)
Definition field_readable (obj : json) (k : string) : Prop :=
  field_absent obj k \/ exists x, field_number obj k x.

(** The key [item_amount] is missing from the entry. *)
Definition amount_missing (item_data : json) : Prop :=
  exists fields,
    item_data = JDict fields /\ dict_get fields "item_amount" = None.

(** The key [item_amount] is there with a value that [float] accepts. *)
Definition amount_given (item_data : json) : Prop :=
  exists fields v x,
    item_data = JDict fields /\ dict_get fields "item_amount" = Some v /\
    py_float v = Ok x.

(** Everything of an entry but its amount: the entry is an object, the
    validation keeps its name, its rate and its quantity read without
    error. *)
Definition entry_sound_apart_from_amount {RT : Runtime} (item_data : json)
  : Prop :=
  (exists fields, item_data = JDict fields) /\
  (exists n, validate_str (raw_item_name item_data) = Some n) /\
  field_readable item_data "item_rate" /\
  field_readable item_data "item_quantity".

(** An entry whose amount is missing or given with a number, a page of
    such entries, and a payload of such pages. *)
Definition entry_sound {RT : Runtime} (item_data : json) : Prop :=
  entry_sound_apart_from_amount item_data /\
  (amount_missing item_data \/ amount_given item_data).

Definition page_sound {RT : Runtime} (page_data : json) : Prop :=
  field_readable page_data "sub_total" /\
  exists entries,
    entries_of page_data = Ok entries /\ Forall entry_sound entries.

Definition payload_sound {RT : Runtime} (extracted_data : json) : Prop :=
  field_readable extracted_data "actual_bill_total" /\
  exists pages,
    pages_of extracted_data = Ok pages /\ Forall page_sound pages.

(** One item whose amount is given as a text: 12 after the separator of
    code 28, 12.5 after a no-break space, and 12 in full-width digits. *)
Module TextAmounts.

Definition bill (amount : string) : json :=
  Samples.payload
    [Samples.page "1" [Samples.item "Syringe" [("item_amount", JStr amount)]]
       []]
    [].

Definition after_separator : string := String (ascii_of_nat 28) "12".

Definition after_no_break_space : string :=
  String (ascii_of_nat 194) (String (ascii_of_nat 160) "12.5").

Definition full_width : string :=
  string_of_list_ascii
    (map ascii_of_nat [239; 188; 145; 239; 188; 146]%nat).

End TextAmounts.

(* ================================================================== *)
(** * Properties *)

(** ** The float model on known values *)

(** [0.1] is [0x1.999999999999ap-4], and [0.1 + 0.2] is not [0.3]. *)
Example tenth_bits :
  of_decimal false 1 (-1) = S754_finite false 7205759403792794 (-56).
Proof. vm_compute. reflexivity. Qed.

Example tenth_plus_fifth :
  add (of_decimal false 1 (-1)) (of_decimal false 2 (-1))
    <> of_decimal false 3 (-1).
Proof. vm_compute. discriminate. Qed.

(** [round(2.675, 2) == 2.67], [round(0.125, 2) == 0.12] and
    [round(0.375, 2) == 0.38]: the binary value decides, and a tie goes to
    the even digit. *)
Example round2_below_half :
  round2 (of_decimal false 2675 (-3)) = of_decimal false 267 (-2).
Proof. vm_compute. reflexivity. Qed.

Example round2_tie_down :
  round2 (of_decimal false 125 (-3)) = of_decimal false 12 (-2).
Proof. vm_compute. reflexivity. Qed.

Example round2_tie_up :
  round2 (of_decimal false 375 (-3)) = of_decimal false 38 (-2).
Proof. vm_compute. reflexivity. Qed.

Example round2_keeps_sign_and_specials :
  round2 (of_decimal true 1 (-3)) = S754_zero true /\
  round2 nan = nan /\
  round2 (infinity false) = infinity false.
Proof. vm_compute. repeat split. Qed.

(** [float] on texts. *)
Example float_of_texts :
  map FloatText.float_of_string
    [" 12.5 "; "1_000.5e-1"; "-inf"; "NaN"; ".5"; "1."; "N/A"; "1__0"; "$5";
     EmptyString]
  = [Some (of_decimal false 125 (-1)); Some (of_decimal false 10005 (-2));
     Some (infinity true); Some nan; Some (of_decimal false 5 (-1));
     Some one; None; None; None; None].
Proof. vm_compute. reflexivity. Qed.

(** The white space around the text is that of [float], not that of
    [str.strip]: a separator of code 28 to 31 is no white space for it,
    a no-break space and an ideographic space are; and the decimal digits
    of any script are read. *)
Example float_of_padded_texts :
  map FloatText.float_of_string
    [TextAmounts.after_separator;
     String (ascii_of_nat 31) "12";
     TextAmounts.after_no_break_space;
     TextAmounts.full_width;
     String (ascii_of_nat 11) "12"]
  = [None; None; Some (of_decimal false 125 (-1)); Some (of_Z 12);
     Some (of_Z 12)].
Proof. vm_compute. reflexivity. Qed.

(** Three amounts of 0.004 add up to 0.01 once rounded; rounded one by
    one they would add up to nothing. *)
Example rounding_once_keeps_the_small_amounts :
  round2 (sum_from zero (repeat (of_decimal false 4 (-3)) 3))
    = of_decimal false 1 (-2) /\
  sum_from zero (map round2 (repeat (of_decimal false 4 (-3)) 3)) = zero.
Proof. vm_compute. split; reflexivity. Qed.

(** ** The loops and the whole function *)

Section LoopFacts.

Context {RT : Runtime}.

Lemma items_loop_traverse (entries : list json) :
  forall (acc : list BillItem) (n : Z) (s : float),
    items_loop entries acc n s =
    (items <- traverse make_bill_item entries ;;
     Ok ((acc ++ items)%list, n + Z.of_nat (List.length items),
         sum_from s (map item_amount items))).
Proof.
  induction entries as [|e rest IH]; intros acc n s; simpl.
  - now rewrite app_nil_r, Z.add_0_r.
  - destruct (make_bill_item e) as [b|x]; simpl; [|reflexivity].
    rewrite IH.
    destruct (traverse make_bill_item rest) as [bs|x]; simpl; [|reflexivity].
    rewrite <- app_assoc. simpl.
    do 3 f_equal. lia.
Qed.

Lemma pages_loop_step (p : json) (rest : list json)
    (acc : list PageWiseLineItems) (n : Z) (s : float) :
  pages_loop (p :: rest) acc n s =
  (page <- make_page p ;;
   pages_loop rest (acc ++ [page])
     (n + Z.of_nat (List.length (bill_items page)))
     (sum_from s (map item_amount (bill_items page)))).
Proof.
  simpl. unfold make_page, entries_of.
  destruct (py_get p "bill_items" (JList [])) as [raw|x]; simpl;
    [|reflexivity].
  destruct (py_iter raw) as [entries|x]; simpl; [|reflexivity].
  rewrite items_loop_traverse.
  destruct (traverse make_bill_item entries) as [items|x]; simpl;
    [|reflexivity].
  destruct (py_get p "page_no" (JStr "1")) as [raw_no|x]; simpl;
    [|reflexivity].
  destruct (optional_float p "sub_total") as [sub|x]; simpl; reflexivity.
Qed.

Lemma pages_loop_traverse (pages : list json) :
  forall (acc : list PageWiseLineItems) (n : Z) (s : float),
    pages_loop pages acc n s =
    (new <- traverse make_page pages ;;
     Ok ((acc ++ new)%list, n + Z.of_nat (List.length (all_items new)),
         sum_from s (map item_amount (all_items new)))).
Proof.
  induction pages as [|p rest IH]; intros acc n s.
  - simpl. now rewrite app_nil_r, Z.add_0_r.
  - rewrite pages_loop_step. cbn [traverse].
    destruct (make_page p) as [page|x]; simpl; [|reflexivity].
    rewrite IH.
    destruct (traverse make_page rest) as [new|x]; simpl; [|reflexivity].
    rewrite <- app_assoc. simpl.
    unfold all_items. simpl.
    rewrite length_app, map_app. unfold sum_from. rewrite fold_left_app.
    do 3 f_equal. lia.
Qed.

(** The whole function, in one equation. *)
Lemma reconcile_amounts_eq (d : json) :
  reconcile_amounts d =
  (pages <- pages_of d ;;
   typed <- traverse make_page pages ;;
   actual_total <- stated_total d ;;
   Ok {| pagewise_line_items := typed;
         total_item_count := Z.of_nat (List.length (all_items typed));
         reconciled_amount := round2 (item_amount_sum typed);
         actual_bill_total := rounded_total actual_total;
         accuracy_percentage :=
           accuracy_of (item_amount_sum typed) actual_total |}).
Proof.
  unfold reconcile_amounts, pages_of.
  destruct (py_get d "pagewise_line_items" (JList [])) as [raw|x]; simpl;
    [|reflexivity].
  destruct (py_iter raw) as [pages|x]; simpl; [|reflexivity].
  rewrite pages_loop_traverse.
  destruct (traverse make_page pages) as [typed|x]; simpl; reflexivity.
Qed.

(** When the function returns, every step returned. *)
Lemma reconcile_amounts_ok (d : json) (r : ExtractedData) :
  reconcile_amounts d = Ok r ->
  exists pages actual_total,
    pages_of d = Ok pages /\
    traverse make_page pages = Ok (pagewise_line_items r) /\
    stated_total d = Ok actual_total /\
    total_item_count r = Z.of_nat (List.length (all_items (pagewise_line_items r))) /\
    reconciled_amount r = round2 (item_amount_sum (pagewise_line_items r)) /\
    actual_bill_total r = rounded_total actual_total /\
    accuracy_percentage r =
      accuracy_of (item_amount_sum (pagewise_line_items r)) actual_total.
Proof.
  rewrite reconcile_amounts_eq. intros H.
  destruct (pages_of d) as [pages|x]; simpl in H; [|discriminate].
  destruct (traverse make_page pages) as [typed|x] eqn:Ht; simpl in H;
    [|discriminate].
  destruct (stated_total d) as [t|x]; simpl in H; [|discriminate].
  injection H as <-. simpl.
  exists pages, t. repeat split; try reflexivity. exact Ht.
Qed.

End LoopFacts.

(** ** The scenarios of the specification *)

Example bill_150_matching :
  option_map (fun r => (total_item_count r, reconciled_amount r,
                        actual_bill_total r, accuracy_percentage r))
    (match reconcile_amounts (Samples.bill_150 [("actual_bill_total", JInt 150)])
     with Ok r => Some r | Raise _ => None end)
  = Some (2, of_Z 150, Some (of_Z 150), Some (of_Z 100)).
Proof. vm_compute. reflexivity. Qed.

Example bill_150_stated_120 :
  option_map (fun r => (reconciled_amount r, accuracy_percentage r))
    (match reconcile_amounts (Samples.bill_150 [("actual_bill_total", JInt 120)])
     with Ok r => Some r | Raise _ => None end)
  = Some (of_Z 150, Some (of_Z 75)).
Proof. vm_compute. reflexivity. Qed.

Example bill_150_no_stated_total :
  option_map (fun r => (reconciled_amount r, accuracy_percentage r))
    (match reconcile_amounts (Samples.bill_150 [])
     with Ok r => Some r | Raise _ => None end)
  = Some (of_Z 150, None).
Proof. vm_compute. reflexivity. Qed.

(** ** Lookups after a removal *)

Lemma dict_get_remove_same (k : string) (d : list (string * json)) :
  dict_get (dict_remove k d) k = None.
Proof.
  induction d as [|[k' v] rest IH]; simpl; [reflexivity|].
  destruct (String.eqb k k') eqn:E; simpl; [exact IH|].
  now rewrite E.
Qed.

Lemma dict_get_remove_other (k k' : string) (d : list (string * json)) :
  String.eqb k k' = false ->
  dict_get (dict_remove k d) k' = dict_get d k'.
Proof.
  intros Hne.
  induction d as [|[k0 v] rest IH]; simpl; [reflexivity|].
  destruct (String.eqb k k0) eqn:E; simpl.
  - apply String.eqb_eq in E. subst k0.
    rewrite String.eqb_sym, Hne. exact IH.
  - now rewrite IH.
Qed.

Lemma dict_get_map_key (k k' : string) (f : json -> json)
    (d : list (string * json)) :
  dict_get (map (fun kv => if String.eqb k (fst kv)
                           then (fst kv, f (snd kv)) else kv) d) k' =
  option_map (if String.eqb k k' then f else (fun v => v)) (dict_get d k').
Proof.
  induction d as [|[k0 v] rest IH]; simpl; [reflexivity|].
  destruct (String.eqb k k0) eqn:E; simpl.
  - destruct (String.eqb k' k0) eqn:E'.
    + apply String.eqb_eq in E, E'. subst. now rewrite String.eqb_refl.
    + exact IH.
  - destruct (String.eqb k' k0) eqn:E'.
    + apply String.eqb_eq in E'. subst. now rewrite E.
    + exact IH.
Qed.

Lemma py_get_map_key (k : string) (f : json -> json) (v default : json) :
  py_get (map_key k f v) k default =
  match v with
  | JDict d =>
      Ok (match dict_get d k with Some x => f x | None => default end)
  | _ => Raise AttributeError
  end.
Proof.
  destruct v; try reflexivity.
  unfold map_key, py_get.
  rewrite dict_get_map_key, String.eqb_refl.
  destruct (dict_get d k); reflexivity.
Qed.

Lemma py_get_drop_key_other (k k' : string) (v default : json) :
  String.eqb k k' = false ->
  py_get (drop_key k v) k' default = py_get v k' default.
Proof.
  intros Hne. destruct v; simpl; try reflexivity.
  now rewrite dict_get_remove_other.
Qed.

Lemma py_get_drop_key_same (k : string) (v default x : json) :
  py_get v k default = Ok x ->
  py_get (drop_key k v) k default = Ok default.
Proof.
  destruct v; simpl; try discriminate.
  intros _. now rewrite dict_get_remove_same.
Qed.

(** ** Traversals *)

Section TraverseFacts.

Context {A B : Type} (f : A -> result B).

Lemma traverse_app (l1 l2 : list A) :
  traverse f (l1 ++ l2) =
  (a <- traverse f l1 ;; b <- traverse f l2 ;; Ok (a ++ b)%list).
Proof.
  induction l1 as [|x rest IH]; simpl.
  - destruct (traverse f l2); reflexivity.
  - destruct (f x) as [y|e]; simpl; [|reflexivity].
    rewrite IH.
    destruct (traverse f rest) as [ys|e]; simpl; [|reflexivity].
    destruct (traverse f l2); reflexivity.
Qed.

Lemma traverse_Forall2 (l : list A) (l' : list B) :
  traverse f l = Ok l' <-> Forall2 (fun x y => f x = Ok y) l l'.
Proof.
  revert l'. induction l as [|x rest IH]; intros l'; simpl.
  - split.
    + intros H. injection H as <-. constructor.
    + intros H. inversion H. reflexivity.
  - split.
    + intros H.
      destruct (f x) as [y|e] eqn:Hx; simpl in H; [|discriminate].
      destruct (traverse f rest) as [ys|e] eqn:Hr; simpl in H; [|discriminate].
      injection H as <-. constructor; [exact Hx|].
      now apply IH.
    + intros H. inversion H as [|x0 y l0 ys Hx Hrest]; subst.
      rewrite Hx. simpl.
      apply IH in Hrest. rewrite Hrest. reflexivity.
Qed.

Lemma traverse_length (l : list A) (l' : list B) :
  traverse f l = Ok l' -> List.length l' = List.length l.
Proof.
  intros H. apply traverse_Forall2 in H.
  symmetry. eapply Forall2_length. exact H.
Qed.

(** One entry that raises makes the traversal raise. *)
Lemma traverse_raises (l : list A) (x : A) :
  In x l -> is_ok (f x) = false -> is_ok (traverse f l) = false.
Proof.
  induction l as [|y rest IH]; simpl; [tauto|].
  intros [->|Hin] Hx.
  - destruct (f x); [discriminate|reflexivity].
  - destruct (f y); simpl; [|reflexivity].
    specialize (IH Hin Hx).
    destruct (traverse f rest); [discriminate|reflexivity].
Qed.

End TraverseFacts.

(** Where [f] returns, a function that agrees with [f] up to [g] returns
    the images. *)
Lemma traverse_map_ok {A B C : Type} (f : A -> result B) (h : A -> result C)
    (g : B -> C) (l : list A) (l' : list B) :
  (forall x y, f x = Ok y -> h x = Ok (g y)) ->
  traverse f l = Ok l' -> traverse h l = Ok (map g l').
Proof.
  intros Hfh. revert l'.
  induction l as [|x rest IH]; intros l' H; simpl in *.
  - injection H as <-. reflexivity.
  - destruct (f x) as [y|e] eqn:Hx; simpl in H; [|discriminate].
    destruct (traverse f rest) as [ys|e]; simpl in H; [|discriminate].
    injection H as <-.
    rewrite (Hfh _ _ Hx). simpl. rewrite (IH ys eq_refl). reflexivity.
Qed.

(** ** From the typed pages back to the raw entries *)

Section PageFacts.

Context {RT : Runtime}.

Lemma make_bill_item_amount (e : json) (b : BillItem) :
  make_bill_item e = Ok b -> raw_amount e = Ok (item_amount b).
Proof.
  unfold make_bill_item, raw_amount. intros H.
  destruct (py_get e "item_name" (JStr "Unknown")) as [name|x]; simpl in H;
    [|discriminate].
  destruct (py_get e "item_amount" (JInt 0)) as [raw|x]; simpl in *;
    [|discriminate].
  destruct (py_float raw) as [amount|x]; simpl in *; [|discriminate].
  destruct (optional_float e "item_rate") as [rate|x]; simpl in H;
    [|discriminate].
  destruct (optional_float e "item_quantity") as [qty|x]; simpl in H;
    [|discriminate].
  destruct (validate_str name); [|discriminate].
  injection H as <-. reflexivity.
Qed.

Lemma make_page_ok (p : json) (q : PageWiseLineItems) :
  make_page p = Ok q ->
  exists entries,
    entries_of p = Ok entries /\
    traverse make_bill_item entries = Ok (bill_items q) /\
    optional_float p "sub_total" = Ok (sub_total q).
Proof.
  unfold make_page. intros H.
  destruct (entries_of p) as [entries|x]; simpl in H; [|discriminate].
  destruct (traverse make_bill_item entries) as [items|x] eqn:Hi; simpl in H;
    [|discriminate].
  destruct (py_get p "page_no" (JStr "1")) as [no|x]; simpl in H;
    [|discriminate].
  destruct (optional_float p "sub_total") as [sub|x]; simpl in H;
    [|discriminate].
  injection H as <-. simpl. exists entries. auto.
Qed.

Lemma traverse_make_page_entries (pages : list json) :
  forall typed : list PageWiseLineItems,
    traverse make_page pages = Ok typed ->
    exists ess,
      traverse entries_of pages = Ok ess /\
      traverse make_bill_item (List.concat ess) = Ok (all_items typed).
Proof.
  induction pages as [|p rest IH]; intros typed H; simpl in H.
  - injection H as <-. exists []. split; reflexivity.
  - destruct (make_page p) as [q|x] eqn:Hq; simpl in H; [|discriminate].
    destruct (traverse make_page rest) as [qs|x]; simpl in H; [|discriminate].
    injection H as <-.
    destruct (make_page_ok _ _ Hq) as (es & Hes & Hitems & _).
    destruct (IH qs eq_refl) as (ess & Hess & Hall).
    exists (es :: ess). simpl. rewrite Hes. simpl. rewrite Hess. simpl.
    split; [reflexivity|].
    rewrite traverse_app, Hitems. simpl. rewrite Hall. reflexivity.
Qed.

(** The typed items of an accepted payload are its raw entries, one for
    one, and their amounts are the amounts read from the entries. *)
Lemma reconcile_amounts_entries (d : json) (r : ExtractedData) :
  reconcile_amounts d = Ok r ->
  exists ess,
    raw_entries d = Ok ess /\
    traverse make_bill_item (List.concat ess)
      = Ok (all_items (pagewise_line_items r)) /\
    traverse raw_amount (List.concat ess)
      = Ok (map item_amount (all_items (pagewise_line_items r))).
Proof.
  intros H.
  destruct (reconcile_amounts_ok _ _ H) as (pages & t & Hp & Ht & _).
  destruct (traverse_make_page_entries _ _ Ht) as (ess & Hess & Hall).
  exists ess. unfold raw_entries. rewrite Hp. simpl.
  repeat split; [exact Hess|exact Hall|].
  eapply traverse_map_ok; [|exact Hall].
  exact make_bill_item_amount.
Qed.

End PageFacts.

(** ** The payload without its totals *)

Lemma traverse_map_input {A B : Type} (f : A -> result B) (h : A -> A)
    (g : B -> B) (l : list A) (l' : list B) :
  (forall x y, f x = Ok y -> f (h x) = Ok (g y)) ->
  traverse f l = Ok l' -> traverse f (map h l) = Ok (map g l').
Proof.
  intros Hfh. revert l'.
  induction l as [|x rest IH]; intros l' H; simpl in *.
  - injection H as <-. reflexivity.
  - destruct (f x) as [y|e] eqn:Hx; simpl in H; [|discriminate].
    destruct (traverse f rest) as [ys|e]; simpl in H; [|discriminate].
    injection H as <-.
    rewrite (Hfh _ _ Hx). simpl. rewrite (IH ys eq_refl). reflexivity.
Qed.

Lemma all_items_clear_sub_total (typed : list PageWiseLineItems) :
  all_items (map clear_sub_total typed) = all_items typed.
Proof.
  unfold all_items. rewrite map_map. reflexivity.
Qed.

(** Removing a key leaves the elements drawn from a dict or a string as
    they are: they are strings. *)
Lemma py_iter_drop_sub_totals (raw : json) (pages : list json) :
  py_iter raw = Ok pages ->
  py_iter (drop_sub_totals raw) = Ok (map (drop_key "sub_total") pages).
Proof.
  destruct raw; simpl; try discriminate; intros H; injection H as <-.
  - f_equal. induction (list_ascii_of_string s) as [|c l IH]; simpl;
      [reflexivity|]. now rewrite <- IH.
  - reflexivity.
  - f_equal. induction d as [|kv l IH]; simpl; [reflexivity|].
    now rewrite <- IH.
Qed.

Section WithoutTotals.

Context {RT : Runtime}.

Lemma optional_float_dropped (p : json) (k : string) (x : json) :
  py_get p k JNull = Ok x ->
  optional_float (drop_key k p) k = Ok None.
Proof.
  intros H. unfold optional_float.
  now rewrite (py_get_drop_key_same _ _ _ _ H).
Qed.

Lemma optional_float_is_dict (p : json) (k : string) (o : option float) :
  optional_float p k = Ok o -> exists x, py_get p k JNull = Ok x.
Proof.
  unfold optional_float.
  destruct (py_get p k JNull) as [x|e]; simpl; [|discriminate].
  intros _. now exists x.
Qed.

Lemma make_page_drop_sub_total (p : json) (q : PageWiseLineItems) :
  make_page p = Ok q ->
  make_page (drop_key "sub_total" p) = Ok (clear_sub_total q).
Proof.
  unfold make_page, entries_of. intros H.
  rewrite !py_get_drop_key_other by reflexivity.
  destruct (py_get p "bill_items" (JList [])) as [raw|x]; simpl in *;
    [|discriminate].
  destruct (py_iter raw) as [entries|x]; simpl in *; [|discriminate].
  destruct (traverse make_bill_item entries) as [items|x]; simpl in *;
    [|discriminate].
  destruct (py_get p "page_no" (JStr "1")) as [no|x]; simpl in *;
    [|discriminate].
  destruct (optional_float p "sub_total") as [sub|x] eqn:Hs; simpl in *;
    [|discriminate].
  destruct (optional_float_is_dict _ _ _ Hs) as (x & Hx).
  rewrite (optional_float_dropped _ _ _ Hx). simpl.
  injection H as <-. reflexivity.
Qed.

Lemma pages_of_without_totals (d : json) (pages : list json) :
  pages_of d = Ok pages ->
  pages_of (without_totals d) = Ok (map (drop_key "sub_total") pages).
Proof.
  unfold pages_of, without_totals. intros H.
  rewrite py_get_drop_key_other by reflexivity.
  rewrite py_get_map_key.
  destruct d; cbn [py_get bind] in *; try discriminate.
  destruct (dict_get d "pagewise_line_items") as [raw|].
  - now apply py_iter_drop_sub_totals.
  - cbn [py_iter] in *. injection H as <-. reflexivity.
Qed.

Lemma stated_total_without_totals (d : json) (pages : list json) :
  pages_of d = Ok pages ->
  stated_total (without_totals d) = Ok None.
Proof.
  unfold pages_of, stated_total, without_totals.
  destruct d; cbn [py_get bind map_key drop_key]; try discriminate.
  intros _. now rewrite dict_get_remove_same.
Qed.

(** Without its totals an accepted payload is accepted, with the same
    items. *)
Lemma reconcile_amounts_without_totals (d : json) (r : ExtractedData) :
  reconcile_amounts d = Ok r ->
  reconcile_amounts (without_totals d) =
  Ok {| pagewise_line_items := map clear_sub_total (pagewise_line_items r);
        total_item_count := total_item_count r;
        reconciled_amount := reconciled_amount r;
        actual_bill_total := None;
        accuracy_percentage := None |}.
Proof.
  intros H.
  destruct (reconcile_amounts_ok _ _ H)
    as (pages & t & Hp & Ht & _ & Hcount & Hsum & _).
  rewrite reconcile_amounts_eq.
  rewrite (pages_of_without_totals _ _ Hp). simpl.
  rewrite (traverse_map_input _ _ clear_sub_total _ _
             make_page_drop_sub_total Ht). simpl.
  rewrite (stated_total_without_totals _ _ Hp). simpl.
  unfold item_amount_sum. rewrite all_items_clear_sub_total.
  now rewrite Hcount, Hsum.
Qed.

End WithoutTotals.

(* ================================================================== *)
(** * The claims *)

(** ** The reconciled amount *)

(** C1, as stated, fails: for the payload with the single item of 0.125
    the reconciled amount returned is 0.12, which is not the sum of the
    item amounts, 0.125. *)
Lemma reconciled_amount_differs_from_item_sum :
  exists r,
    reconcile_amounts Samples.bill_eighth = Ok r /\
    item_amount_sum (pagewise_line_items r) = of_decimal false 125 (-3) /\
    reconciled_amount r = of_decimal false 12 (-2) /\
    reconciled_amount r <> item_amount_sum (pagewise_line_items r).
Proof.
  eexists. split; [vm_compute; reflexivity|].
  split; [vm_compute; reflexivity|].
  split; [vm_compute; reflexivity|].
  vm_compute. discriminate.
Qed.

(** C1, amended: for every payload accepted by reconciliation, the
    reconciled amount is the sum of the item amounts of all items of all
    pages, rounded to two decimals.  The amounts summed are those read
    from the [item_amount] of the raw entries, in order; no sub-total and
    no stated total enters the sum: the payload stripped of both is
    accepted too and has the same reconciled amount. *)
Theorem reconciled_amount_is_rounded_item_sum {RT : Runtime}
    (d : json) (r : ExtractedData) :
  reconcile_amounts d = Ok r ->
  reconciled_amount r = round2 (item_amount_sum (pagewise_line_items r)) /\
  (exists ess amounts,
      raw_entries d = Ok ess /\
      traverse raw_amount (List.concat ess) = Ok amounts /\
      reconciled_amount r = round2 (sum_from zero amounts)) /\
  (exists r',
      reconcile_amounts (without_totals d) = Ok r' /\
      reconciled_amount r' = reconciled_amount r).
Proof.
  intros H.
  destruct (reconcile_amounts_ok _ _ H) as (_ & _ & _ & _ & _ & _ & Hsum & _).
  split; [exact Hsum|]. split.
  - destruct (reconcile_amounts_entries _ _ H) as (ess & Hess & _ & Hamounts).
    exists ess, (map item_amount (all_items (pagewise_line_items r))).
    repeat split; assumption.
  - eexists. split; [exact (reconcile_amounts_without_totals _ _ H)|].
    reflexivity.
Qed.

Lemma reconciled_amount_is_rounded_item_sum_witness :
  exists r,
    reconcile_amounts (Samples.bill_150 [("actual_bill_total", JInt 120)])
      = Ok r /\
    reconciled_amount r = round2 (item_amount_sum (pagewise_line_items r)) /\
    (exists ess amounts,
        raw_entries (Samples.bill_150 [("actual_bill_total", JInt 120)])
          = Ok ess /\
        traverse raw_amount (List.concat ess) = Ok amounts /\
        reconciled_amount r = round2 (sum_from zero amounts)) /\
    (exists r',
        reconcile_amounts
          (without_totals (Samples.bill_150 [("actual_bill_total", JInt 120)]))
          = Ok r' /\
        reconciled_amount r' = reconciled_amount r).
Proof.
  eexists. split; [vm_compute; reflexivity|].
  apply (reconciled_amount_is_rounded_item_sum
           (Samples.bill_150 [("actual_bill_total", JInt 120)])).
  vm_compute. reflexivity.
Defined.

(** ** The item count *)

(** C7: for every payload accepted by reconciliation, the item count
    returned is the number of items of the pages returned, which is the
    number of item entries of the page entries of the raw payload. *)
Theorem total_item_count_counts_items {RT : Runtime}
    (d : json) (r : ExtractedData) :
  reconcile_amounts d = Ok r ->
  total_item_count r
    = Z.of_nat (List.length (all_items (pagewise_line_items r))) /\
  exists ess,
    raw_entries d = Ok ess /\
    total_item_count r = Z.of_nat (List.length (List.concat ess)).
Proof.
  intros H.
  destruct (reconcile_amounts_ok _ _ H) as (_ & _ & _ & _ & _ & Hcount & _).
  split; [exact Hcount|].
  destruct (reconcile_amounts_entries _ _ H) as (ess & Hess & Hitems & _).
  exists ess. split; [exact Hess|].
  rewrite Hcount. f_equal.
  exact (traverse_length _ _ _ Hitems).
Qed.

Lemma total_item_count_counts_items_witness :
  exists r,
    reconcile_amounts (Samples.bill_150 []) = Ok r /\
    total_item_count r
      = Z.of_nat (List.length (all_items (pagewise_line_items r))) /\
    exists ess,
      raw_entries (Samples.bill_150 []) = Ok ess /\
      total_item_count r = Z.of_nat (List.length (List.concat ess)).
Proof.
  eexists. split; [vm_compute; reflexivity|].
  apply (total_item_count_counts_items (Samples.bill_150 [])).
  vm_compute. reflexivity.
Defined.

(** ** Optional fields *)

Lemma optional_float_absent {RT : Runtime} (obj : json) (k : string) :
  field_absent obj k -> optional_float obj k = Ok None.
Proof.
  intros (d & -> & [H|H]); unfold optional_float; cbn [py_get bind];
    rewrite H; reflexivity.
Qed.

Lemma optional_float_number {RT : Runtime} (obj : json) (k : string)
    (x : float) :
  field_number obj k x -> optional_float obj k = Ok (Some x).
Proof.
  intros (d & v & -> & Hget & Hnull & Hx).
  unfold optional_float. cbn [py_get py_getitem bind]. rewrite Hget.
  destruct v; try contradiction; cbn [bind]; rewrite Hx; reflexivity.
Qed.

Lemma optional_float_uncoercible {RT : Runtime} (obj : json) (k : string) :
  field_uncoercible obj k -> is_ok (optional_float obj k) = false.
Proof.
  intros (d & v & -> & Hget & Hnull & Hx).
  unfold optional_float. cbn [py_get py_getitem bind]. rewrite Hget.
  destruct v; try contradiction; cbn [bind];
    destruct (py_float _); try discriminate; reflexivity.
Qed.

Lemma optional_float_kept {RT : Runtime} (obj : json) (k : string)
    (out : option float) :
  optional_float obj k = Ok out -> optional_kept obj k out.
Proof.
  intros H.
  assert (Hnumber : forall x, field_number obj k x -> out = Some x).
  { intros x Hnum. rewrite (optional_float_number _ _ _ Hnum) in H.
    now injection H. }
  split; [|split].
  - intros Habs. rewrite (optional_float_absent _ _ Habs) in H.
    now injection H.
  - exact Hnumber.
  - intros d v -> Hget [->|(s & ->)].
    + exists false. apply Hnumber. exists d, (JInt 0).
      repeat split; [exact Hget|discriminate].
    + exists s. apply Hnumber. exists d, (JFloat (S754_zero s)).
      repeat split; [exact Hget|discriminate].
Qed.

Lemma make_bill_item_kept {RT : Runtime} (e : json) (b : BillItem) :
  make_bill_item e = Ok b -> item_kept e b.
Proof.
  unfold make_bill_item. intros H.
  destruct (py_get e "item_name" (JStr "Unknown")) as [name|x]; simpl in H;
    [|discriminate].
  destruct (py_get e "item_amount" (JInt 0)) as [raw|x]; simpl in H;
    [|discriminate].
  destruct (py_float raw) as [amount|x]; simpl in H; [|discriminate].
  destruct (optional_float e "item_rate") as [rate|x] eqn:Hr; simpl in H;
    [|discriminate].
  destruct (optional_float e "item_quantity") as [qty|x] eqn:Hq; simpl in H;
    [|discriminate].
  destruct (validate_str name); [|discriminate].
  injection H as <-. split; simpl; now apply optional_float_kept.
Qed.

Lemma make_page_kept {RT : Runtime} (p : json) (q : PageWiseLineItems) :
  make_page p = Ok q -> page_kept p q.
Proof.
  intros H. destruct (make_page_ok _ _ H) as (entries & He & Hi & Hs).
  split; [now apply optional_float_kept|].
  exists entries. split; [exact He|].
  apply traverse_Forall2 in Hi.
  eapply Forall2_impl; [|exact Hi].
  exact make_bill_item_kept.
Qed.

(** C6: for every payload accepted by reconciliation, page by page and
    item by item, a [sub_total], [item_rate] or [item_quantity] that is
    absent from the raw payload is absent from the output, not zero, and
    one that is present with a number is that number in the output; in
    particular a field present with the value 0 is a float zero in the
    output and is not turned into an absence. *)
Theorem absent_and_zero_fields_are_kept {RT : Runtime}
    (d : json) (r : ExtractedData) :
  reconcile_amounts d = Ok r ->
  exists pages,
    pages_of d = Ok pages /\
    Forall2 page_kept pages (pagewise_line_items r).
Proof.
  intros H.
  destruct (reconcile_amounts_ok _ _ H) as (pages & t & Hp & Ht & _).
  exists pages. split; [exact Hp|].
  apply traverse_Forall2 in Ht.
  eapply Forall2_impl; [|exact Ht]. exact make_page_kept.
Qed.

Lemma absent_and_zero_fields_are_kept_witness :
  exists r,
    reconcile_amounts (Samples.bill_150 []) = Ok r /\
    exists pages,
      pages_of (Samples.bill_150 []) = Ok pages /\
      Forall2 page_kept pages (pagewise_line_items r).
Proof.
  eexists. split; [vm_compute; reflexivity|].
  apply (absent_and_zero_fields_are_kept (Samples.bill_150 [])).
  vm_compute. reflexivity.
Defined.

(** The second item of the sample has a rate of 0 and a null quantity:
    the rate returned is 0.0 and the quantity is absent. *)
Example zero_rate_and_null_quantity :
  option_map
    (fun r => map (fun b => (item_rate b, item_quantity b))
                (all_items (pagewise_line_items r)))
    (match reconcile_amounts (Samples.bill_150 [])
     with Ok r => Some r | Raise _ => None end)
  = Some [(None, None); (Some zero, None)].
Proof. vm_compute. reflexivity. Qed.

(** ** The stated total and the accuracy *)

Lemma positive_is_truthy (x : float) :
  gtb x zero = true -> PyFloat.truthy x = true.
Proof.
  destruct x as [s|s| |s m e]; try destruct s; simpl; intros H;
    try discriminate; reflexivity.
Qed.

Lemma zero_is_not_positive (x : float) :
  eqb x zero = true -> PyFloat.truthy x = false /\ gtb x zero = false.
Proof.
  destruct x as [s|s| |s m e]; try destruct s; simpl; intros H;
    try discriminate; split; reflexivity.
Qed.

Section StatedTotal.

Context {RT : Runtime}.

Lemma stated_total_absent (d : json) :
  field_absent d "actual_bill_total" -> stated_total d = Ok None.
Proof.
  intros (kv & -> & [H|H]); unfold stated_total; cbn [py_get bind];
    rewrite H; reflexivity.
Qed.

Lemma stated_total_number (d : json) (x : float) :
  field_number d "actual_bill_total" x -> stated_total d = Ok (Some x).
Proof.
  intros (kv & v & -> & Hget & Hnull & Hx).
  unfold stated_total. cbn [py_get bind]. rewrite Hget.
  destruct v; try contradiction; rewrite Hx; reflexivity.
Qed.

(** The stated total read is absent exactly when the field is, and is
    otherwise the number the field coerces to. *)
Lemma stated_total_ok (d : json) (t : option float) :
  stated_total d = Ok t ->
  match t with
  | None => field_absent d "actual_bill_total"
  | Some x => field_number d "actual_bill_total" x
  end.
Proof.
  unfold stated_total, field_absent, field_number.
  destruct d as [| | | | | |kv]; cbn [py_get bind]; try discriminate.
  destruct (dict_get kv "actual_bill_total") as [v|] eqn:Hget.
  - destruct v; cbn [bind py_float];
      try (intros H; injection H as <-);
      try discriminate;
      try (exists kv; split; [reflexivity|right; exact Hget]);
      try (eexists kv, _; repeat split;
           [exact Hget|discriminate|reflexivity]).
    + destruct (of_Z z) eqn:Hz; try discriminate;
        intros H; injection H as <-;
        (eexists kv, _; repeat split; [exact Hget|discriminate|]);
        cbn [py_float]; rewrite Hz; reflexivity.
    + destruct (FloatText.float_of_string s) as [f|] eqn:Hs;
        [|discriminate].
      intros H; injection H as <-.
      eexists kv, _. repeat split; [exact Hget|discriminate|].
      cbn [py_float]. rewrite Hs. reflexivity.
  - intros H; injection H as <-.
    exists kv. split; [reflexivity|left; exact Hget].
Qed.

Lemma field_number_unique (obj : json) (k : string) (x y : float) :
  field_number obj k x -> field_number obj k y -> x = y.
Proof.
  intros (d & v & -> & Hget & _ & Hx) (d' & v' & Heq & Hget' & _ & Hy).
  injection Heq as <-. rewrite Hget in Hget'. injection Hget' as <-.
  rewrite Hx in Hy. now injection Hy.
Qed.

(** C2: when reconciliation returns, the accuracy is present exactly
    when the stated total of the payload is present and strictly greater
    than zero, and it is then
    [round(100 * (1 - |sum - stated| / stated), 2)] where [sum] is the
    unrounded sum of the item amounts; nothing clamps the value.  When the
    stated total is absent or not strictly positive the accuracy is
    absent. *)
Theorem accuracy_percentage_iff_positive_stated_total
    (d : json) (r : ExtractedData) :
  reconcile_amounts d = Ok r ->
  (forall a,
      accuracy_percentage r = Some a <->
      exists x,
        field_number d "actual_bill_total" x /\
        gtb x zero = true /\
        a = round2
              (mul hundred
                 (sub one
                    (div (PyFloat.abs
                            (sub (item_amount_sum (pagewise_line_items r)) x))
                       x)))) /\
  (accuracy_percentage r = None <->
   field_absent d "actual_bill_total" \/
   exists x, field_number d "actual_bill_total" x /\ gtb x zero = false).
Proof.
  intros H.
  destruct (reconcile_amounts_ok _ _ H)
    as (pages & t & _ & _ & Ht & _ & _ & _ & Hacc).
  pose proof (stated_total_ok _ _ Ht) as Hfield.
  rewrite Hacc. unfold accuracy_of, accuracy_formula.
  destruct t as [x|].
  - destruct (gtb x zero) eqn:Hpos.
    + rewrite (positive_is_truthy _ Hpos). cbn [andb].
      split.
      * intros a. split.
        -- intros Ha. injection Ha as <-. exists x. auto.
        -- intros (y & Hy & _ & ->).
           now rewrite (field_number_unique _ _ _ _ Hy Hfield).
      * split; [discriminate|].
        intros [(kv & Hd & Habs)|(y & Hy & Hneg)].
        -- destruct Hfield as (kv' & v & Hd' & Hget & Hnull & _).
           rewrite Hd in Hd'. injection Hd' as <-.
           destruct Habs as [Habs|Habs]; rewrite Habs in Hget;
             [discriminate|]. injection Hget as <-. contradiction.
        -- rewrite (field_number_unique _ _ _ _ Hy Hfield) in Hneg.
           congruence.
    + rewrite andb_false_r. split.
      * intros a. split; [discriminate|].
        intros (y & Hy & Hpos' & _).
        rewrite (field_number_unique _ _ _ _ Hy Hfield) in Hpos'.
        congruence.
      * split; [|reflexivity]. intros _. right. exists x. auto.
  - split.
    + intros a. split; [discriminate|].
      intros (y & (kv' & v & Hd' & Hget & Hnull & _) & _).
      destruct Hfield as (kv & Hd & Habs).
      rewrite Hd in Hd'. injection Hd' as <-.
      destruct Habs as [Habs|Habs]; rewrite Habs in Hget;
        [discriminate|]. injection Hget as <-. contradiction.
    + split; [|reflexivity]. intros _. left. exact Hfield.
Qed.

End StatedTotal.

(** With a stated total of 10 against items of 150 the accuracy is
    -1300.0: a negative value, returned as it is. *)
Lemma accuracy_percentage_iff_positive_stated_total_witness :
  exists r,
    reconcile_amounts (Samples.bill_150 [("actual_bill_total", JInt 10)])
      = Ok r /\
    accuracy_percentage r = Some (of_Z (-1300)) /\
    (forall a,
        accuracy_percentage r = Some a <->
        exists x,
          field_number
            (Samples.bill_150 [("actual_bill_total", JInt 10)])
            "actual_bill_total" x /\
          gtb x zero = true /\
          a = round2
                (mul hundred
                   (sub one
                      (div (PyFloat.abs
                              (sub (item_amount_sum (pagewise_line_items r)) x))
                         x)))).
Proof.
  eexists. split; [vm_compute; reflexivity|].
  split; [vm_compute; reflexivity|].
  apply (accuracy_percentage_iff_positive_stated_total
           (Samples.bill_150 [("actual_bill_total", JInt 10)])).
  vm_compute. reflexivity.
Defined.

(** ** Rounding at the end and the stated total returned *)

Section Finalization.

Context {RT : Runtime}.

(** The stated total returned is the stated total rounded, as long as it
    is not a zero. *)
Lemma actual_bill_total_rounded_when_nonzero
    (d : json) (r : ExtractedData) (x : float) :
  reconcile_amounts d = Ok r ->
  field_number d "actual_bill_total" x ->
  eqb x zero = false ->
  actual_bill_total r = Some (round2 x).
Proof.
  intros H Hx Hnz.
  destruct (reconcile_amounts_ok _ _ H)
    as (pages & t & _ & _ & Ht & _ & _ & Hact & _).
  rewrite (stated_total_number _ _ Hx) in Ht. injection Ht as <-.
  rewrite Hact. unfold rounded_total, PyFloat.truthy. now rewrite Hnz.
Qed.

Lemma actual_bill_total_absent_when_absent (d : json) (r : ExtractedData) :
  reconcile_amounts d = Ok r ->
  field_absent d "actual_bill_total" ->
  actual_bill_total r = None /\ accuracy_percentage r = None.
Proof.
  intros H Habs.
  destruct (reconcile_amounts_ok _ _ H)
    as (pages & t & _ & _ & Ht & _ & _ & Hact & Hacc).
  rewrite (stated_total_absent _ Habs) in Ht. injection Ht as <-.
  now rewrite Hact, Hacc.
Qed.

(** Dropping the stated total changes nothing but the two fields derived
    from it. *)
Lemma reconcile_amounts_drop_stated_total (d : json) (r : ExtractedData) :
  reconcile_amounts d = Ok r ->
  reconcile_amounts (drop_key "actual_bill_total" d) =
  Ok {| pagewise_line_items := pagewise_line_items r;
        total_item_count := total_item_count r;
        reconciled_amount := reconciled_amount r;
        actual_bill_total := None;
        accuracy_percentage := None |}.
Proof.
  intros H.
  destruct (reconcile_amounts_ok _ _ H)
    as (pages & t & Hp & Ht & Hst & Hcount & Hsum & _).
  rewrite reconcile_amounts_eq.
  assert (Hp' : pages_of (drop_key "actual_bill_total" d) = Ok pages).
  { unfold pages_of in *. now rewrite py_get_drop_key_other by reflexivity. }
  assert (Hst' : stated_total (drop_key "actual_bill_total" d) = Ok None).
  { unfold stated_total in *.
    destruct (py_get d "actual_bill_total" JNull) as [x|e] eqn:Hg;
      [|discriminate].
    now rewrite (py_get_drop_key_same _ _ _ _ Hg). }
  rewrite Hp'. simpl. rewrite Ht. simpl. rewrite Hst'. simpl.
  now rewrite Hcount, Hsum.
Qed.

(** C9: when the stated total of an accepted payload is present and
    coerces to zero, the data returned has no stated total and no
    accuracy, and it is the very data returned for the same payload with
    the stated total removed. *)
Theorem zero_stated_total_is_returned_absent
    (d : json) (r : ExtractedData) (x : float) :
  reconcile_amounts d = Ok r ->
  field_number d "actual_bill_total" x ->
  eqb x zero = true ->
  actual_bill_total r = None /\
  accuracy_percentage r = None /\
  reconcile_amounts (drop_key "actual_bill_total" d) = Ok r.
Proof.
  intros H Hx Hz.
  destruct (reconcile_amounts_ok _ _ H)
    as (pages & t & _ & _ & Ht & _ & _ & Hact & Hacc).
  rewrite (stated_total_number _ _ Hx) in Ht. injection Ht as <-.
  destruct (zero_is_not_positive _ Hz) as (Hfalsy & Hnotpos).
  assert (Ha : actual_bill_total r = None).
  { rewrite Hact. unfold rounded_total. now rewrite Hfalsy. }
  assert (Hb : accuracy_percentage r = None).
  { rewrite Hacc. unfold accuracy_of. now rewrite Hfalsy. }
  repeat split; [exact Ha|exact Hb|].
  rewrite (reconcile_amounts_drop_stated_total _ _ H).
  destruct r; simpl in *. now rewrite Ha, Hb.
Qed.

End Finalization.

Lemma zero_stated_total_is_returned_absent_witness :
  exists r,
    reconcile_amounts (Samples.bill_150 [("actual_bill_total", JInt 0)])
      = Ok r /\
    field_number (Samples.bill_150 [("actual_bill_total", JInt 0)])
      "actual_bill_total" zero /\
    eqb zero zero = true /\
    actual_bill_total r = None /\
    accuracy_percentage r = None /\
    reconcile_amounts
      (drop_key "actual_bill_total"
         (Samples.bill_150 [("actual_bill_total", JInt 0)])) = Ok r.
Proof.
  assert (Hfield : field_number
                     (Samples.bill_150 [("actual_bill_total", JInt 0)])
                     "actual_bill_total" zero).
  { eexists _, (JInt 0). repeat split. discriminate. }
  eexists. split; [vm_compute; reflexivity|].
  split; [exact Hfield|]. split; [reflexivity|].
  apply (zero_stated_total_is_returned_absent
           (Samples.bill_150 [("actual_bill_total", JInt 0)]) _ zero);
    [vm_compute; reflexivity|exact Hfield|reflexivity].
Defined.

(** C5, at the payload with no page and a stated total of 0: the stated
    total is present and numeric, its rounding is 0.0, and the stated
    total returned is absent. *)
Theorem stated_total_of_zero_is_not_rounded :
  exists r,
    reconcile_amounts Samples.bill_zero_total = Ok r /\
    field_number Samples.bill_zero_total "actual_bill_total" zero /\
    round2 zero = zero /\
    actual_bill_total r = None /\
    actual_bill_total r <> Some (round2 zero).
Proof.
  eexists. split; [vm_compute; reflexivity|].
  split.
  { eexists _, (JInt 0). repeat split. discriminate. }
  split; [reflexivity|]. split; [reflexivity|discriminate].
Qed.

(** ** What makes reconciliation raise *)

Section Failures.

Context {RT : Runtime}.

Lemma make_bill_item_raises_amount (e : json) :
  is_ok (raw_amount e) = false -> is_ok (make_bill_item e) = false.
Proof.
  unfold raw_amount, make_bill_item.
  destruct (py_get e "item_name" (JStr "Unknown")) as [name|x];
    [|reflexivity].
  cbn [bind].
  destruct (py_get e "item_amount" (JInt 0)) as [raw|x]; [|reflexivity].
  cbn [bind].
  destruct (py_float raw); [discriminate|reflexivity].
Qed.

Lemma make_bill_item_raises_optional (e : json) (k : string) :
  k = "item_rate" \/ k = "item_quantity" ->
  is_ok (optional_float e k) = false -> is_ok (make_bill_item e) = false.
Proof.
  unfold make_bill_item.
  destruct (py_get e "item_name" (JStr "Unknown")) as [name|x];
    [|reflexivity].
  cbn [bind].
  destruct (py_get e "item_amount" (JInt 0)) as [raw|x]; [|reflexivity].
  cbn [bind].
  destruct (py_float raw); [|reflexivity].
  cbn [bind].
  intros [->| ->] H.
  - destruct (optional_float e "item_rate"); [discriminate|reflexivity].
  - destruct (optional_float e "item_rate"); [|reflexivity].
    cbn [bind].
    destruct (optional_float e "item_quantity"); [discriminate|reflexivity].
Qed.

Lemma raw_amount_uncoercible (e : json) :
  amount_uncoercible e -> is_ok (raw_amount e) = false.
Proof.
  intros (d & v & -> & Hget & Hx).
  unfold raw_amount. cbn [py_get bind]. rewrite Hget.
  destruct (py_float v); [discriminate|reflexivity].
Qed.

Lemma make_bill_item_uncoercible (e : json) :
  amount_uncoercible e \/
  field_uncoercible e "item_rate" \/
  field_uncoercible e "item_quantity" ->
  is_ok (make_bill_item e) = false.
Proof.
  intros [H|[H|H]].
  - now apply make_bill_item_raises_amount, raw_amount_uncoercible.
  - apply (make_bill_item_raises_optional e "item_rate"); [now left|].
    now apply optional_float_uncoercible.
  - apply (make_bill_item_raises_optional e "item_quantity"); [now right|].
    now apply optional_float_uncoercible.
Qed.

Lemma make_page_raises_entry (p e : json) (entries : list json) :
  entries_of p = Ok entries -> In e entries ->
  is_ok (make_bill_item e) = false -> is_ok (make_page p) = false.
Proof.
  intros He Hin Hraise. unfold make_page. rewrite He. cbn [bind].
  pose proof (traverse_raises make_bill_item entries e Hin Hraise) as Ht.
  destruct (traverse make_bill_item entries); [discriminate|reflexivity].
Qed.

Lemma make_page_raises_sub_total (p : json) :
  is_ok (optional_float p "sub_total") = false -> is_ok (make_page p) = false.
Proof.
  intros H. unfold make_page.
  destruct (entries_of p) as [entries|x]; [|reflexivity]. cbn [bind].
  destruct (traverse make_bill_item entries); [|reflexivity]. cbn [bind].
  destruct (py_get p "page_no" (JStr "1")); [|reflexivity]. cbn [bind].
  destruct (optional_float p "sub_total"); [discriminate|reflexivity].
Qed.

Lemma reconcile_amounts_raises_page (d p : json) :
  page_of d p -> is_ok (make_page p) = false ->
  is_ok (reconcile_amounts d) = false.
Proof.
  intros (pages & Hp & Hin) Hraise.
  rewrite reconcile_amounts_eq, Hp. cbn [bind].
  pose proof (traverse_raises make_page pages p Hin Hraise) as Ht.
  destruct (traverse make_page pages); [discriminate|reflexivity].
Qed.

Lemma reconcile_amounts_raises_entry (d e : json) :
  entry_of d e -> is_ok (make_bill_item e) = false ->
  is_ok (reconcile_amounts d) = false.
Proof.
  intros (p & entries & Hp & He & Hin) Hraise.
  apply (reconcile_amounts_raises_page d p Hp).
  exact (make_page_raises_entry _ _ _ He Hin Hraise).
Qed.

Lemma reconcile_amounts_raises_stated_total (d : json) :
  is_ok (stated_total d) = false -> is_ok (reconcile_amounts d) = false.
Proof.
  intros H. rewrite reconcile_amounts_eq.
  destruct (pages_of d) as [pages|x]; [|reflexivity]. cbn [bind].
  destruct (traverse make_page pages); [|reflexivity]. cbn [bind].
  destruct (stated_total d); [discriminate|reflexivity].
Qed.

(** A field that cannot be coerced makes the whole call raise: nothing is
    skipped and nothing is returned. *)
Lemma reconcile_amounts_uncoercible (d : json) :
  has_uncoercible_field d -> is_ok (reconcile_amounts d) = false.
Proof.
  intros [Htotal|[(p & Hp & Hsub)|(e & He & Hfield)]].
  - apply reconcile_amounts_raises_stated_total.
    destruct Htotal as (kv & v & -> & Hget & Hnull & Hx).
    unfold stated_total. cbn [py_get bind]. rewrite Hget.
    destruct v; try contradiction;
      destruct (py_float _); try discriminate; reflexivity.
  - apply (reconcile_amounts_raises_page d p Hp).
    now apply make_page_raises_sub_total, optional_float_uncoercible.
  - apply (reconcile_amounts_raises_entry d e He).
    exact (make_bill_item_uncoercible _ Hfield).
Qed.

Lemma reconcile_amounts_null_amount (d : json) :
  has_null_amount d -> is_ok (reconcile_amounts d) = false.
Proof.
  intros (fields & He & Hget).
  apply (reconcile_amounts_raises_entry d _ He).
  apply make_bill_item_raises_amount.
  unfold raw_amount. cbn [py_get bind]. now rewrite Hget.
Qed.

End Failures.

(** ** The dispatch of the strategies *)

Section Dispatch.

Context {RT : Runtime}.

Variable Image : Type.
Variable extraction_prompt : string.
Variable llm : LLMCall Image -> option json.
Variable self : BillExtractionService.

Ltac split_dispatch :=
  repeat match goal with
    | |- context [String.eqb (provider self) ?s] =>
        destruct (String.eqb (provider self) s) eqn:?; cbn
    | |- context [gemini_model self] => destruct (gemini_model self) eqn:?; cbn
    | |- context [openai_client self] =>
        destruct (openai_client self) eqn:?; cbn
    | |- context [llm ?c] => destruct (llm c) eqn:?; cbn
    | |- context [py_truthy ?v] => destruct (py_truthy v) eqn:?; cbn
    | |- context [reconcile_amounts ?v] =>
        destruct (reconcile_amounts v) eqn:?; cbn
    end.

(** Data is returned only for a truthy payload that a provider call
    yielded and that reconciliation accepted. *)
Lemma extract_bill_data_some (image : Image) (ocr_text : string)
    (r : ExtractedData) :
  fst (ExtractionService.extract_bill_data Image extraction_prompt llm self
         image ocr_text) = Some r ->
  exists call v,
    In call (snd (ExtractionService.extract_bill_data Image extraction_prompt
                    llm self image ocr_text)) /\
    llm call = Some v /\
    py_truthy v = true /\
    reconcile_amounts v = Ok r.
Proof.
  unfold ExtractionService.extract_bill_data,
    ExtractionService.extract_with_gemini,
    ExtractionService.extract_with_vision,
    ExtractionService.fallback_extraction,
    ExtractionService.attempt.
  split_dispatch; intros H; try discriminate; injection H as <-;
    match goal with
    | Hc : llm ?c = Some ?v, Ht : py_truthy ?v = true,
      Hr : reconcile_amounts ?v = Ok _ |- _ =>
        exists c, v;
        split; [cbn; tauto|split; [exact Hc|split; [exact Ht|exact Hr]]]
    end.
Qed.

(** No data is returned when reconciliation rejects every truthy payload
    that the calls of the request yield. *)
Lemma extract_bill_data_none (image : Image) (ocr_text : string) :
  (forall call v,
      In call (snd (ExtractionService.extract_bill_data Image
                      extraction_prompt llm self image ocr_text)) ->
      llm call = Some v -> py_truthy v = true ->
      is_ok (reconcile_amounts v) = false) ->
  fst (ExtractionService.extract_bill_data Image extraction_prompt llm self
         image ocr_text) = None.
Proof.
  intros Hfail.
  destruct (fst (ExtractionService.extract_bill_data Image extraction_prompt
                   llm self image ocr_text)) as [r|] eqn:H;
    [|reflexivity].
  destruct (extract_bill_data_some _ _ _ H) as (c & v & Hin & Hc & Hv & Hr).
  specialize (Hfail c v Hin Hc Hv). rewrite Hr in Hfail. discriminate.
Qed.

End Dispatch.

(* ------------------------------------------------------------------ *)
(** ** Coercion failures *)

(** C3: when the truthy payloads that the calls of a request yield have
    a field read by the reconciliation that is present and cannot be
    coerced to a number, the request has no result: [extract_bill_data]
    returns [None], whatever else the payload holds.  The field is not
    skipped and no partial data is returned.  A rate, a quantity, a
    sub-total or a stated total is present when its value is not [null];
    an amount is present when its key is. *)
Theorem uncoercible_field_fails_the_request {RT : Runtime}
    (Image : Type) (extraction_prompt : string)
    (llm : LLMCall Image -> option json) (self : BillExtractionService)
    (image : Image) (ocr_text : string) :
  (forall call v,
      In call (snd (ExtractionService.extract_bill_data Image
                      extraction_prompt llm self image ocr_text)) ->
      llm call = Some v -> py_truthy v = true ->
      has_uncoercible_field v) ->
  fst (ExtractionService.extract_bill_data Image extraction_prompt llm self
         image ocr_text) = None.
Proof.
  intros Hbad. apply extract_bill_data_none.
  intros call v Hin Hc Hv. apply reconcile_amounts_uncoercible.
  exact (Hbad call v Hin Hc Hv).
Qed.

Lemma bill_bad_amount_uncoercible :
  has_uncoercible_field Samples.bill_bad_amount.
Proof.
  right. right.
  exists (Samples.item "Syringe" [("item_amount", JStr "N/A")]).
  split.
  - eexists _, _. split; [|split].
    + eexists. split; [reflexivity|]. left. reflexivity.
    + reflexivity.
    + left. reflexivity.
  - left. eexists _, (JStr "N/A"). repeat split.
Qed.

Lemma uncoercible_field_fails_the_request_witness :
  (forall call v,
      In call (snd (ExtractionService.extract_bill_data unit Samples.prompt
                      (Samples.answers Samples.bill_bad_amount)
                      Samples.openai_service tt "Syringe N/A")) ->
      Samples.answers Samples.bill_bad_amount call = Some v ->
      py_truthy v = true -> has_uncoercible_field v) /\
  fst (ExtractionService.extract_bill_data unit Samples.prompt
         (Samples.answers Samples.bill_bad_amount) Samples.openai_service
         tt "Syringe N/A") = None.
Proof.
  assert (H : forall call v,
             In call (snd (ExtractionService.extract_bill_data unit
                             Samples.prompt
                             (Samples.answers Samples.bill_bad_amount)
                             Samples.openai_service tt "Syringe N/A")) ->
             Samples.answers Samples.bill_bad_amount call = Some v ->
             py_truthy v = true -> has_uncoercible_field v).
  { intros call v _ Hc _. injection Hc as <-.
    exact bill_bad_amount_uncoercible. }
  split; [exact H|].
  exact (uncoercible_field_fails_the_request unit Samples.prompt
           (Samples.answers Samples.bill_bad_amount) Samples.openai_service
           tt "Syringe N/A" H).
Defined.

(** Amounts given as texts, at the service.  The separator of code 28
    is no white space for [float]: the amount cannot be coerced and the
    request has no result.  The no-break space is, and full-width digits
    are digits: the amounts are 12.5 and 12.0 and the data is returned. *)
Example text_amounts_at_the_service :
  has_uncoercible_field (TextAmounts.bill TextAmounts.after_separator) /\
  fst (ExtractionService.extract_bill_data unit Samples.prompt
         (Samples.answers (TextAmounts.bill TextAmounts.after_separator))
         Samples.openai_service tt "Syringe 12") = None /\
  (exists r,
      fst (ExtractionService.extract_bill_data unit Samples.prompt
             (Samples.answers
                (TextAmounts.bill TextAmounts.after_no_break_space))
             Samples.openai_service tt "Syringe 12.5") = Some r /\
      map item_amount (all_items (pagewise_line_items r))
        = [of_decimal false 125 (-1)]) /\
  (exists r,
      fst (ExtractionService.extract_bill_data unit Samples.prompt
             (Samples.answers (TextAmounts.bill TextAmounts.full_width))
             Samples.openai_service tt "Syringe 12") = Some r /\
      map item_amount (all_items (pagewise_line_items r)) = [of_Z 12]).
Proof.
  split; [|split; [|split]].
  - right. right.
    exists (Samples.item "Syringe"
              [("item_amount", JStr TextAmounts.after_separator)]).
    split.
    + eexists _, _. split; [|split].
      * eexists. split; [reflexivity|]. left. reflexivity.
      * reflexivity.
      * left. reflexivity.
    + left. eexists _, (JStr TextAmounts.after_separator). repeat split.
  - vm_compute. reflexivity.
  - eexists. split; vm_compute; reflexivity.
  - eexists. split; vm_compute; reflexivity.
Qed.

(** ** The sample payloads with a null amount and with no amount *)

Lemma bill_null_amount_has_null_amount :
  has_null_amount Samples.bill_null_amount.
Proof.
  exists [("item_name", JStr "Syringe"); ("item_amount", JNull)].
  split; [|reflexivity].
  eexists _, _. split; [|split].
  - eexists. split; [reflexivity|]. left. reflexivity.
  - reflexivity.
  - left. reflexivity.
Qed.

(** The two payloads at the endpoint: the null amount ends in the error
    of status 500, the missing amount in a success with an amount of
    0.0. *)
Example null_amount_at_the_endpoint :
  Main.extract_bill_data unit Samples.prompt
    (Samples.answers Samples.bill_null_amount) Samples.openai_service
    Samples.acquired "bill.png"
  = Main.RaisesHTTP 500
      "Failed to extract bill data. Please check your OpenAI API key.".
Proof. vm_compute. reflexivity. Qed.

Example missing_amount_at_the_endpoint :
  exists r,
    Main.extract_bill_data unit Samples.prompt
      (Samples.answers Samples.bill_missing_amount) Samples.openai_service
      Samples.acquired "bill.png"
    = Main.Responds {| is_success := true; data := Some r; error := None |} /\
    map item_amount (all_items (pagewise_line_items r)) = [zero] /\
    total_item_count r = 1 /\
    reconciled_amount r = zero.
Proof.
  eexists. split; [vm_compute; reflexivity|].
  repeat split.
Qed.

(* ------------------------------------------------------------------ *)
(** ** Failures at the endpoint *)

(** C4, as stated, fails: with the document acquired and no provider
    answering, the endpoint does not return a response with
    [is_success=False]; it raises the HTTP error of status 500. *)
Lemma extraction_failure_is_raised_not_returned :
  Samples.acquired "bill.png"
    = Some {| Main.text := "Syringe 12.00"; Main.image := tt |} /\
  fst (ExtractionService.extract_bill_data unit Samples.prompt
         Samples.no_answer Samples.openai_service tt "Syringe 12.00") = None /\
  Main.extract_bill_data unit Samples.prompt Samples.no_answer
    Samples.openai_service Samples.acquired "bill.png"
  = Main.RaisesHTTP 500
      "Failed to extract bill data. Please check your OpenAI API key." /\
  ~ (exists response,
        Main.extract_bill_data unit Samples.prompt Samples.no_answer
          Samples.openai_service Samples.acquired "bill.png"
        = Main.Responds response /\
        failure_response response).
Proof.
  split; [reflexivity|]. split; [vm_compute; reflexivity|].
  split; [vm_compute; reflexivity|].
  intros (response & H & _). vm_compute in H. discriminate.
Qed.

(** A service with no client makes no call and the request ends in the
    same error. *)
Example unconfigured_service_at_the_endpoint :
  snd (ExtractionService.extract_bill_data unit Samples.prompt
         (Samples.answers (Samples.bill_150 [])) Samples.unconfigured_service
         tt "Syringe 12.00") = [] /\
  Main.extract_bill_data unit Samples.prompt
    (Samples.answers (Samples.bill_150 [])) Samples.unconfigured_service
    Samples.acquired "bill.png"
  = Main.RaisesHTTP 500
      "Failed to extract bill data. Please check your OpenAI API key.".
Proof. split; vm_compute; reflexivity. Qed.

(** The collaborators catch what they raise, so nothing reaches the
    second handler: a response, when there is one, reports a success. *)
Lemma endpoint_response_is_success {RT : Runtime}
    (Image : Type) (extraction_prompt : string)
    (llm : LLMCall Image -> option json)
    (extraction_service : BillExtractionService)
    (process_document : string -> option (Main.OcrResult Image))
    (document : string) (response : BillExtractionResponse) :
  Main.extract_bill_data Image extraction_prompt llm extraction_service
    process_document document = Main.Responds response ->
  is_success response = true /\ error response = None.
Proof.
  unfold Main.extract_bill_data, Main.endpoint_body.
  destruct (process_document document) as [ocr_result|]; [|discriminate].
  destruct (fst (ExtractionService.extract_bill_data Image extraction_prompt
                   llm extraction_service (Main.image ocr_result)
                   (Main.text ocr_result))) as [r|]; [|discriminate].
  intros H. injection H as <-. split; reflexivity.
Qed.

(** C4, amended: when the document is acquired and then both strategies
    fail or reconciliation fails, that is when the calls of the request
    yield no truthy payload that reconciliation accepts, the endpoint
    raises the HTTP error of status 500 with its message, which the
    handler of [HTTPException] raises again; no response is returned. *)
Theorem extraction_failure_raises_http_500 {RT : Runtime}
    (Image : Type) (extraction_prompt : string)
    (llm : LLMCall Image -> option json)
    (extraction_service : BillExtractionService)
    (process_document : string -> option (Main.OcrResult Image))
    (document : string) (ocr_result : Main.OcrResult Image) :
  process_document document = Some ocr_result ->
  (forall call v,
      In call (snd (ExtractionService.extract_bill_data Image
                      extraction_prompt llm extraction_service
                      (Main.image ocr_result) (Main.text ocr_result))) ->
      llm call = Some v -> py_truthy v = true ->
      is_ok (reconcile_amounts v) = false) ->
  Main.extract_bill_data Image extraction_prompt llm extraction_service
    process_document document
  = Main.RaisesHTTP 500
      "Failed to extract bill data. Please check your OpenAI API key.".
Proof.
  intros Hocr Hfail.
  unfold Main.extract_bill_data, Main.endpoint_body.
  rewrite Hocr.
  now rewrite (extract_bill_data_none Image extraction_prompt llm
                 extraction_service _ _ Hfail).
Qed.

Lemma extraction_failure_raises_http_500_witness :
  Samples.acquired "bill.png"
    = Some {| Main.text := "Syringe 12.00"; Main.image := tt |} /\
  (forall call v,
      In call (snd (ExtractionService.extract_bill_data unit Samples.prompt
                      (Samples.answers Samples.bill_bad_amount)
                      Samples.gemini_service tt "Syringe 12.00")) ->
      Samples.answers Samples.bill_bad_amount call = Some v ->
      py_truthy v = true -> is_ok (reconcile_amounts v) = false) /\
  Main.extract_bill_data unit Samples.prompt
    (Samples.answers Samples.bill_bad_amount) Samples.gemini_service
    Samples.acquired "bill.png"
  = Main.RaisesHTTP 500
      "Failed to extract bill data. Please check your OpenAI API key.".
Proof.
  assert (H : forall call v,
             In call (snd (ExtractionService.extract_bill_data unit
                             Samples.prompt
                             (Samples.answers Samples.bill_bad_amount)
                             Samples.gemini_service tt "Syringe 12.00")) ->
             Samples.answers Samples.bill_bad_amount call = Some v ->
             py_truthy v = true -> is_ok (reconcile_amounts v) = false).
  { intros call v _ Hc _. injection Hc as <-. reflexivity. }
  split; [reflexivity|]. split; [exact H|].
  exact (extraction_failure_raises_http_500 unit Samples.prompt
           (Samples.answers Samples.bill_bad_amount) Samples.gemini_service
           Samples.acquired "bill.png"
           {| Main.text := "Syringe 12.00"; Main.image := tt |} eq_refl H).
Defined.

(* ------------------------------------------------------------------ *)
(** ** The tiers of the text-only path *)

(** C8, as stated, fails: with the OpenAI client the text-only path makes
    one call, to the fallback model; it does not start with the primary
    model, which it never calls. *)
Lemma text_fallback_skips_the_primary_model :
  snd (ExtractionService.fallback_extraction unit Samples.prompt
         Samples.no_answer Samples.openai_service "Syringe 12.00")
  = [OpenAIChat "gpt-4o-mini"
       (Samples.prompt ++ newline ++ newline ++ "Bill Text:" ++ newline
          ++ "Syringe 12.00")%string
       None] /\
  ~ primary_tier_first
      (snd (ExtractionService.fallback_extraction unit Samples.prompt
              Samples.no_answer Samples.openai_service "Syringe 12.00")).
Proof.
  split; [reflexivity|].
  intros (prompt & image & rest & H). vm_compute in H. discriminate.
Qed.

(** C8, amended: with the OpenAI client and no Gemini model, the
    text-only path makes exactly one completion call, to the cheaper
    fallback model and without the image.  The primary model is called by
    the vision strategy alone, which [extract_bill_data] runs first: with
    the provider set to OpenAI the calls of a request are the vision call
    to the primary model, followed by the text-only call to the fallback
    model when the vision strategy yields nothing truthy. *)
Theorem text_fallback_calls_the_fallback_model {RT : Runtime}
    (Image : Type) (extraction_prompt : string)
    (llm : LLMCall Image -> option json) (self : BillExtractionService)
    (image : Image) (ocr_text : string) :
  openai_client self = true ->
  gemini_model self = false ->
  let text_call :=
    OpenAIChat Config.GPT_FALLBACK_MODEL
      (extraction_prompt ++ newline ++ newline ++ "Bill Text:" ++ newline
         ++ ocr_text)%string
      None in
  let vision_call :=
    OpenAIChat Config.GPT_MODEL
      (ExtractionService.vision_prompt extraction_prompt ocr_text)
      (Some image) in
  snd (ExtractionService.fallback_extraction Image extraction_prompt llm self
         ocr_text) = [text_call] /\
  (provider self = "openai" ->
   snd (ExtractionService.extract_bill_data Image extraction_prompt llm self
          image ocr_text)
   = vision_call ::
       (if py_truthy (fst (ExtractionService.attempt Image llm vision_call))
        then [] else [text_call])).
Proof.
  intros Hopenai Hgemini text_call vision_call. split.
  - unfold ExtractionService.fallback_extraction.
    rewrite Hopenai, Hgemini. reflexivity.
  - intros Hprovider.
    unfold ExtractionService.extract_bill_data,
      ExtractionService.extract_with_vision,
      ExtractionService.fallback_extraction.
    rewrite Hprovider, Hopenai, Hgemini.
    change (String.eqb "openai" "gemini") with false.
    change (String.eqb "openai" "openai") with true.
    cbn [andb negb].
    fold vision_call. fold text_call.
    unfold ExtractionService.attempt.
    destruct (llm vision_call) as [v|]; cbn [fst].
    + destruct (py_truthy v) eqn:Hv; cbn [negb].
      * rewrite Hv. cbn [negb].
        destruct (reconcile_amounts v); reflexivity.
      * destruct (llm text_call) as [w|]; cbn.
        -- destruct (py_truthy w); cbn; [|reflexivity].
           destruct (reconcile_amounts w); reflexivity.
        -- reflexivity.
    + cbn. destruct (llm text_call) as [w|]; cbn.
      * destruct (py_truthy w); cbn; [|reflexivity].
        destruct (reconcile_amounts w); reflexivity.
      * reflexivity.
Qed.

Lemma text_fallback_calls_the_fallback_model_witness :
  openai_client Samples.openai_service = true /\
  gemini_model Samples.openai_service = false /\
  provider Samples.openai_service = "openai" /\
  snd (ExtractionService.fallback_extraction unit Samples.prompt
         Samples.no_answer Samples.openai_service "Syringe 12.00")
  = [OpenAIChat "gpt-4o-mini"
       (Samples.prompt ++ newline ++ newline ++ "Bill Text:" ++ newline
          ++ "Syringe 12.00")%string
       None] /\
  List.length
    (snd (ExtractionService.extract_bill_data unit Samples.prompt
            Samples.no_answer Samples.openai_service tt "Syringe 12.00"))
  = 2%nat.
Proof.
  destruct (text_fallback_calls_the_fallback_model unit Samples.prompt
              Samples.no_answer Samples.openai_service tt "Syringe 12.00"
              eq_refl eq_refl) as (Htext & Hall).
  split; [reflexivity|]. split; [reflexivity|]. split; [reflexivity|].
  split; [exact Htext|].
  rewrite (Hall eq_refl). reflexivity.
Defined.

(* ================================================================== *)
(** * The response parsing *)

(** ** Prefixes, occurrences and pieces *)

Lemma length_append (a b : string) :
  String.length (a ++ b) = (String.length a + String.length b)%nat.
Proof.
  induction a as [|c a IH]; simpl; [reflexivity|]. now rewrite IH.
Qed.

Lemma append_empty_r (a : string) : (a ++ EmptyString)%string = a.
Proof.
  induction a as [|c a IH]; simpl; [reflexivity|]. now rewrite IH.
Qed.

Lemma append_assoc (a b c : string) :
  ((a ++ b) ++ c)%string = (a ++ (b ++ c))%string.
Proof.
  induction a as [|x a IH]; simpl; [reflexivity|]. now rewrite IH.
Qed.

Lemma strip_prefix_append (p r : string) :
  PyStr.strip_prefix p (p ++ r) = Some r.
Proof.
  induction p as [|c p IH]; simpl; [reflexivity|].
  now rewrite Ascii.eqb_refl.
Qed.

Lemma strip_prefix_inv (p : string) :
  forall s r, PyStr.strip_prefix p s = Some r -> s = (p ++ r)%string.
Proof.
  induction p as [|c p IH]; intros s r H; simpl in *.
  - now injection H.
  - destruct s as [|d s]; [discriminate|].
    destruct (Ascii.eqb c d) eqn:E; [|discriminate].
    apply Ascii.eqb_eq in E. subst d. now rewrite (IH _ _ H).
Qed.

Lemma strip_prefix_extend (p : string) :
  forall s r t,
    PyStr.strip_prefix p s = Some r ->
    PyStr.strip_prefix p (s ++ t) = Some (r ++ t)%string.
Proof.
  intros s r t H. rewrite (strip_prefix_inv _ _ _ H).
  rewrite append_assoc. apply strip_prefix_append.
Qed.

Lemma strip_prefix_shorter (p q : string) :
  forall s r,
    PyStr.strip_prefix (p ++ q) s = Some r ->
    PyStr.strip_prefix p s = Some (q ++ r)%string.
Proof.
  intros s r H. rewrite (strip_prefix_inv _ _ _ H).
  rewrite append_assoc. apply strip_prefix_append.
Qed.

Lemma strip_prefix_empty (p : string) :
  p <> EmptyString -> PyStr.strip_prefix p EmptyString = None.
Proof. destruct p; [congruence|reflexivity]. Qed.

(** The text is the part before, the separator and the part after. *)
Lemma partition_inv (sep : string) :
  forall s before rest,
    PyStr.partition sep s = Some (before, rest) ->
    s = (before ++ sep ++ rest)%string.
Proof.
  induction s as [|c s IH]; intros before rest H; simpl in H.
  - destruct (PyStr.strip_prefix sep EmptyString) as [r|] eqn:E;
      [|discriminate].
    injection H as <- <-. exact (strip_prefix_inv _ _ _ E).
  - destruct (PyStr.strip_prefix sep (String c s)) as [r|] eqn:E.
    + injection H as <- <-. exact (strip_prefix_inv _ _ _ E).
    + destruct (PyStr.partition sep s) as [[b a]|]; [|discriminate].
      injection H as <- <-. simpl. now rewrite (IH b a eq_refl).
Qed.

(** [sub in s] holds exactly when the partition finds an occurrence. *)
Lemma contains_partition (sep s : string) :
  PyStr.contains sep s =
  match PyStr.partition sep s with Some _ => true | None => false end.
Proof.
  induction s as [|c s IH]; simpl.
  - destruct (PyStr.strip_prefix sep EmptyString); reflexivity.
  - destruct (PyStr.strip_prefix sep (String c s)); [reflexivity|].
    rewrite IH. destruct (PyStr.partition sep s) as [[b a]|]; reflexivity.
Qed.

(** The part before the first occurrence holds no occurrence. *)
Lemma partition_before (sep : string) :
  sep <> EmptyString ->
  forall s before rest,
    PyStr.partition sep s = Some (before, rest) ->
    PyStr.contains sep before = false.
Proof.
  intros Hsep. induction s as [|c s IH]; intros before rest H; simpl in H.
  - now rewrite (strip_prefix_empty _ Hsep) in H.
  - destruct (PyStr.strip_prefix sep (String c s)) as [r|] eqn:E.
    + injection H as <- <-. simpl. now rewrite (strip_prefix_empty _ Hsep).
    + destruct (PyStr.partition sep s) as [[b a]|] eqn:Hp; [|discriminate].
      injection H as <- <-. simpl.
      destruct (PyStr.strip_prefix sep (String c b)) as [r|] eqn:E'.
      * apply (strip_prefix_extend _ _ _ (sep ++ a)) in E'.
        simpl in E'. rewrite <- (partition_inv _ _ _ _ Hp) in E'.
        congruence.
      * exact (IH b a eq_refl).
Qed.

(** A longer separator occurs only where its beginning occurs. *)
Lemma contains_shorter (p q s : string) :
  PyStr.contains (p ++ q) s = true -> PyStr.contains p s = true.
Proof.
  induction s as [|c s IH]; simpl.
  - destruct (PyStr.strip_prefix (p ++ q) EmptyString) as [r|] eqn:E;
      [|discriminate].
    now rewrite (strip_prefix_shorter _ _ _ _ E).
  - destruct (PyStr.strip_prefix (p ++ q) (String c s)) as [r|] eqn:E.
    + now rewrite (strip_prefix_shorter _ _ _ _ E).
    + intros H. rewrite (IH H).
      destruct (PyStr.strip_prefix p (String c s)); reflexivity.
Qed.

(** A text free of the first character of the separator is skipped. *)
Lemma partition_skip (c0 : ascii) (sep' before x : string) :
  PyStr.free_of c0 before = true ->
  PyStr.partition (String c0 sep') (before ++ x) =
  match PyStr.partition (String c0 sep') x with
  | Some (b, a) => Some ((before ++ b)%string, a)
  | None => None
  end.
Proof.
  induction before as [|d before IH]; intros Hfree.
  - simpl. destruct (PyStr.partition (String c0 sep') x) as [[b a]|];
      reflexivity.
  - simpl in Hfree. apply andb_prop in Hfree as [Hd Hrest].
    apply negb_true_iff in Hd.
    change ((String d before ++ x)%string) with (String d (before ++ x)).
    cbn [PyStr.partition PyStr.strip_prefix]. rewrite Hd.
    rewrite (IH Hrest).
    destruct (PyStr.partition (String c0 sep') x) as [[b a]|]; reflexivity.
Qed.

Lemma partition_free (c0 : ascii) (sep' s : string) :
  PyStr.free_of c0 s = true -> PyStr.partition (String c0 sep') s = None.
Proof.
  intros H. rewrite <- (append_empty_r s).
  rewrite (partition_skip _ _ _ _ H). reflexivity.
Qed.

Lemma free_of_append (c : ascii) (a b : string) :
  PyStr.free_of c (a ++ b) = PyStr.free_of c a && PyStr.free_of c b.
Proof.
  induction a as [|d a IH]; simpl; [reflexivity|].
  now rewrite IH, andb_assoc.
Qed.

(** ** The pieces of a split *)

Lemma first_piece_free (sep s : string) :
  sep <> EmptyString -> PyStr.contains sep (first_piece sep s) = false.
Proof.
  intros Hsep. unfold first_piece.
  destruct (PyStr.partition sep s) as [[b a]|] eqn:Hp.
  - exact (partition_before _ Hsep _ _ _ Hp).
  - now rewrite contains_partition, Hp.
Qed.

Lemma partition_empty (sep : string) :
  sep <> EmptyString -> PyStr.partition sep EmptyString = None.
Proof.
  intros Hsep. simpl. now rewrite (strip_prefix_empty _ Hsep).
Qed.

(** With as many rounds as the text has characters the first piece of
    the split is the first piece of the text. *)
Lemma split_rounds_first (sep : string) (n : nat) (s : string) :
  sep <> EmptyString -> (String.length s <= n)%nat ->
  nth_error (PyStr.split_rounds n sep s) 0 = Some (first_piece sep s).
Proof.
  intros Hsep Hn. unfold first_piece. destruct n as [|n]; simpl.
  - destruct s; [|simpl in Hn; lia].
    now rewrite (partition_empty _ Hsep).
  - destruct (PyStr.partition sep s) as [[b a]|]; reflexivity.
Qed.

Lemma partition_shorter (sep s before rest : string) :
  sep <> EmptyString ->
  PyStr.partition sep s = Some (before, rest) ->
  (String.length rest < String.length s)%nat.
Proof.
  intros Hsep H. rewrite (partition_inv _ _ _ _ H), !length_append.
  destruct sep; [congruence|]. simpl. lia.
Qed.

(** More rounds than characters change nothing: the split is complete. *)
Lemma split_rounds_enough (sep : string) :
  sep <> EmptyString ->
  forall n s,
    (String.length s <= n)%nat ->
    PyStr.split_rounds n sep s = PyStr.split_rounds (String.length s) sep s.
Proof.
  intros Hsep.
  induction n as [n IH] using lt_wf_ind. intros s Hn.
  destruct n as [|n].
  - destruct s; [reflexivity|simpl in Hn; lia].
  - destruct (String.length s) as [|m] eqn:Hlen.
    + destruct s; [|discriminate]. simpl.
      now rewrite (strip_prefix_empty _ Hsep).
    + cbn [PyStr.split_rounds].
      destruct (PyStr.partition sep s) as [[b a]|] eqn:Hp; [|reflexivity].
      pose proof (partition_shorter _ _ _ _ Hsep Hp) as Hlt.
      rewrite (IH n (Nat.lt_succ_diag_r n) a) by lia.
      rewrite (IH m) by lia. reflexivity.
Qed.

(** The pieces joined by the separator are the text. *)
Lemma split_rounds_join (sep : string) :
  sep <> EmptyString ->
  forall n s,
    (String.length s <= n)%nat ->
    String.concat sep (PyStr.split_rounds n sep s) = s.
Proof.
  intros Hsep. induction n as [|n IH]; intros s Hn; simpl.
  - reflexivity.
  - destruct (PyStr.partition sep s) as [[b a]|] eqn:Hp; [|reflexivity].
    pose proof (partition_shorter _ _ _ _ Hsep Hp) as Hlt.
    cbn [String.concat].
    assert (Hne : exists x rest, PyStr.split_rounds n sep a = x :: rest).
    { destruct n; simpl; [eauto|].
      destruct (PyStr.partition sep a) as [[? ?]|]; eauto. }
    destruct Hne as (x & rest & Hx). rewrite Hx. rewrite <- Hx.
    rewrite (IH a) by lia. symmetry. exact (partition_inv _ _ _ _ Hp).
Qed.

(** The second piece of the split is the first piece of what follows the
    first occurrence. *)
Lemma split_second (sep s before rest : string) :
  sep <> EmptyString ->
  PyStr.partition sep s = Some (before, rest) ->
  exists parts,
    PyStr.split sep s = Some parts /\
    nth_error parts 1 = Some (first_piece sep rest).
Proof.
  intros Hsep Hp.
  pose proof (partition_shorter _ _ _ _ Hsep Hp) as Hlt.
  unfold PyStr.split. destruct sep as [|c sep']; [congruence|].
  eexists. split; [reflexivity|].
  destruct (String.length s) as [|n] eqn:Hlen; [lia|].
  cbn [PyStr.split_rounds]. rewrite Hp. cbn [nth_error].
  apply split_rounds_first; [exact Hsep|lia].
Qed.

Lemma split_first (sep s : string) :
  sep <> EmptyString ->
  exists parts,
    PyStr.split sep s = Some parts /\
    nth_error parts 0 = Some (first_piece sep s).
Proof.
  intros Hsep. unfold PyStr.split.
  destruct sep as [|c sep']; [congruence|].
  eexists. split; [reflexivity|].
  apply split_rounds_first; [exact Hsep|lia].
Qed.

(** ** The text between the fences *)

Lemma fence_not_empty : fence <> EmptyString.
Proof. discriminate. Qed.

Lemma json_fence_not_empty : json_fence <> EmptyString.
Proof. discriminate. Qed.

Lemma between_fences_found (opening content before rest : string) :
  opening <> EmptyString ->
  PyStr.partition opening content = Some (before, rest) ->
  between_fences opening content
    = Some (first_piece fence (first_piece opening rest)).
Proof.
  intros Hop Hp. unfold between_fences.
  destruct (split_second _ _ _ _ Hop Hp) as (parts & -> & ->).
  destruct (split_first fence (first_piece opening rest) fence_not_empty)
    as (pieces & -> & ->).
  reflexivity.
Qed.

(** X1: the fence stripping never raises: whatever the content, the
    pieces indexed by [[1]] and [[0]] exist. *)
Theorem strip_code_fences_always_returns (content : string) :
  exists inner, strip_code_fences content = Some inner.
Proof.
  unfold strip_code_fences.
  rewrite !contains_partition.
  destruct (PyStr.partition json_fence content) as [[b a]|] eqn:Hj.
  - rewrite (between_fences_found _ _ _ _ json_fence_not_empty Hj). eauto.
  - destruct (PyStr.partition fence content) as [[b a]|] eqn:Hf.
    + rewrite (between_fences_found _ _ _ _ fence_not_empty Hf). eauto.
    + eauto.
Qed.

Lemma strip_code_fences_plain (content : string) :
  PyStr.contains fence content = false ->
  strip_code_fences content = Some content.
Proof.
  intros H. unfold strip_code_fences.
  destruct (PyStr.contains json_fence content) eqn:Hj.
  - apply (contains_shorter fence "json" content) in Hj. congruence.
  - now rewrite H.
Qed.

(** X2: a content without a fence is left as it is. *)
Theorem strip_code_fences_without_fence (content : string) :
  PyStr.contains fence content = false ->
  strip_code_fences content = Some content.
Proof. exact (strip_code_fences_plain content). Qed.

Lemma strip_code_fences_without_fence_witness :
  PyStr.contains fence "{}" = false /\
  strip_code_fences "{}" = Some "{}".
Proof.
  split; [reflexivity|].
  apply (strip_code_fences_without_fence "{}"). reflexivity.
Defined.

(** X3: when the content has a fence, what is taken from it holds no
    fence. *)
Theorem strip_code_fences_leaves_no_fence (content inner : string) :
  PyStr.contains fence content = true ->
  strip_code_fences content = Some inner ->
  PyStr.contains fence inner = false.
Proof.
  unfold strip_code_fences. rewrite !contains_partition.
  destruct (PyStr.partition json_fence content) as [[b a]|] eqn:Hj.
  - intros _ H.
    rewrite (between_fences_found _ _ _ _ json_fence_not_empty Hj) in H.
    injection H as <-. rewrite <- contains_partition.
    apply first_piece_free, fence_not_empty.
  - destruct (PyStr.partition fence content) as [[b a]|] eqn:Hf;
      [|discriminate].
    intros _ H.
    rewrite (between_fences_found _ _ _ _ fence_not_empty Hf) in H.
    injection H as <-. rewrite <- contains_partition.
    apply first_piece_free, fence_not_empty.
Qed.

Lemma strip_code_fences_leaves_no_fence_witness :
  PyStr.contains fence "```json{}``` and ```more```" = true /\
  strip_code_fences "```json{}``` and ```more```" = Some "{}" /\
  PyStr.contains fence "{}" = false.
Proof.
  split; [reflexivity|]. split; [reflexivity|].
  apply (strip_code_fences_leaves_no_fence
           "```json{}``` and ```more```" "{}"); reflexivity.
Defined.

(** ** A fenced body *)

Lemma strip_prefix_same (c : ascii) (p s : string) :
  PyStr.strip_prefix (String c p) (String c s) = PyStr.strip_prefix p s.
Proof. simpl. now rewrite Ascii.eqb_refl. Qed.

Lemma strip_prefix_free (c : ascii) (p s : string) :
  PyStr.free_of c s = true -> PyStr.strip_prefix (String c p) s = None.
Proof.
  destruct s as [|d s]; simpl; [reflexivity|].
  intros H. apply andb_prop in H as [Hd _].
  apply negb_true_iff in Hd. now rewrite Hd.
Qed.

Lemma partition_found_at_once (sep s rest : string) :
  PyStr.strip_prefix sep s = Some rest ->
  PyStr.partition sep s = Some (EmptyString, rest).
Proof. intros H. destruct s; simpl; now rewrite H. Qed.

Lemma partition_not_found (sep : string) (c : ascii) (s : string) :
  PyStr.strip_prefix sep (String c s) = None ->
  PyStr.partition sep s = None ->
  PyStr.partition sep (String c s) = None.
Proof. intros H1 H2. simpl in *. now rewrite H1, H2. Qed.

(** What follows a closing fence, when it holds no backtick, starts a
    [json] fence only by starting with [json]. *)
Lemma partition_json_fence_after_fence (suffix : string) :
  PyStr.free_of backtick suffix = true ->
  PyStr.partition json_fence (fence ++ suffix) =
  match PyStr.strip_prefix "json" suffix with
  | Some rest => Some (EmptyString, rest)
  | None => None
  end.
Proof.
  intros Hfree. unfold json_fence, fence. cbn [append].
  destruct (PyStr.strip_prefix "json" suffix) as [rest|] eqn:Hj.
  - apply partition_found_at_once. now rewrite !strip_prefix_same.
  - apply partition_not_found.
    { now rewrite !strip_prefix_same. }
    apply partition_not_found.
    { rewrite !strip_prefix_same. now apply strip_prefix_free. }
    apply partition_not_found.
    { rewrite !strip_prefix_same. now apply strip_prefix_free. }
    now apply (partition_free backtick).
Qed.

Lemma strip_code_fences_json_body (before body after : string) :
  PyStr.free_of backtick before = true ->
  PyStr.free_of backtick body = true ->
  PyStr.free_of backtick after = true ->
  strip_code_fences (before ++ json_fence ++ body ++ fence ++ after)
    = Some body.
Proof.
  intros Hbefore Hbody Hafter.
  assert (Hopen : PyStr.partition json_fence
                    (before ++ json_fence ++ body ++ fence ++ after)
                  = Some (before, (body ++ fence ++ after)%string)).
  { unfold json_fence at 1.
    rewrite (partition_skip backtick "``json" _ _ Hbefore).
    change (String backtick "``json") with json_fence.
    rewrite (partition_found_at_once json_fence _ _
               (strip_prefix_append json_fence _)).
    now rewrite append_empty_r. }
  unfold strip_code_fences.
  rewrite contains_partition, Hopen.
  rewrite (between_fences_found _ _ _ _ json_fence_not_empty Hopen).
  f_equal.
  assert (Hclose : PyStr.partition fence (body ++ fence ++ after)
                   = Some (body, after)).
  { unfold fence at 1.
    rewrite (partition_skip backtick "``" _ _ Hbody).
    change (String backtick "``") with fence.
    rewrite (partition_found_at_once fence _ _ (strip_prefix_append fence _)).
    now rewrite append_empty_r. }
  unfold first_piece at 2. unfold json_fence at 1.
  rewrite (partition_skip backtick "``json" _ _ Hbody).
  change (String backtick "``json") with json_fence.
  rewrite (partition_json_fence_after_fence _ Hafter).
  destruct (PyStr.strip_prefix "json" after) as [rest|].
  - rewrite append_empty_r. unfold first_piece.
    pose proof (partition_free backtick "``" body Hbody) as Hnone.
    change (String backtick "``") with fence in Hnone.
    now rewrite Hnone.
  - unfold first_piece. now rewrite Hclose.
Qed.

(** X4: a body between a [json] fence and a closing fence is taken out
    whole, whatever text surrounds the fences, as long as the body and
    the surrounding text hold no backtick. *)
Theorem strip_code_fences_takes_the_body (before body after : string) :
  PyStr.free_of backtick before = true ->
  PyStr.free_of backtick body = true ->
  PyStr.free_of backtick after = true ->
  strip_code_fences (before ++ json_fence ++ body ++ fence ++ after)
    = Some body.
Proof. exact (strip_code_fences_json_body before body after). Qed.

Lemma strip_code_fences_takes_the_body_witness :
  PyStr.free_of backtick "Here is the bill: " = true /\
  PyStr.free_of backtick "{}" = true /\
  PyStr.free_of backtick " Done." = true /\
  strip_code_fences ("Here is the bill: " ++ json_fence ++ "{}" ++ fence
                       ++ " Done.") = Some "{}".
Proof.
  split; [reflexivity|]. split; [reflexivity|]. split; [reflexivity|].
  apply (strip_code_fences_takes_the_body "Here is the bill: " "{}" " Done.");
    reflexivity.
Defined.

(** X5: a fence that is opened and never closed, as in a response cut
    short, gives everything after the opening. *)
Theorem strip_code_fences_unclosed (before body : string) :
  PyStr.free_of backtick before = true ->
  PyStr.free_of backtick body = true ->
  strip_code_fences (before ++ json_fence ++ body) = Some body.
Proof.
  intros Hbefore Hbody.
  assert (Hopen : PyStr.partition json_fence (before ++ json_fence ++ body)
                  = Some (before, body)).
  { unfold json_fence at 1.
    rewrite (partition_skip backtick "``json" _ _ Hbefore).
    change (String backtick "``json") with json_fence.
    rewrite (partition_found_at_once json_fence _ _
               (strip_prefix_append json_fence _)).
    now rewrite append_empty_r. }
  unfold strip_code_fences.
  rewrite contains_partition, Hopen.
  rewrite (between_fences_found _ _ _ _ json_fence_not_empty Hopen).
  pose proof (partition_free backtick "``json" body Hbody) as Hj.
  change (String backtick "``json") with json_fence in Hj.
  pose proof (partition_free backtick "``" body Hbody) as Hf.
  change (String backtick "``") with fence in Hf.
  unfold first_piece. now rewrite Hj, Hf.
Qed.

Lemma strip_code_fences_unclosed_witness :
  PyStr.free_of backtick EmptyString = true /\
  PyStr.free_of backtick "{}" = true /\
  strip_code_fences (EmptyString ++ json_fence ++ "{}") = Some "{}".
Proof.
  split; [reflexivity|]. split; [reflexivity|].
  apply (strip_code_fences_unclosed EmptyString "{}"); reflexivity.
Defined.

(** ** White space around the body *)

Lemma list_ascii_of_string_append (a b : string) :
  list_ascii_of_string (a ++ b)
    = (list_ascii_of_string a ++ list_ascii_of_string b)%list.
Proof.
  induction a as [|c a IH]; simpl; [reflexivity|]. now rewrite IH.
Qed.

Lemma lstrip_spaces (ws l : list ascii) :
  Forall (fun c => FloatText.is_space c = true) ws ->
  FloatText.lstrip (ws ++ l) = FloatText.lstrip l.
Proof.
  induction 1 as [|c ws Hc _ IH]; simpl; [reflexivity|].
  now rewrite Hc.
Qed.

Lemma lstrip_append (l ws : list ascii) :
  FloatText.lstrip (l ++ ws) =
  match FloatText.lstrip l with
  | [] => FloatText.lstrip ws
  | kept => (kept ++ ws)%list
  end.
Proof.
  induction l as [|c l IH]; simpl.
  - reflexivity.
  - destruct (FloatText.is_space c); [exact IH|reflexivity].
Qed.

Lemma strip_spaces_right (l ws : list ascii) :
  Forall (fun c => FloatText.is_space c = true) ws ->
  FloatText.strip (l ++ ws) = FloatText.strip l.
Proof.
  intros Hws. unfold FloatText.strip. rewrite lstrip_append.
  destruct (FloatText.lstrip l) as [|c kept] eqn:Hl.
  - rewrite <- (app_nil_r ws), (lstrip_spaces ws [] Hws). reflexivity.
  - rewrite rev_app_distr.
    rewrite lstrip_spaces; [reflexivity|].
    apply Forall_rev. exact Hws.
Qed.

Lemma strip_surrounded (w1 body w2 : string) :
  all_space w1 -> all_space w2 ->
  PyStr.strip (w1 ++ body ++ w2) = PyStr.strip body.
Proof.
  intros H1 H2. unfold PyStr.strip.
  rewrite !list_ascii_of_string_append.
  rewrite app_assoc, (strip_spaces_right _ _ H2).
  unfold FloatText.strip. now rewrite (lstrip_spaces _ _ H1).
Qed.

Lemma all_space_free_of_backtick (w : string) :
  all_space w -> PyStr.free_of backtick w = true.
Proof.
  unfold all_space. induction w as [|c w IH]; [reflexivity|].
  intros H. cbn [list_ascii_of_string] in H.
  inversion H as [|c' l Hc Hrest]; subst.
  cbn [PyStr.free_of]. rewrite (IH Hrest), andb_true_r.
  destruct (Ascii.eqb backtick c) eqn:E; [|reflexivity].
  apply Ascii.eqb_eq in E. subst c. vm_compute in Hc. discriminate.
Qed.

Lemma free_of_backtick_no_fence (s : string) :
  PyStr.free_of backtick s = true -> PyStr.contains fence s = false.
Proof.
  intros H. rewrite contains_partition.
  pose proof (partition_free backtick "``" s H) as Hf.
  change (String backtick "``") with fence in Hf. now rewrite Hf.
Qed.

Lemma decode_content_json_fence
    (json_loads : string -> option json)
    (before w1 body w2 after : string) :
  PyStr.free_of backtick before = true ->
  PyStr.free_of backtick body = true ->
  PyStr.free_of backtick after = true ->
  all_space w1 -> all_space w2 ->
  decode_content json_loads
    (before ++ json_fence ++ (w1 ++ body ++ w2) ++ fence ++ after)
  = decode_content json_loads body.
Proof.
  intros Hbefore Hbody Hafter H1 H2. unfold decode_content.
  rewrite strip_code_fences_json_body; try assumption.
  - rewrite (strip_code_fences_plain body (free_of_backtick_no_fence _ Hbody)).
    now rewrite strip_surrounded.
  - rewrite !free_of_append, Hbody.
    now rewrite !all_space_free_of_backtick.
Qed.

(** X6: a body decodes to the same value bare or fenced: inside a [json]
    fence, with white space around it and with text free of backticks
    before and after the fences. *)
Theorem decode_content_ignores_the_fence
    (json_loads : string -> option json)
    (before w1 body w2 after : string) :
  PyStr.free_of backtick before = true ->
  PyStr.free_of backtick body = true ->
  PyStr.free_of backtick after = true ->
  all_space w1 -> all_space w2 ->
  decode_content json_loads
    (before ++ json_fence ++ (w1 ++ body ++ w2) ++ fence ++ after)
  = decode_content json_loads body.
Proof.
  exact (decode_content_json_fence json_loads before w1 body w2 after).
Qed.

Lemma decode_content_ignores_the_fence_witness :
  PyStr.free_of backtick "Result: " = true /\
  PyStr.free_of backtick "{}" = true /\
  PyStr.free_of backtick EmptyString = true /\
  all_space newline /\ all_space newline /\
  decode_content (fun s => if String.eqb s "{}" then Some (JDict []) else None)
    ("Result: " ++ json_fence ++ (newline ++ "{}" ++ newline) ++ fence
       ++ EmptyString)
  = decode_content
      (fun s => if String.eqb s "{}" then Some (JDict []) else None) "{}".
Proof.
  assert (Hnl : all_space newline).
  { repeat constructor. }
  split; [reflexivity|]. split; [reflexivity|]. split; [reflexivity|].
  split; [exact Hnl|]. split; [exact Hnl|].
  apply (decode_content_ignores_the_fence _ "Result: " newline "{}" newline
           EmptyString); try reflexivity; exact Hnl.
Defined.

(* ================================================================== *)
(** * The dispatch, call by call *)

Section DispatchFacts.

Context {RT : Runtime}.

Variable Image : Type.
Variable extraction_prompt : string.
Variable self : BillExtractionService.

(** The result depends on the provider through its answers alone. *)
Lemma extract_bill_data_ext (llm llm' : LLMCall Image -> option json)
    (image : Image) (ocr_text : string) :
  (forall call, llm call = llm' call) ->
  ExtractionService.extract_bill_data Image extraction_prompt llm self
    image ocr_text
  = ExtractionService.extract_bill_data Image extraction_prompt llm' self
      image ocr_text.
Proof.
  intros H.
  unfold ExtractionService.extract_bill_data,
    ExtractionService.extract_with_gemini,
    ExtractionService.extract_with_vision,
    ExtractionService.fallback_extraction,
    ExtractionService.attempt.
  now rewrite !H.
Qed.

(** The request in terms of its two calls. *)
Lemma extract_bill_data_calls (llm : LLMCall Image -> option json)
    (image : Image) (ocr_text : string) :
  ExtractionService.extract_bill_data Image extraction_prompt llm self
    image ocr_text
  = let first := vision_call Image extraction_prompt self image ocr_text in
    let second := text_call Image extraction_prompt self ocr_text in
    match first with
    | Some c =>
        match truthy_only llm c with
        | Some v => (reconciled_or_none v, [c])
        | None =>
            (match second with
             | Some t =>
                 match truthy_only llm t with
                 | Some w => reconciled_or_none w
                 | None => None
                 end
             | None => None
             end, c :: made second)
        end
    | None =>
        (match second with
         | Some t =>
             match truthy_only llm t with
             | Some w => reconciled_or_none w
             | None => None
             end
         | None => None
         end, made second)
    end.
Proof.
  unfold ExtractionService.extract_bill_data,
    ExtractionService.extract_with_gemini,
    ExtractionService.extract_with_vision,
    ExtractionService.fallback_extraction,
    ExtractionService.attempt,
    vision_call, text_call, text_prompt, truthy_only, reconciled_or_none,
    made.
  destruct (String.eqb (provider self) "gemini");
    destruct (String.eqb (provider self) "openai");
    destruct (gemini_model self); destruct (openai_client self);
    cbn [andb negb fst snd app];
    repeat match goal with
      | |- context [llm ?c] => destruct (llm c) as [?v|] eqn:?; cbn
      | |- context [py_truthy ?v] =>
          is_var v; destruct (py_truthy v) eqn:?; cbn
      | |- context [reconcile_amounts ?v] =>
          destruct (reconcile_amounts v) eqn:?; cbn
      end;
    first [reflexivity | discriminate | congruence].
Qed.

End DispatchFacts.

Lemma decode_content_fenced (json_loads : string -> option json)
    (body : string) :
  PyStr.free_of backtick body = true ->
  decode_content json_loads (fenced body) = decode_content json_loads body.
Proof.
  intros Hbody.
  assert (Hnl : all_space newline) by (repeat constructor).
  pose proof (decode_content_json_fence json_loads EmptyString newline body
                newline EmptyString eq_refl Hbody eq_refl Hnl Hnl) as H.
  rewrite <- H. unfold fenced. cbn [append].
  now rewrite !append_assoc, append_empty_r.
Qed.

Lemma truthy_only_idempotent {Image : Type}
    (llm : LLMCall Image -> option json) (call : LLMCall Image) :
  truthy_only (truthy_only llm) call = truthy_only llm call.
Proof.
  unfold truthy_only. destruct (llm call) as [v|]; [|reflexivity].
  destruct (py_truthy v) eqn:Hv; [|reflexivity]. now rewrite Hv.
Qed.

Section DispatchTheorems.

Context {RT : Runtime}.

Variable Image : Type.
Variable extraction_prompt : string.
Variable self : BillExtractionService.

(** X7: fencing the responses changes nothing: when every response is
    free of backticks, a provider that wraps each response in a [json]
    fence leads to the same data and the same calls. *)
Theorem fenced_responses_give_the_same_result
    (json_loads : string -> option json)
    (respond : LLMCall Image -> option string)
    (image : Image) (ocr_text : string) :
  (forall call body,
      respond call = Some body -> PyStr.free_of backtick body = true) ->
  ExtractionService.extract_bill_data Image extraction_prompt
    (decoded_answer Image json_loads
       (fun call => option_map fenced (respond call)))
    self image ocr_text
  = ExtractionService.extract_bill_data Image extraction_prompt
      (decoded_answer Image json_loads respond) self image ocr_text.
Proof.
  intros Hfree. apply extract_bill_data_ext.
  intros call. unfold decoded_answer.
  destruct (respond call) as [body|] eqn:Hr; [|reflexivity].
  cbn [option_map]. apply decode_content_fenced.
  exact (Hfree call body Hr).
Qed.

(** X8: a truthy payload from the vision strategy settles the request:
    the data is its reconciliation and the only call is the vision call.
    When the reconciliation raises there is no data and still no
    text-only call. *)
Theorem vision_payload_settles_the_request
    (llm : LLMCall Image -> option json)
    (image : Image) (ocr_text : string) (call : LLMCall Image) (v : json) :
  vision_call Image extraction_prompt self image ocr_text = Some call ->
  llm call = Some v ->
  py_truthy v = true ->
  ExtractionService.extract_bill_data Image extraction_prompt llm self
    image ocr_text = (reconciled_or_none v, [call]) /\
  (is_ok (reconcile_amounts v) = false ->
   ExtractionService.extract_bill_data Image extraction_prompt llm self
     image ocr_text = (None, [call])).
Proof.
  intros Hcall Hv Htruthy.
  assert (H : ExtractionService.extract_bill_data Image extraction_prompt llm
                self image ocr_text = (reconciled_or_none v, [call])).
  { rewrite extract_bill_data_calls. cbv zeta. rewrite Hcall.
    unfold truthy_only. now rewrite Hv, Htruthy. }
  split; [exact H|].
  intros Hraise. rewrite H. unfold reconciled_or_none.
  destruct (reconcile_amounts v); [discriminate|reflexivity].
Qed.

(** X9: when the vision strategy is not available, fails or yields a
    falsy payload, the request is settled by the text-only call, made
    after the vision call: its truthy payload is reconciled, and there is
    no data otherwise. *)
Theorem text_payload_settles_after_vision
    (llm : LLMCall Image -> option json)
    (image : Image) (ocr_text : string) (call : LLMCall Image) :
  (forall first,
      vision_call Image extraction_prompt self image ocr_text = Some first ->
      truthy_only llm first = None) ->
  text_call Image extraction_prompt self ocr_text = Some call ->
  ExtractionService.extract_bill_data Image extraction_prompt llm self
    image ocr_text
  = (match truthy_only llm call with
     | Some w => reconciled_or_none w
     | None => None
     end,
     (made (vision_call Image extraction_prompt self image ocr_text)
        ++ [call])%list).
Proof.
  intros Hvision Htext.
  rewrite extract_bill_data_calls. cbv zeta. rewrite Htext.
  destruct (vision_call Image extraction_prompt self image ocr_text)
    as [first|]; [|reflexivity].
  now rewrite (Hvision first eq_refl).
Qed.

(** X10: a falsy payload counts as a failed call: turning the falsy
    answers of the provider into failures changes neither the data nor
    the calls. *)
Theorem falsy_payload_is_a_failed_call
    (llm : LLMCall Image -> option json)
    (image : Image) (ocr_text : string) :
  ExtractionService.extract_bill_data Image extraction_prompt
    (truthy_only llm) self image ocr_text
  = ExtractionService.extract_bill_data Image extraction_prompt llm self
      image ocr_text.
Proof.
  rewrite !extract_bill_data_calls. cbv zeta.
  destruct (vision_call Image extraction_prompt self image ocr_text)
    as [first|];
    destruct (text_call Image extraction_prompt self ocr_text) as [second|];
    now rewrite ?truthy_only_idempotent.
Qed.

End DispatchTheorems.

Lemma vision_payload_settles_the_request_witness :
  vision_call unit Samples.prompt Samples.gemini_service tt "Syringe N/A"
    = Some (GeminiGenerate
              (ExtractionService.vision_prompt Samples.prompt "Syringe N/A")
              (Some tt)) /\
  Samples.answers Samples.bill_bad_amount
    (GeminiGenerate
       (ExtractionService.vision_prompt Samples.prompt "Syringe N/A")
       (Some tt)) = Some Samples.bill_bad_amount /\
  py_truthy Samples.bill_bad_amount = true /\
  is_ok (reconcile_amounts Samples.bill_bad_amount) = false /\
  ExtractionService.extract_bill_data unit Samples.prompt
    (Samples.answers Samples.bill_bad_amount) Samples.gemini_service
    tt "Syringe N/A"
  = (None,
     [GeminiGenerate
        (ExtractionService.vision_prompt Samples.prompt "Syringe N/A")
        (Some tt)]).
Proof.
  split; [reflexivity|]. split; [reflexivity|]. split; [reflexivity|].
  split; [reflexivity|].
  apply (vision_payload_settles_the_request unit Samples.prompt
           Samples.gemini_service (Samples.answers Samples.bill_bad_amount)
           tt "Syringe N/A" _ Samples.bill_bad_amount);
    reflexivity.
Defined.

Lemma fenced_responses_give_the_same_result_witness :
  (forall call body,
      (fun _ : LLMCall unit => Some "{}") call = Some body ->
      PyStr.free_of backtick body = true) /\
  ExtractionService.extract_bill_data unit Samples.prompt
    (decoded_answer unit (fun _ => Some (Samples.bill_150 []))
       (fun call => option_map fenced ((fun _ => Some "{}") call)))
    Samples.openai_service tt "Syringe"
  = ExtractionService.extract_bill_data unit Samples.prompt
      (decoded_answer unit (fun _ => Some (Samples.bill_150 []))
         (fun _ => Some "{}"))
      Samples.openai_service tt "Syringe".
Proof.
  assert (H : forall (call : LLMCall unit) body,
             (fun _ : LLMCall unit => Some "{}") call = Some body ->
             PyStr.free_of backtick body = true).
  { intros call body Hb. injection Hb as <-. reflexivity. }
  split; [exact H|].
  exact (fenced_responses_give_the_same_result unit Samples.prompt
           Samples.openai_service (fun _ => Some (Samples.bill_150 []))
           (fun _ => Some "{}") tt "Syringe" H).
Defined.

Lemma text_payload_settles_after_vision_witness :
  (forall first,
      vision_call unit Samples.prompt Samples.openai_service tt "Syringe"
        = Some first ->
      truthy_only (Samples.answers (JDict [])) first = None) /\
  text_call unit Samples.prompt Samples.openai_service "Syringe"
    = Some (OpenAIChat Config.GPT_FALLBACK_MODEL
              (text_prompt Samples.prompt "Syringe") None) /\
  ExtractionService.extract_bill_data unit Samples.prompt
    (Samples.answers (JDict [])) Samples.openai_service tt "Syringe"
  = (None,
     [OpenAIChat Config.GPT_MODEL
        (ExtractionService.vision_prompt Samples.prompt "Syringe") (Some tt);
      OpenAIChat Config.GPT_FALLBACK_MODEL
        (text_prompt Samples.prompt "Syringe") None]).
Proof.
  assert (H : forall first,
             vision_call unit Samples.prompt Samples.openai_service tt
               "Syringe" = Some first ->
             truthy_only (Samples.answers (JDict [])) first = None).
  { intros first _. reflexivity. }
  split; [exact H|]. split; [reflexivity|].
  exact (text_payload_settles_after_vision unit Samples.prompt
           Samples.openai_service (Samples.answers (JDict [])) tt "Syringe"
           _ H eq_refl).
Defined.

(** ** The provider of a service and the size of its prompts *)

(** X11: a service built by [__init__] has at most one client, and every
    call of a request goes to its provider: to Gemini exactly when the
    Gemini model was built.  Without a client a request makes no call and
    has no data. *)
Theorem configured_provider_gets_every_call {RT : Runtime}
    (Image : Type) (extraction_prompt : string)
    (llm : LLMCall Image -> option json)
    (LLM_PROVIDER OPENAI_API_KEY GEMINI_API_KEY : string)
    (GEMINI_AVAILABLE : bool) (image : Image) (ocr_text : string) :
  let self :=
    init_service LLM_PROVIDER OPENAI_API_KEY GEMINI_API_KEY GEMINI_AVAILABLE in
  let request :=
    ExtractionService.extract_bill_data Image extraction_prompt llm self
      image ocr_text in
  (openai_client self && gemini_model self = false) /\
  Forall (fun call => is_gemini_call call = gemini_model self) (snd request) /\
  (openai_client self || gemini_model self = false -> request = (None, [])).
Proof.
  intros self request. subst request self.
  rewrite extract_bill_data_calls. cbv zeta.
  unfold init_service, vision_call, text_call.
  destruct (String.eqb (str_lower LLM_PROVIDER) "openai"
            && negb (String.eqb OPENAI_API_KEY EmptyString)) eqn:Ho.
  - apply andb_prop in Ho as [Hp _]. apply String.eqb_eq in Hp.
    cbn [provider openai_client gemini_model]. rewrite Hp.
    change (String.eqb "openai" "gemini") with false.
    change (String.eqb "openai" "openai") with true.
    cbn [andb orb].
    split; [reflexivity|]. split; [|discriminate].
    destruct (truthy_only llm _); cbn [snd made]; repeat constructor.
  - destruct (String.eqb (str_lower LLM_PROVIDER) "gemini"
              && negb (String.eqb GEMINI_API_KEY EmptyString)
              && GEMINI_AVAILABLE) eqn:Hg.
    + apply andb_prop in Hg as [Hg _]. apply andb_prop in Hg as [Hp _].
      cbn [provider openai_client gemini_model]. rewrite Hp.
      cbn [andb orb].
      split; [reflexivity|]. split; [|discriminate].
      destruct (truthy_only llm _); cbn [snd made]; repeat constructor.
    + cbn [provider openai_client gemini_model].
      rewrite !andb_false_r. cbn [made].
      split; [reflexivity|]. split; [constructor|reflexivity].
Qed.

Lemma length_substring_prefix (n : nat) :
  forall s, String.length (substring 0 n s) = Nat.min n (String.length s).
Proof.
  induction n as [|n IH]; intros s.
  - destruct s; reflexivity.
  - destruct s as [|c s]; simpl; [reflexivity|]. now rewrite IH.
Qed.

(** X12: the vision call carries the image and no more than the first
    2000 characters of the OCR text, so the length of its prompt is
    bounded whatever the text; the text-only call carries no image and
    the whole text. *)
Theorem prompts_of_the_two_calls
    (Image : Type) (extraction_prompt : string)
    (self : BillExtractionService) (image : Image) (ocr_text : string) :
  (forall call,
      vision_call Image extraction_prompt self image ocr_text = Some call ->
      call_image call = Some image /\
      String.length (call_prompt call)
        = (String.length extraction_prompt + 28
           + Nat.min 2000 (String.length ocr_text))%nat /\
      (String.length (call_prompt call)
         <= String.length extraction_prompt + 2028)%nat) /\
  (forall call,
      text_call Image extraction_prompt self ocr_text = Some call ->
      call_image call = None /\
      (exists head, call_prompt call = (head ++ ocr_text)%string) /\
      String.length (call_prompt call)
        = (String.length extraction_prompt + 13
           + String.length ocr_text)%nat).
Proof.
  assert (Hvision :
            String.length
              (ExtractionService.vision_prompt extraction_prompt ocr_text)
            = (String.length extraction_prompt + 28
               + Nat.min 2000 (String.length ocr_text))%nat).
  { unfold ExtractionService.vision_prompt.
    rewrite !length_append, length_substring_prefix.
    change (String.length newline) with 1%nat.
    change (String.length "OCR Text (for reference):") with 25%nat. lia. }
  assert (Htext :
            String.length (text_prompt extraction_prompt ocr_text)
            = (String.length extraction_prompt + 13
               + String.length ocr_text)%nat).
  { unfold text_prompt. rewrite !length_append.
    change (String.length newline) with 1%nat.
    change (String.length "Bill Text:") with 10%nat. lia. }
  split.
  - intros call. unfold vision_call.
    destruct (String.eqb (provider self) "gemini" && gemini_model self);
      [|destruct (String.eqb (provider self) "openai" && openai_client self)];
      intros H; try discriminate; injection H as <-;
      cbn [call_image call_prompt]; rewrite Hvision;
      (split; [reflexivity|split; [reflexivity|lia]]).
  - intros call. unfold text_call.
    destruct (gemini_model self); [|destruct (openai_client self)];
      intros H; try discriminate; injection H as <-;
      cbn [call_image call_prompt]; rewrite Htext;
      (split; [reflexivity|split; [|reflexivity]]);
      unfold text_prompt;
      exists (extraction_prompt ++ newline ++ newline ++ "Bill Text:"
                ++ newline)%string;
      now rewrite !append_assoc.
Qed.

Lemma configured_provider_gets_every_call_witness :
  openai_client Samples.unconfigured_service
    || gemini_model Samples.unconfigured_service = false /\
  ExtractionService.extract_bill_data unit Samples.prompt
    (Samples.answers (Samples.bill_150 [])) Samples.unconfigured_service
    tt "Syringe"
  = (None, []).
Proof.
  split; [reflexivity|].
  apply (configured_provider_gets_every_call unit Samples.prompt
           (Samples.answers (Samples.bill_150 []))
           "gemini" EmptyString EmptyString true tt "Syringe").
  reflexivity.
Defined.

Lemma prompts_of_the_two_calls_witness :
  vision_call unit Samples.prompt Samples.openai_service tt "Syringe"
    = Some (OpenAIChat Config.GPT_MODEL
              (ExtractionService.vision_prompt Samples.prompt "Syringe")
              (Some tt)) /\
  (String.length (ExtractionService.vision_prompt Samples.prompt "Syringe")
     <= String.length Samples.prompt + 2028)%nat /\
  text_call unit Samples.prompt Samples.openai_service "Syringe"
    = Some (OpenAIChat Config.GPT_FALLBACK_MODEL
              (text_prompt Samples.prompt "Syringe") None) /\
  String.length (text_prompt Samples.prompt "Syringe")
    = (String.length Samples.prompt + 13 + String.length "Syringe")%nat.
Proof.
  destruct (prompts_of_the_two_calls unit Samples.prompt
              Samples.openai_service tt "Syringe") as (Hvision & Htext).
  split; [reflexivity|]. split.
  - apply (Hvision (OpenAIChat Config.GPT_MODEL
                      (ExtractionService.vision_prompt Samples.prompt
                         "Syringe") (Some tt))).
    reflexivity.
  - split; [reflexivity|].
    apply (Htext (OpenAIChat Config.GPT_FALLBACK_MODEL
                    (text_prompt Samples.prompt "Syringe") None)).
    reflexivity.
Defined.

(* ================================================================== *)
(** * The OCR service and the acquisition of the document *)

Lemma contains_self (s : string) : PyStr.contains s s = true.
Proof.
  destruct s as [|c s]; [reflexivity|].
  cbn [PyStr.contains].
  rewrite <- (append_empty_r (String c s)) at 2.
  now rewrite strip_prefix_append.
Qed.

(** A text contains what it ends with. *)
Lemma endswith_contains (suffix s : string) :
  PyStr.endswith s suffix = true -> PyStr.contains suffix s = true.
Proof.
  induction s as [|c s IH].
  - destruct suffix; [reflexivity|discriminate].
  - cbn [PyStr.endswith]. intros H. apply orb_prop in H as [H|H].
    + apply String.eqb_eq in H. rewrite <- H. apply contains_self.
    + cbn [PyStr.contains]. rewrite (IH H).
      now destruct (PyStr.strip_prefix suffix (String c s)).
Qed.

(** A text that contains a word contains the word without its first
    character. *)
Lemma contains_tail (c : ascii) (q s : string) :
  PyStr.contains (String c q) s = true -> PyStr.contains q s = true.
Proof.
  induction s as [|d s IH].
  - simpl. discriminate.
  - cbn [PyStr.contains].
    destruct (PyStr.strip_prefix (String c q) (String d s)) as [r|] eqn:E.
    + intros _. apply strip_prefix_inv in E. cbn [append] in E.
      injection E as Hd Hs. subst d s. clear IH.
      destruct (PyStr.strip_prefix q (String c (q ++ r))); [reflexivity|].
      rewrite contains_partition.
      now rewrite (partition_found_at_once _ _ _ (strip_prefix_append q r)).
    + intros H. rewrite (IH H).
      now destruct (PyStr.strip_prefix q (String d s)).
Qed.

Section Acquisition.

Variable Image : Type.
Variable Bytes : Type.
Variable PDF_SUPPORT : bool.
Variable http_get : string -> option Bytes.
Variable image_open : Bytes -> option Image.
Variable convert_from_bytes : Bytes -> option (list Image).
Variable easyocr_readtext : Image -> option (list string).
Variable tesseract_to_string : Image -> option string.
Variable image_width : Image -> Z.
Variable image_height : Image -> Z.

(** The test on the end of the URL adds nothing to the test on its
    content. *)
Lemma looks_like_pdf_contains (url : string) :
  OcrService.looks_like_pdf url = PyStr.contains "pdf" (str_lower url).
Proof.
  unfold OcrService.looks_like_pdf.
  destruct (PyStr.endswith (str_lower url) ".pdf") eqn:He; [|reflexivity].
  apply endswith_contains in He. apply contains_tail in He.
  now rewrite He.
Qed.

(** X13: with an engine name that is neither [easyocr] nor [tesseract],
    a differently cased [EasyOCR] included, the service falls back on a
    reader that was never built: the text of every image is empty. *)
Theorem unknown_engine_reads_nothing (OCR_ENGINE : string) (image : Image) :
  OCR_ENGINE <> "easyocr" ->
  OCR_ENGINE <> "tesseract" ->
  OcrService.extract_text Image easyocr_readtext tesseract_to_string
    (OcrService.init_service OCR_ENGINE) image = EmptyString.
Proof.
  intros He Ht.
  unfold OcrService.extract_text, OcrService.extract_text_easyocr,
    OcrService.init_service.
  cbn [OcrService.engine OcrService.easyocr_reader].
  apply String.eqb_neq in He. apply String.eqb_neq in Ht.
  now rewrite He, Ht.
Qed.

(** X14: an image is returned when the body of the response opens as an
    image, and otherwise when PDF support is there, the lower-cased URL
    contains [pdf] anywhere and the conversion yields a page, the first
    one; in every other case nothing is returned. *)
Theorem download_image_returns (url : string) (image : Image) :
  OcrService.download_image Image Bytes PDF_SUPPORT http_get image_open
    convert_from_bytes url = Some image <->
  exists content,
    http_get url = Some content /\
    (image_open content = Some image \/
     (image_open content = None /\
      PDF_SUPPORT = true /\
      PyStr.contains "pdf" (str_lower url) = true /\
      exists more, convert_from_bytes content = Some (image :: more))).
Proof.
  unfold OcrService.download_image. rewrite looks_like_pdf_contains.
  destruct (http_get url) as [content|].
  - destruct (image_open content) as [opened|] eqn:Ho.
    + split.
      * intros H. exists content. split; [reflexivity|]. left. congruence.
      * intros (c & Hc & [H|(H & _)]); injection Hc as <-; congruence.
    + destruct PDF_SUPPORT; cbn [andb].
      * destruct (PyStr.contains "pdf" (str_lower url)).
        -- destruct (convert_from_bytes content) as [[|page more]|] eqn:Hc.
           ++ split; [discriminate|].
              intros (c & Hg & [H|(_ & _ & _ & more & H)]);
                injection Hg as <-; congruence.
           ++ split.
              ** intros H. injection H as <-. exists content.
                 split; [reflexivity|]. right. eauto 6.
              ** intros (c & Hg & [H|(_ & _ & _ & more' & H)]);
                   injection Hg as <-; congruence.
           ++ split; [discriminate|].
              intros (c & Hg & [H|(_ & _ & _ & more & H)]);
                injection Hg as <-; congruence.
        -- split; [discriminate|].
           intros (c & Hg & [H|(_ & _ & H & _)]);
             injection Hg as <-; congruence.
      * split; [discriminate|].
        intros (c & Hg & [H|(_ & H & _)]); injection Hg as <-; congruence.
  - split; [discriminate|]. intros (c & Hc & _). discriminate.
Qed.

End Acquisition.

Lemma unknown_engine_reads_nothing_witness :
  "EasyOCR" <> "easyocr" /\
  "EasyOCR" <> "tesseract" /\
  OcrService.extract_text unit (fun _ => Some ["Syringe"; "12.00"])
    (fun _ => Some "Syringe 12.00")
    (OcrService.init_service "EasyOCR") tt = EmptyString.
Proof.
  split; [discriminate|]. split; [discriminate|].
  apply (unknown_engine_reads_nothing unit (fun _ => Some ["Syringe"; "12.00"])
           (fun _ => Some "Syringe 12.00") "EasyOCR" tt);
    discriminate.
Defined.

Section AcquisitionAtTheEndpoint.

Context {RT : Runtime}.

Variable Image : Type.
Variable Bytes : Type.
Variable PDF_SUPPORT : bool.
Variable http_get : string -> option Bytes.
Variable image_open : Bytes -> option Image.
Variable convert_from_bytes : Bytes -> option (list Image).
Variable easyocr_readtext : Image -> option (list string).
Variable tesseract_to_string : Image -> option string.
Variable image_width : Image -> Z.
Variable image_height : Image -> Z.
Variable ocr_service : OcrService.OCRService.

Variable extraction_prompt : string.
Variable llm : LLMCall Image -> option json.
Variable extraction_service : BillExtractionService.

(** The document is processed exactly when its image is obtained: the
    reading of the text cannot fail it. *)
Lemma process_document_some (url : string) :
  OcrService.process_document Image Bytes PDF_SUPPORT http_get image_open
    convert_from_bytes easyocr_readtext tesseract_to_string image_width
    image_height ocr_service url = None <->
  OcrService.download_image Image Bytes PDF_SUPPORT http_get image_open
    convert_from_bytes url = None.
Proof.
  unfold OcrService.process_document.
  destruct (OcrService.download_image Image Bytes PDF_SUPPORT http_get
              image_open convert_from_bytes url);
    split; intros H; try discriminate; reflexivity.
Qed.

(** X15: with the OCR service as the acquisition, the endpoint raises the
    error of status 400 exactly when the image of the document cannot be
    obtained.  A reading of the text that fails leaves the text empty
    and the request goes on. *)
Theorem bad_request_exactly_when_no_image (document : string) :
  Main.extract_bill_data Image extraction_prompt llm extraction_service
    (OcrService.acquire Image Bytes PDF_SUPPORT http_get image_open
       convert_from_bytes easyocr_readtext tesseract_to_string image_width
       image_height ocr_service)
    document
  = Main.RaisesHTTP 400
      "Failed to process document. Please check the document URL."
  <->
  OcrService.download_image Image Bytes PDF_SUPPORT http_get image_open
    convert_from_bytes document = None.
Proof.
  unfold Main.extract_bill_data, Main.endpoint_body, OcrService.acquire,
    OcrService.process_document.
  destruct (OcrService.download_image Image Bytes PDF_SUPPORT http_get
              image_open convert_from_bytes document) as [image|];
    cbn [option_map].
  - destruct (fst (ExtractionService.extract_bill_data _ _ _ _ _ _));
      split; discriminate.
  - split; reflexivity.
Qed.

End AcquisitionAtTheEndpoint.

(* ================================================================== *)
(** * More on the reconciliation *)

Section ReconciliationShape.

Context {RT : Runtime}.

Lemma make_bill_item_name (e : json) (b : BillItem) :
  make_bill_item e = Ok b ->
  validate_str (raw_item_name e) = Some (item_name b).
Proof.
  unfold make_bill_item. intros H.
  destruct e as [| | | | | |d]; try discriminate.
  cbn [py_get bind raw_item_name] in *.
  destruct (py_float _) as [amount|x]; cbn [bind] in H; [|discriminate].
  destruct (optional_float (JDict d) "item_rate") as [rate|x];
    cbn [bind] in H; [|discriminate].
  destruct (optional_float (JDict d) "item_quantity") as [qty|x];
    cbn [bind] in H; [|discriminate].
  destruct (validate_str _) as [n|]; [|discriminate].
  injection H as <-. reflexivity.
Qed.

Lemma make_page_shape (p : json) (q : PageWiseLineItems) :
  make_page p = Ok q ->
  page_no q = py_str (raw_page_no p) /\
  exists entries,
    entries_of p = Ok entries /\
    List.length (bill_items q) = List.length entries.
Proof.
  intros H. destruct (make_page_ok _ _ H) as (entries & He & Hi & _).
  split.
  - unfold make_page in H. rewrite He in H. cbn [bind] in H. rewrite Hi in H.
    cbn [bind] in H.
    destruct p as [| | | | | |d]; try discriminate.
    cbn [py_get bind raw_page_no] in *.
    destruct (optional_float (JDict d) "sub_total"); cbn [bind] in H;
      [|discriminate].
    injection H as <-. reflexivity.
  - exists entries. split; [exact He|].
    exact (traverse_length _ _ _ Hi).
Qed.

Lemma traverse_make_page_shape (pages : list json) :
  forall typed ess,
    traverse make_page pages = Ok typed ->
    traverse entries_of pages = Ok ess ->
    map page_no typed = map (fun p => py_str (raw_page_no p)) pages /\
    map (fun q => List.length (bill_items q)) typed
      = map (@List.length json) ess.
Proof.
  induction pages as [|p rest IH]; intros typed ess Ht He; simpl in *.
  - injection Ht as <-. injection He as <-. split; reflexivity.
  - destruct (make_page p) as [q|x] eqn:Hq; simpl in Ht; [|discriminate].
    destruct (traverse make_page rest) as [qs|x]; simpl in Ht;
      [|discriminate].
    injection Ht as <-.
    destruct (make_page_shape _ _ Hq) as (Hno & es & Hes & Hlen).
    rewrite Hes in He. simpl in He.
    destruct (traverse entries_of rest) as [ess'|x]; simpl in He;
      [|discriminate].
    injection He as <-.
    destruct (IH qs ess' eq_refl eq_refl) as (IH1 & IH2).
    simpl. now rewrite Hno, Hlen, IH1, IH2.
Qed.

(** X16: the pages and the items returned are those of the payload, one
    for one and in the same order.  The number of a page is [str] of its
    [page_no], of ["1"] when the key is missing, and each page has as
    many items as it has raw entries; the name of an item is its
    [item_name], ["Unknown"] when the key is missing, as validated. *)
Theorem pages_and_items_keep_their_order (d : json) (r : ExtractedData) :
  reconcile_amounts d = Ok r ->
  exists pages ess,
    pages_of d = Ok pages /\
    traverse entries_of pages = Ok ess /\
    map page_no (pagewise_line_items r)
      = map (fun p => py_str (raw_page_no p)) pages /\
    map (fun q => List.length (bill_items q)) (pagewise_line_items r)
      = map (@List.length json) ess /\
    Forall2 (fun e b => validate_str (raw_item_name e) = Some (item_name b))
      (List.concat ess) (all_items (pagewise_line_items r)).
Proof.
  intros H.
  destruct (reconcile_amounts_ok _ _ H) as (pages & t & Hp & Ht & _).
  destruct (traverse_make_page_entries _ _ Ht) as (ess & Hess & Hall).
  destruct (traverse_make_page_shape _ _ _ Ht Hess) as (Hno & Hlen).
  exists pages, ess. repeat split; try assumption.
  apply traverse_Forall2 in Hall.
  eapply Forall2_impl; [|exact Hall].
  exact make_bill_item_name.
Qed.

(** X17: the reconciliation reads two keys of the payload and no other:
    a key that is neither [pagewise_line_items] nor [actual_bill_total],
    such as the [extraction_notes] the prompt asks for, changes
    nothing. *)
Theorem unread_keys_change_nothing (k : string) (v : json)
    (kv : list (string * json)) :
  k <> "pagewise_line_items" ->
  k <> "actual_bill_total" ->
  reconcile_amounts (JDict ((k, v) :: kv)) = reconcile_amounts (JDict kv).
Proof.
  intros Hp Ht.
  assert (Hp' : String.eqb "pagewise_line_items" k = false).
  { apply String.eqb_neq. congruence. }
  assert (Ht' : String.eqb "actual_bill_total" k = false).
  { apply String.eqb_neq. congruence. }
  unfold reconcile_amounts, stated_total.
  cbn [py_get dict_get]. now rewrite Hp', Ht'.
Qed.

(** X18: a payload with no page, because the key is missing or the list
    is empty, is accepted when its stated total is: no item, an amount of
    0.0 and no page are returned. *)
Theorem no_page_reconciles_to_zero (d : json) :
  pages_of d = Ok [] ->
  is_ok (stated_total d) = true ->
  exists r,
    reconcile_amounts d = Ok r /\
    pagewise_line_items r = [] /\
    total_item_count r = 0 /\
    reconciled_amount r = zero.
Proof.
  intros Hp Ht. rewrite reconcile_amounts_eq, Hp. cbn [bind traverse].
  destruct (stated_total d) as [t|x]; [|discriminate]. cbn [bind].
  eexists. split; [reflexivity|]. repeat split.
Qed.

(** X19: a stated total that is neither positive nor zero, a negative
    number or a NaN, is returned rounded and without an accuracy. *)
Theorem negative_total_has_no_accuracy (d : json) (r : ExtractedData)
    (x : float) :
  reconcile_amounts d = Ok r ->
  field_number d "actual_bill_total" x ->
  gtb x zero = false ->
  eqb x zero = false ->
  actual_bill_total r = Some (round2 x) /\ accuracy_percentage r = None.
Proof.
  intros H Hx Hpos Hzero.
  split; [exact (actual_bill_total_rounded_when_nonzero _ _ _ H Hx Hzero)|].
  destruct (reconcile_amounts_ok _ _ H)
    as (pages & t & _ & _ & Ht & _ & _ & _ & Hacc).
  rewrite (stated_total_number _ _ Hx) in Ht. injection Ht as <-.
  rewrite Hacc. unfold accuracy_of. now rewrite Hpos, andb_false_r.
Qed.

(** X20: the grouping of the items into pages does not count: two
    accepted payloads with the same item entries in the same order have
    the same items, the same item count and the same reconciled
    amount. *)
Theorem page_grouping_changes_nothing (d d' : json) (r r' : ExtractedData)
    (ess ess' : list (list json)) :
  reconcile_amounts d = Ok r ->
  reconcile_amounts d' = Ok r' ->
  raw_entries d = Ok ess ->
  raw_entries d' = Ok ess' ->
  List.concat ess = List.concat ess' ->
  all_items (pagewise_line_items r) = all_items (pagewise_line_items r') /\
  total_item_count r = total_item_count r' /\
  reconciled_amount r = reconciled_amount r'.
Proof.
  intros H H' He He' Hsame.
  destruct (reconcile_amounts_entries _ _ H) as (e0 & He0 & Hi & _).
  destruct (reconcile_amounts_entries _ _ H') as (e0' & He0' & Hi' & _).
  rewrite He in He0. injection He0 as <-.
  rewrite He' in He0'. injection He0' as <-.
  rewrite Hsame, Hi' in Hi. injection Hi as Hitems.
  destruct (reconcile_amounts_ok _ _ H) as (_ & _ & _ & _ & _ & Hc & Hs & _).
  destruct (reconcile_amounts_ok _ _ H') as (_ & _ & _ & _ & _ & Hc' & Hs' & _).
  split; [now symmetry|].
  rewrite Hc, Hc', Hs, Hs'. unfold item_amount_sum. now rewrite Hitems.
Qed.

End ReconciliationShape.

Lemma pages_and_items_keep_their_order_witness :
  exists r,
    reconcile_amounts (Samples.bill_150 []) = Ok r /\
    exists pages ess,
      pages_of (Samples.bill_150 []) = Ok pages /\
      traverse entries_of pages = Ok ess /\
      map page_no (pagewise_line_items r)
        = map (fun p => py_str (raw_page_no p)) pages /\
      map (fun q => List.length (bill_items q)) (pagewise_line_items r)
        = map (@List.length json) ess /\
      Forall2 (fun e b => validate_str (raw_item_name e) = Some (item_name b))
        (List.concat ess) (all_items (pagewise_line_items r)).
Proof.
  eexists. split; [vm_compute; reflexivity|].
  apply (pages_and_items_keep_their_order (Samples.bill_150 [])).
  vm_compute. reflexivity.
Defined.

Lemma unread_keys_change_nothing_witness :
  "extraction_notes" <> "pagewise_line_items" /\
  "extraction_notes" <> "actual_bill_total" /\
  reconcile_amounts
    (JDict [("extraction_notes", JStr "Second line is hard to read");
            ("actual_bill_total", JInt 150)])
  = reconcile_amounts (JDict [("actual_bill_total", JInt 150)]).
Proof.
  split; [discriminate|]. split; [discriminate|].
  apply (unread_keys_change_nothing "extraction_notes"); discriminate.
Defined.

Lemma no_page_reconciles_to_zero_witness :
  pages_of (JDict [("actual_bill_total", JInt 150)]) = Ok [] /\
  is_ok (stated_total (JDict [("actual_bill_total", JInt 150)])) = true /\
  exists r,
    reconcile_amounts (JDict [("actual_bill_total", JInt 150)]) = Ok r /\
    pagewise_line_items r = [] /\
    total_item_count r = 0 /\
    reconciled_amount r = zero.
Proof.
  split; [reflexivity|]. split; [reflexivity|].
  apply (no_page_reconciles_to_zero (JDict [("actual_bill_total", JInt 150)]));
    reflexivity.
Defined.

Lemma negative_total_has_no_accuracy_witness :
  exists r,
    reconcile_amounts (Samples.bill_150 [("actual_bill_total", JInt (-5))])
      = Ok r /\
    field_number (Samples.bill_150 [("actual_bill_total", JInt (-5))])
      "actual_bill_total" (of_Z (-5)) /\
    gtb (of_Z (-5)) zero = false /\
    eqb (of_Z (-5)) zero = false /\
    actual_bill_total r = Some (round2 (of_Z (-5))) /\
    accuracy_percentage r = None.
Proof.
  assert (Hfield : field_number
                     (Samples.bill_150 [("actual_bill_total", JInt (-5))])
                     "actual_bill_total" (of_Z (-5))).
  { eexists _, (JInt (-5)). repeat split. discriminate. }
  eexists. split; [vm_compute; reflexivity|].
  split; [exact Hfield|]. split; [reflexivity|]. split; [reflexivity|].
  apply (negative_total_has_no_accuracy
           (Samples.bill_150 [("actual_bill_total", JInt (-5))]) _ (of_Z (-5)));
    [vm_compute; reflexivity|exact Hfield|reflexivity|reflexivity].
Defined.

Lemma page_grouping_changes_nothing_witness :
  exists r r',
    reconcile_amounts Grouping.two_pages = Ok r /\
    reconcile_amounts Grouping.one_page = Ok r' /\
    raw_entries Grouping.two_pages
      = Ok [[Grouping.swab]; [Grouping.tape]] /\
    raw_entries Grouping.one_page = Ok [[Grouping.swab; Grouping.tape]] /\
    List.concat [[Grouping.swab]; [Grouping.tape]]
      = List.concat [[Grouping.swab; Grouping.tape]] /\
    all_items (pagewise_line_items r) = all_items (pagewise_line_items r') /\
    total_item_count r = total_item_count r' /\
    reconciled_amount r = reconciled_amount r'.
Proof.
  destruct (reconcile_amounts Grouping.two_pages) as [r|x] eqn:Hr;
    [|vm_compute in Hr; discriminate].
  destruct (reconcile_amounts Grouping.one_page) as [r'|x] eqn:Hr';
    [|vm_compute in Hr'; discriminate].
  exists r, r'.
  split; [reflexivity|]. split; [reflexivity|].
  split; [reflexivity|]. split; [reflexivity|]. split; [reflexivity|].
  exact (page_grouping_changes_nothing Grouping.two_pages Grouping.one_page
           r r' [[Grouping.swab]; [Grouping.tape]]
           [[Grouping.swab; Grouping.tape]] Hr Hr' eq_refl eq_refl eq_refl).
Defined.

(** ** A sum that matches the stated total *)

Lemma sub_self (s : bool) (m : positive) (e : Z) :
  sub (S754_finite s m e) (S754_finite s m e) = zero.
Proof.
  unfold sub, SFsub. rewrite Z.sub_diag. reflexivity.
Qed.

Lemma accuracy_formula_match (m : positive) (e : Z) :
  round2 (accuracy_formula (S754_finite false m e) (S754_finite false m e))
  = of_Z 100.
Proof.
  unfold accuracy_formula. rewrite sub_self.
  vm_compute. reflexivity.
Qed.

(** X21: when the unrounded sum of the item amounts is the stated total,
    a positive finite number, the accuracy is exactly 100.0. *)
Theorem matching_total_is_fully_accurate {RT : Runtime}
    (d : json) (r : ExtractedData) (m : positive) (e : Z) :
  reconcile_amounts d = Ok r ->
  field_number d "actual_bill_total" (S754_finite false m e) ->
  item_amount_sum (pagewise_line_items r) = S754_finite false m e ->
  accuracy_percentage r = Some (of_Z 100).
Proof.
  intros H Hx Hsum.
  destruct (reconcile_amounts_ok _ _ H)
    as (pages & t & _ & _ & Ht & _ & _ & _ & Hacc).
  rewrite (stated_total_number _ _ Hx) in Ht. injection Ht as <-.
  rewrite Hacc, Hsum. unfold accuracy_of. cbn [PyFloat.truthy gtb andb].
  change (PyFloat.truthy (S754_finite false m e)) with true.
  change (gtb (S754_finite false m e) zero) with true.
  cbn [andb]. now rewrite accuracy_formula_match.
Qed.

Lemma matching_total_is_fully_accurate_witness :
  exists r,
    reconcile_amounts (Samples.bill_150 [("actual_bill_total", JInt 150)])
      = Ok r /\
    field_number (Samples.bill_150 [("actual_bill_total", JInt 150)])
      "actual_bill_total" (S754_finite false 5277655813324800 (-45)) /\
    item_amount_sum (pagewise_line_items r)
      = S754_finite false 5277655813324800 (-45) /\
    accuracy_percentage r = Some (of_Z 100).
Proof.
  assert (Hfield : field_number
                     (Samples.bill_150 [("actual_bill_total", JInt 150)])
                     "actual_bill_total"
                     (S754_finite false 5277655813324800 (-45))).
  { eexists _, (JInt 150). repeat split. discriminate. }
  eexists. split; [vm_compute; reflexivity|].
  split; [exact Hfield|]. split; [vm_compute; reflexivity|].
  apply (matching_total_is_fully_accurate
           (Samples.bill_150 [("actual_bill_total", JInt 150)]) _
           5277655813324800 (-45));
    [vm_compute; reflexivity|exact Hfield|vm_compute; reflexivity].
Defined.

(* ================================================================== *)
(** * What a successful response carries *)

(** X22: the endpoint never answers with [is_success=False].  When it
    responds, the response reports a success without an error message,
    and its data is the reconciliation of a truthy payload that a
    provider call yielded for the acquired document: the item count is
    the number of items of its pages and the reconciled amount is the
    rounded sum of their amounts. *)
Theorem response_carries_reconciled_data {RT : Runtime}
    (Image : Type) (extraction_prompt : string)
    (llm : LLMCall Image -> option json)
    (extraction_service : BillExtractionService)
    (process_document : string -> option (Main.OcrResult Image))
    (document : string) (response : BillExtractionResponse) :
  Main.extract_bill_data Image extraction_prompt llm extraction_service
    process_document document = Main.Responds response ->
  is_success response = true /\
  error response = None /\
  exists r ocr_result call v,
    data response = Some r /\
    process_document document = Some ocr_result /\
    llm call = Some v /\
    py_truthy v = true /\
    reconcile_amounts v = Ok r /\
    total_item_count r
      = Z.of_nat (List.length (all_items (pagewise_line_items r))) /\
    reconciled_amount r = round2 (item_amount_sum (pagewise_line_items r)).
Proof.
  unfold Main.extract_bill_data, Main.endpoint_body.
  destruct (process_document document) as [ocr_result|]; [|discriminate].
  destruct (fst (ExtractionService.extract_bill_data Image extraction_prompt
                   llm extraction_service (Main.image ocr_result)
                   (Main.text ocr_result))) as [r|] eqn:Hr; [|discriminate].
  intros H. injection H as <-. cbn [is_success error data].
  split; [reflexivity|]. split; [reflexivity|].
  destruct (extract_bill_data_some _ _ _ _ _ _ _ Hr)
    as (call & v & _ & Hcall & Hv & Hrec).
  destruct (reconcile_amounts_ok _ _ Hrec)
    as (_ & _ & _ & _ & _ & Hcount & Hsum & _).
  exists r, ocr_result, call, v. repeat split; assumption.
Qed.

Lemma response_carries_reconciled_data_witness :
  exists response,
    Main.extract_bill_data unit Samples.prompt
      (Samples.answers Samples.bill_missing_amount) Samples.openai_service
      Samples.acquired "bill.png" = Main.Responds response /\
    is_success response = true /\
    error response = None /\
    exists r ocr_result call v,
      data response = Some r /\
      Samples.acquired "bill.png" = Some ocr_result /\
      Samples.answers Samples.bill_missing_amount call = Some v /\
      py_truthy v = true /\
      reconcile_amounts v = Ok r /\
      total_item_count r
        = Z.of_nat (List.length (all_items (pagewise_line_items r))) /\
      reconciled_amount r = round2 (item_amount_sum (pagewise_line_items r)).
Proof.
  eexists. split; [vm_compute; reflexivity|].
  apply (response_carries_reconciled_data unit Samples.prompt
           (Samples.answers Samples.bill_missing_amount)
           Samples.openai_service Samples.acquired "bill.png").
  vm_compute. reflexivity.
Defined.

(* ================================================================== *)
(** * Payloads that reconciliation accepts *)

Section Acceptance.

Context {RT : Runtime}.

Lemma field_readable_optional_float (obj : json) (k : string) :
  field_readable obj k -> exists o, optional_float obj k = Ok o.
Proof.
  intros [H|[x H]].
  - exists None. now apply optional_float_absent.
  - exists (Some x). now apply optional_float_number.
Qed.

Lemma raw_amount_missing (e : json) :
  amount_missing e -> raw_amount e = Ok zero.
Proof.
  intros (fields & -> & Hget).
  unfold raw_amount. cbn [py_get bind]. now rewrite Hget.
Qed.

Lemma raw_amount_given (e : json) :
  amount_given e -> exists x, raw_amount e = Ok x.
Proof.
  intros (fields & v & x & -> & Hget & Hx).
  exists x. unfold raw_amount. cbn [py_get bind]. now rewrite Hget.
Qed.

(** The item is built whenever its amount reads: its amount is the one
    read, and the rest of the entry raises nothing. *)
Lemma make_bill_item_builds (e : json) (x : float) :
  entry_sound_apart_from_amount e ->
  raw_amount e = Ok x ->
  exists b, make_bill_item e = Ok b /\ item_amount b = x.
Proof.
  intros ((fields & ->) & (n & Hname) & Hrate & Hquantity) Hraw.
  destruct (field_readable_optional_float _ _ Hrate) as [rate Hr].
  destruct (field_readable_optional_float _ _ Hquantity) as [quantity Hq].
  exists {| item_name := n; item_amount := x;
            item_rate := rate; item_quantity := quantity |}.
  split; [|reflexivity].
  unfold raw_amount in Hraw. cbn [py_get bind] in Hraw.
  unfold make_bill_item. cbn [py_get bind].
  destruct (py_float
              match dict_get fields "item_amount" with
              | Some v => v
              | None => JInt 0
              end) as [y|] eqn:Hy; [|discriminate].
  injection Hraw as ->.
  cbn [bind]. rewrite Hr. cbn [bind]. rewrite Hq. cbn [bind].
  cbn [raw_item_name] in Hname. now rewrite Hname.
Qed.

Lemma make_bill_item_sound (e : json) :
  entry_sound e -> exists b, make_bill_item e = Ok b.
Proof.
  intros [Hrest [Hmissing|Hgiven]].
  - destruct (make_bill_item_builds e zero Hrest (raw_amount_missing e Hmissing))
      as (b & Hb & _).
    now exists b.
  - destruct (raw_amount_given e Hgiven) as [x Hx].
    destruct (make_bill_item_builds e x Hrest Hx) as (b & Hb & _).
    now exists b.
Qed.

Lemma traverse_total {A B : Type} (f : A -> result B) (l : list A) :
  Forall (fun x => exists y, f x = Ok y) l -> exists l', traverse f l = Ok l'.
Proof.
  induction 1 as [|x rest [y Hy] _ [ys Hys]].
  - now exists [].
  - exists (y :: ys). cbn [traverse]. rewrite Hy. cbn [bind].
    now rewrite Hys.
Qed.

Lemma make_page_sound (p : json) :
  page_sound p -> exists q, make_page p = Ok q.
Proof.
  intros (Hsub & entries & He & Hsound).
  destruct (field_readable_optional_float _ _ Hsub) as [sub Hs].
  destruct (traverse_total make_bill_item entries) as [items Hitems].
  { revert Hsound. apply Forall_impl. exact make_bill_item_sound. }
  assert (Hdict : exists d, p = JDict d).
  { destruct Hsub as [(d & -> & _)|(x & d & v & -> & _)]; now eexists. }
  destruct Hdict as [d ->].
  eexists. unfold make_page. rewrite He. cbn [bind]. rewrite Hitems.
  cbn [bind py_get]. rewrite Hs. cbn [bind]. reflexivity.
Qed.

(** A sound payload is accepted. *)
Lemma reconcile_amounts_sound (v : json) :
  payload_sound v -> exists r, reconcile_amounts v = Ok r.
Proof.
  intros (Htotal & pages & Hp & Hsound).
  destruct (traverse_total make_page pages) as [typed Htyped].
  { revert Hsound. apply Forall_impl. exact make_page_sound. }
  assert (Hstated : exists t, stated_total v = Ok t).
  { destruct Htotal as [H|[x H]].
    - exists None. now apply stated_total_absent.
    - exists (Some x). now apply stated_total_number. }
  destruct Hstated as [t Ht].
  eexists. rewrite reconcile_amounts_eq, Hp. cbn [bind].
  rewrite Htyped. cbn [bind]. rewrite Ht. cbn [bind]. reflexivity.
Qed.

(** In accepted data, the items of the entries that have no amount key
    have an amount of 0.0. *)
Lemma missing_amounts_are_zero (v : json) (r : ExtractedData) :
  reconcile_amounts v = Ok r ->
  exists ess,
    raw_entries v = Ok ess /\
    Forall2 (fun e b => amount_missing e -> item_amount b = zero)
      (List.concat ess) (all_items (pagewise_line_items r)).
Proof.
  intros Hr.
  destruct (reconcile_amounts_entries v r Hr) as (ess & Hess & Hitems & _).
  exists ess. split; [exact Hess|].
  apply traverse_Forall2 in Hitems.
  revert Hitems. apply Forall2_impl.
  intros e b Hb Hmissing.
  apply make_bill_item_amount in Hb.
  rewrite (raw_amount_missing e Hmissing) in Hb. now injection Hb.
Qed.

Variable Image : Type.
Variable extraction_prompt : string.
Variable llm : LLMCall Image -> option json.
Variable self : BillExtractionService.

(** A request returns data as soon as one of its calls yields a truthy
    payload and reconciliation accepts the truthy payloads its calls
    yield. *)
Lemma extract_bill_data_proceeds (image : Image) (ocr_text : string) :
  (exists call v,
      In call (snd (ExtractionService.extract_bill_data Image
                      extraction_prompt llm self image ocr_text)) /\
      llm call = Some v /\ py_truthy v = true) ->
  (forall call v,
      In call (snd (ExtractionService.extract_bill_data Image
                      extraction_prompt llm self image ocr_text)) ->
      llm call = Some v -> py_truthy v = true ->
      exists r, reconcile_amounts v = Ok r) ->
  exists r,
    fst (ExtractionService.extract_bill_data Image extraction_prompt llm
           self image ocr_text) = Some r.
Proof.
  rewrite extract_bill_data_calls. cbv zeta.
  unfold truthy_only, reconciled_or_none.
  intros (call & v & Hin & Hc & Hv) Hsound.
  destruct (vision_call Image extraction_prompt self image ocr_text)
    as [first|].
  - destruct (llm first) as [w|] eqn:Hw.
    + destruct (py_truthy w) eqn:Htw.
      * destruct (Hsound first w (or_introl eq_refl) Hw Htw) as [r Hr].
        exists r. cbn [fst]. now rewrite Hr.
      * cbn [fst snd] in *.
        destruct (text_call Image extraction_prompt self ocr_text)
          as [second|]; cbn [made In] in *.
        -- destruct Hin as [->|[->|[]]]; [congruence|].
           rewrite Hc, Hv.
           destruct (Hsound call v (or_intror (or_introl eq_refl)) Hc Hv)
             as [r Hr].
           exists r. now rewrite Hr.
        -- destruct Hin as [->|[]]. congruence.
    + cbn [fst snd] in *.
      destruct (text_call Image extraction_prompt self ocr_text)
        as [second|]; cbn [made In] in *.
      * destruct Hin as [->|[->|[]]]; [congruence|].
        rewrite Hc, Hv.
        destruct (Hsound call v (or_intror (or_introl eq_refl)) Hc Hv)
          as [r Hr].
        exists r. now rewrite Hr.
      * destruct Hin as [->|[]]. congruence.
  - cbn [fst snd] in *.
    destruct (text_call Image extraction_prompt self ocr_text)
      as [second|]; cbn [made In] in *.
    + destruct Hin as [->|[]].
      rewrite Hc, Hv.
      destruct (Hsound call v (or_introl eq_refl) Hc Hv) as [r Hr].
      exists r. now rewrite Hr.
    + destruct Hin.
Qed.

End Acceptance.

(* ------------------------------------------------------------------ *)
(** ** A null amount and a missing amount *)

(** C10: the two kinds of missing amount differ at the endpoint, for a
    document that was acquired.  An item entry whose [item_amount] key
    maps to [null] makes [float] raise: when the truthy payloads that the
    calls of the request yield have such an entry, no data is returned
    and the endpoint raises the error of status 500.  An item entry with
    no [item_amount] key is built, with an amount of 0.0, whenever the
    rest of the entry is sound: when one call yields a truthy payload and
    the truthy payloads yielded have nothing wrong but missing amount
    keys, the endpoint responds with the reconciliation of one of them,
    in which every item of an entry without the key has an amount of
    0.0. *)
Theorem null_amount_fails_and_missing_amount_is_zero {RT : Runtime}
    (Image : Type) (extraction_prompt : string)
    (llm : LLMCall Image -> option json) (self : BillExtractionService)
    (process_document : string -> option (Main.OcrResult Image))
    (document : string) (ocr_result : Main.OcrResult Image) :
  process_document document = Some ocr_result ->
  let request :=
    ExtractionService.extract_bill_data Image extraction_prompt llm self
      (Main.image ocr_result) (Main.text ocr_result) in
  let outcome :=
    Main.extract_bill_data Image extraction_prompt llm self process_document
      document in
  (forall fields,
      dict_get fields "item_amount" = Some JNull ->
      make_bill_item (JDict fields) = Raise TypeError) /\
  (forall e,
      amount_missing e -> entry_sound_apart_from_amount e ->
      exists b, make_bill_item e = Ok b /\ item_amount b = zero) /\
  ((forall call v,
       In call (snd request) -> llm call = Some v -> py_truthy v = true ->
       has_null_amount v) ->
   fst request = None /\
   outcome = Main.RaisesHTTP 500
               "Failed to extract bill data. Please check your OpenAI API key.") /\
  ((exists call v,
       In call (snd request) /\ llm call = Some v /\ py_truthy v = true) ->
   (forall call v,
       In call (snd request) -> llm call = Some v -> py_truthy v = true ->
       payload_sound v) ->
   exists call v r ess,
     In call (snd request) /\ llm call = Some v /\
     reconcile_amounts v = Ok r /\
     fst request = Some r /\
     outcome = Main.Responds
                 {| is_success := true; data := Some r; error := None |} /\
     raw_entries v = Ok ess /\
     Forall2 (fun e b => amount_missing e -> item_amount b = zero)
       (List.concat ess) (all_items (pagewise_line_items r))).
Proof.
  intros Hdoc request outcome.
  split; [|split; [|split]].
  - intros fields Hget. unfold make_bill_item. cbn [py_get bind].
    now rewrite Hget.
  - intros e Hmissing Hrest.
    exact (make_bill_item_builds e zero Hrest (raw_amount_missing e Hmissing)).
  - intros Hnull.
    assert (Hnone : fst request = None).
    { apply extract_bill_data_none.
      intros call v Hin Hc Hv. apply reconcile_amounts_null_amount.
      exact (Hnull call v Hin Hc Hv). }
    split; [exact Hnone|].
    unfold outcome, Main.extract_bill_data, Main.endpoint_body.
    rewrite Hdoc. fold request. now rewrite Hnone.
  - intros Hsome Hsound.
    destruct (extract_bill_data_proceeds Image extraction_prompt llm self
                (Main.image ocr_result) (Main.text ocr_result) Hsome)
      as [r Hr].
    { intros call v Hin Hc Hv. apply reconcile_amounts_sound.
      exact (Hsound call v Hin Hc Hv). }
    destruct (extract_bill_data_some Image extraction_prompt llm self _ _ _ Hr)
      as (call & v & Hin & Hc & Hv & Hrec).
    destruct (missing_amounts_are_zero v r Hrec) as (ess & Hess & Hzero).
    exists call, v, r, ess.
    split; [exact Hin|]. split; [exact Hc|]. split; [exact Hrec|].
    split; [exact Hr|]. split; [|split; [exact Hess|exact Hzero]].
    unfold outcome, Main.extract_bill_data, Main.endpoint_body.
    rewrite Hdoc. fold request. unfold request. now rewrite Hr.
Qed.

Lemma bill_missing_amount_sound :
  payload_sound Samples.bill_missing_amount.
Proof.
  split.
  { left. eexists. split; [reflexivity|]. left. reflexivity. }
  eexists. split; [reflexivity|].
  constructor; [|constructor].
  split.
  { left. eexists. split; [reflexivity|]. left. reflexivity. }
  eexists. split; [reflexivity|].
  constructor; [|constructor].
  split.
  - split; [now eexists|]. split; [now eexists|].
    split; left; eexists; (split; [reflexivity|]); left; reflexivity.
  - left. eexists. split; reflexivity.
Qed.

Lemma null_amount_fails_and_missing_amount_is_zero_witness :
  Samples.acquired "bill.png"
    = Some {| Main.text := "Syringe 12.00"; Main.image := tt |} /\
  make_bill_item (Samples.item "Syringe" [("item_amount", JNull)])
    = Raise TypeError /\
  (exists b,
      make_bill_item (Samples.item "Syringe" []) = Ok b /\
      item_amount b = zero) /\
  (fst (ExtractionService.extract_bill_data unit Samples.prompt
          (Samples.answers Samples.bill_null_amount) Samples.openai_service
          tt "Syringe 12.00") = None /\
   Main.extract_bill_data unit Samples.prompt
     (Samples.answers Samples.bill_null_amount) Samples.openai_service
     Samples.acquired "bill.png"
   = Main.RaisesHTTP 500
       "Failed to extract bill data. Please check your OpenAI API key.") /\
  (exists call v r ess,
      In call
        (snd (ExtractionService.extract_bill_data unit Samples.prompt
                (Samples.answers Samples.bill_missing_amount)
                Samples.openai_service tt "Syringe 12.00")) /\
      Samples.answers Samples.bill_missing_amount call = Some v /\
      reconcile_amounts v = Ok r /\
      fst (ExtractionService.extract_bill_data unit Samples.prompt
             (Samples.answers Samples.bill_missing_amount)
             Samples.openai_service tt "Syringe 12.00") = Some r /\
      Main.extract_bill_data unit Samples.prompt
        (Samples.answers Samples.bill_missing_amount) Samples.openai_service
        Samples.acquired "bill.png"
      = Main.Responds
          {| is_success := true; data := Some r; error := None |} /\
      raw_entries v = Ok ess /\
      Forall2 (fun e b => amount_missing e -> item_amount b = zero)
        (List.concat ess) (all_items (pagewise_line_items r))).
Proof.
  pose (ocr_result := {| Main.text := "Syringe 12.00"; Main.image := tt |}).
  destruct (null_amount_fails_and_missing_amount_is_zero (RT := text_runtime)
              unit Samples.prompt (Samples.answers Samples.bill_null_amount)
              Samples.openai_service Samples.acquired "bill.png" ocr_result
              eq_refl)
    as (Hnull & Hmissing & Hfails & _).
  destruct (null_amount_fails_and_missing_amount_is_zero (RT := text_runtime)
              unit Samples.prompt
              (Samples.answers Samples.bill_missing_amount)
              Samples.openai_service Samples.acquired "bill.png" ocr_result
              eq_refl)
    as (_ & _ & _ & Hproceeds).
  split; [reflexivity|].
  split; [apply Hnull; reflexivity|].
  split.
  { apply Hmissing.
    - eexists. split; reflexivity.
    - split; [now eexists|]. split; [now eexists|].
      split; left; eexists; (split; [reflexivity|]); left; reflexivity. }
  split.
  { apply Hfails. intros call v _ Hc _. injection Hc as <-.
    exact bill_null_amount_has_null_amount. }
  apply Hproceeds.
  - exists (OpenAIChat Config.GPT_MODEL
              (ExtractionService.vision_prompt Samples.prompt "Syringe 12.00")
              (Some tt)), Samples.bill_missing_amount.
    split; [left; reflexivity|]. split; reflexivity.
  - intros call v _ Hc _. injection Hc as <-.
    exact bill_missing_amount_sound.
Defined.
